(** * Lavarrock backend: plugin-config store, theme store, model factory

    A shallow embedding of [lavarrock/routes/config.py],
    [lavarrock/routes/themes.py] and [lavarrock/models/factory.py].

    - JSON values are an inductive type; Python dicts are insertion-ordered
      association lists with unique keys ([wf]).  Numbers are Python ints;
      floats are not part of the embedding.
    - Route handlers are written in a small state-and-exception monad: a
      raised exception keeps the mutations performed before it.
    - The Python runtime the handlers call into (the [json] module, the text
      codec of [read_text]/[write_text], [str()] formatting, pydantic
      validation, installed SDKs) is an interface, [PyRuntime], with the
      laws the handlers rely on.  [ascii_runtime] is an instance of it.
    - The module-level [DEFAULT_CONFIG] is a heap object: [.copy()] is a
      shallow copy, so the list under ["plugins"] is shared by every copy. *)

From Stdlib Require Import ZArith String Ascii List Bool Lia.
From Stdlib.Strings Require Import Byte.
From Stdlib Require Import Decimal DecimalZ.
From Stdlib Require Import Floats.SpecFloat.
From stdpp Require Import base option list gmap strings.

Import ListNotations.
Set Warnings "-register-all".
Local Open Scope Z_scope.
Local Open Scope string_scope.

(** ** JSON values as Python holds them *)

Inductive json : Type :=
| JNull
| JBool (b : bool)
| JInt (n : Z)
| JStr (s : string)
| JList (l : list json)
| JDict (d : list (string * json)).

(** A Python [dict] with string keys, in insertion order. *)
Abbreviation dict := (list (string * json)).

Module Dict.

(** [d.get(k)]: the value bound to [k], if any. *)
Fixpoint get (k : string) (d : dict) : option json :=
  match d with
  | [] => None
  | (k', v) :: rest => if String.eqb k' k then Some v else get k rest
  end.

(** [d.get(k, dflt)] *)
Definition get_default (k : string) (dflt : json) (d : dict) : json :=
  match get k d with Some v => v | None => dflt end.

(** [d[k] = v]: an existing key keeps its position, a new key goes last. *)
Fixpoint set (k : string) (v : json) (d : dict) : dict :=
  match d with
  | [] => [(k, v)]
  | (k', v') :: rest =>
      if String.eqb k' k then (k', v) :: rest else (k', v') :: set k v rest
  end.

(** [{**a, **b}]: [a] updated with every item of [b], in [b]'s order. *)
Definition merge (a b : dict) : dict :=
  fold_left (fun acc kv => set (fst kv) (snd kv) acc) b a.

Definition keys (d : dict) : list string := map fst d.

(** [k in d] *)
Definition mem (k : string) (d : dict) : bool :=
  match get k d with Some _ => true | None => false end.

(** No key of [a] is a key of [b]. *)
Definition disjoint (a b : dict) : bool :=
  forallb (fun k => negb (mem k b)) (keys a).

Fixpoint unique (ks : list string) : bool :=
  match ks with
  | [] => true
  | k :: rest => negb (existsb (String.eqb k) rest) && unique rest
  end.

End Dict.

(** A value Python can hold: no dict has a repeated key. *)
Fixpoint wf (v : json) : bool :=
  match v with
  | JList l => forallb wf l
  | JDict d => Dict.unique (Dict.keys d) && forallb (fun kv => wf (snd kv)) d
  | _ => true
  end.

Definition wf_dict (d : dict) : bool := wf (JDict d).

(** Python truthiness, as [if not x] tests it. *)
Definition truthy (v : json) : bool :=
  match v with
  | JNull => false
  | JBool b => b
  | JInt n => negb (n =? 0)%Z
  | JStr s => negb (String.eqb s EmptyString)
  | JList l => match l with [] => false | _ => true end
  | JDict d => match d with [] => false | _ => true end
  end.

(** [v == s] for a [str] s: only an equal [str] compares equal. *)
Definition py_eq_str (v : json) (s : string) : bool :=
  match v with
  | JStr t => String.eqb t s
  | _ => false
  end.

(** ** Exceptions and the handler monad *)

Inductive exn : Type :=
| TypeError
| KeyError
| AttributeError
| OSError
| UnicodeDecodeError
| JSONDecodeError
| ValidationError
| ValueError (msg : string)
| ImportError (msg : string)
| HTTPException (status_code : Z) (detail : string).

Inductive outcome (A : Type) : Type :=
| Ok (a : A)
| Raise (e : exn).
Arguments Ok {A} a.
Arguments Raise {A} e.

(** A computation over a mutable state [S]: the state it leaves behind and
    either a value or the exception that ended it. *)
Definition M (S A : Type) : Type := S -> S * outcome A.

Definition ret {S A} (a : A) : M S A := fun s => (s, Ok a).
Definition raise {S A} (e : exn) : M S A := fun s => (s, Raise e).
Definition bind {S A B} (m : M S A) (f : A -> M S B) : M S B :=
  fun s => match m s with
           | (s', Ok a) => f a s'
           | (s', Raise e) => (s', Raise e)
           end.
Definition get_state {S} : M S S := fun s => (s, Ok s).
Definition put_state {S} (s : S) : M S unit := fun _ => (s, Ok tt).
Definition lift {S A} (o : outcome A) : M S A := fun s => (s, o).

(** [try: m except <handles>: h] *)
Definition try_except {S A} (m : M S A) (handles : exn -> bool)
    (h : exn -> M S A) : M S A :=
  fun s => match m s with
           | (s', Raise e) => if handles e then h e s' else (s', Raise e)
           | r => r
           end.

#[global] Instance M_ret {S} : MRet (M S) := fun _ a => ret a.
#[global] Instance M_bind {S} : MBind (M S) := fun _ _ f m => bind m f.

(** ** Built-in operations on values *)

(** [for entry in v]: the items the loop visits *)
Definition iterate (v : json) : outcome (list json) :=
  match v with
  | JList l => Ok l
  | JDict d => Ok (map (fun kv => JStr (fst kv)) d)
  | JStr s => Ok (map (fun c => JStr (String c EmptyString)) (list_ascii_of_string s))
  | _ => Raise TypeError
  end.

(** [v.get]: only a dict has the method *)
Definition as_dict (v : json) : outcome dict :=
  match v with
  | JDict d => Ok d
  | _ => Raise AttributeError
  end.

(** [**v] inside a dict display: only a mapping unpacks *)
Definition as_mapping (v : json) : outcome dict :=
  match v with
  | JDict d => Ok d
  | _ => Raise TypeError
  end.

(** ** Files *)

(** What a path can name: a regular file with its bytes, or a directory
    (it [exists()], and reading, writing or unlinking it raises [OSError]). *)
Inductive node : Type :=
| File (content : list byte)
| Dir.

(** ** The Python runtime the handlers call *)

Class PyRuntime : Type := {
  (** [json.dumps(v, indent=...)] *)
  dumps : option nat -> json -> string;
  (** [json.loads(text)]; [None] stands for [JSONDecodeError] *)
  loads : string -> option json;
  (** text-mode file encoding; [None] stands for [UnicodeDecodeError] *)
  encode : string -> list byte;
  decode : list byte -> option string;
  (** [str(v)], as an f-string formats a value *)
  py_str : json -> string;
  (** [str(e)] of a caught exception *)
  exn_str : exn -> string;
  (** pydantic validation of a [str] and of a [dict] field *)
  pydantic_str : json -> option string;
  pydantic_dict : json -> option dict;
  (** text written by [json.dump] reads back as the same value *)
  loads_dumps : forall i v, wf v = true -> loads (dumps i v) = Some v;
  decode_encode_dumps : forall i v, decode (encode (dumps i v)) = Some (dumps i v);
  py_str_str : forall s, py_str (JStr s) = s;
  pydantic_str_str : forall s, pydantic_str (JStr s) = Some s;
  pydantic_dict_dict : forall d, pydantic_dict (JDict d) = Some d;
}.

Section Runtime.
Context `{PyRuntime}.

(** [path.read_text()] on a path that exists *)
Definition read_text (n : node) : outcome string :=
  match n with
  | Dir => Raise OSError
  | File bytes =>
      match decode bytes with
      | Some text => Ok text
      | None => Raise UnicodeDecodeError
      end
  end.

(** [json.loads(text)] *)
Definition json_loads (text : string) : outcome json :=
  match loads text with
  | Some v => Ok v
  | None => Raise JSONDecodeError
  end.

(** [json.load(open(path))] on a path that exists *)
Definition json_load (n : node) : outcome json :=
  match read_text n with
  | Ok text => json_loads text
  | Raise e => Raise e
  end.

End Runtime.

(** ** routes/config.py *)

Module Config.

Definition default_entry (id : string) : json :=
  JDict [("id", JStr id); ("enabled", JBool true); ("settings", JDict [])].

(** The list literal under ["plugins"] of [DEFAULT_CONFIG]. *)
Definition DEFAULT_PLUGINS : list json :=
  map default_entry
    [ "lavarrock.ui"; "lavarrock.wm"; "lavarrock.tooltips";
      "lavarrock.header"; "lavarrock.search-modal"; "lavarrock.app-modal";
      "lavarrock.search-bar"; "lavarrock.app-launcher";
      "lavarrock.json-tool"; "lavarrock.theme-engine";
      "lavarrock.theme-manager"; "lavarrock.theme-import";
      "lavarrock.layout-engine"; "lavarrock.settings-engine";
      "lavarrock.layout-manager"; "lavarrock.settings-manager" ].

(** [DEFAULT_CONFIG] as the module defines it. *)
Definition DEFAULT_CONFIG : json := JDict [("plugins", JList DEFAULT_PLUGINS)].

(** The state the handlers act on: what [CONFIG_FILE] names on disk, and
    the current contents of the list object that [DEFAULT_CONFIG] holds
    under ["plugins"] (its entries are updated in place through any
    shallow copy). *)
Record store : Type := {
  CONFIG_FILE : option node;
  default_plugins : list json;
}.

(** The store of a freshly started process. *)
Definition initial (file : option node) : store :=
  {| CONFIG_FILE := file; default_plugins := DEFAULT_PLUGINS |}.

(** What [DEFAULT_CONFIG] evaluates to in a given state. *)
Definition DEFAULT_CONFIG_now (st : store) : json :=
  JDict [("plugins", JList (default_plugins st))].

(** The dict [_read_config] hands back.  [shares_default] tells whether
    the list under ["plugins"] is the one [DEFAULT_CONFIG] holds: a dict
    decoded from the file is referred to by nothing else, while
    [DEFAULT_CONFIG.copy()] is a new top-level dict around the shared
    list. *)
Record config_obj : Type := {
  top : json;
  shares_default : bool;
}.

(** The loop of [patch_plugin] up to its first [entry["id"] == plugin_id]:
    position and dict of the matching entry, [None] when the loop runs
    out, or the exception [entry["id"]] raises on the way. *)
Fixpoint scan (plugin_id : string) (entries : list json) (i : nat)
    : outcome (option (nat * dict)) :=
  match entries with
  | [] => Ok None
  | JDict entry :: rest =>
      match Dict.get "id" entry with
      | Some v =>
          if py_eq_str v plugin_id then Ok (Some (i, entry))
          else scan plugin_id rest (S i)
      | None => Raise KeyError
      end
  | _ :: _ => Raise TypeError
  end.

(** *** The data model of a stored document *)

(** The entries of a document: the list under ["plugins"], no entry when
    the key is missing. *)
Definition plugins_of (doc : json) : option (list json) :=
  match doc with
  | JDict cd =>
      match Dict.get "plugins" cd with
      | None => Some []
      | Some (JList l) => Some l
      | Some _ => None
      end
  | _ => None
  end.

(** A plugin entry: [{id: str, enabled: bool, settings: mapping}]. *)
Definition is_plugin_entry (e : json) : bool :=
  match e with
  | JDict d =>
      match Dict.get "id" d, Dict.get "enabled" d, Dict.get "settings" d with
      | Some (JStr _), Some (JBool _), Some (JDict _) => true
      | _, _, _ => false
      end
  | _ => false
  end.

(** A plugin-config document: a well-formed dict whose entries are plugin
    entries. *)
Definition is_document (doc : json) : bool :=
  wf doc &&
  match plugins_of doc with
  | Some l => forallb is_plugin_entry l
  | None => false
  end.

(** The body of a PATCH: [{enabled?: bool, settings?: mapping}]. *)
Definition is_patch (body : dict) : bool :=
  wf (JDict body) &&
  match Dict.get "enabled" body with
  | None | Some (JBool _) => true
  | Some _ => false
  end &&
  match Dict.get "settings" body with
  | None | Some (JDict _) => true
  | Some _ => false
  end.

Definition has_id (p : string) (e : json) : bool :=
  match e with
  | JDict d => py_eq_str (Dict.get_default "id" JNull d) p
  | _ => false
  end.

(** Position of the first entry whose id is [p]. *)
Fixpoint index_of (p : string) (entries : list json) : option nat :=
  match entries with
  | [] => None
  | e :: rest => if has_id p e then Some 0%nat else S <$> index_of p rest
  end.

(** The settings mapping of an entry or of a patch body, empty when it
    has none. *)
Definition settings_of (d : dict) : dict :=
  match Dict.get "settings" d with
  | Some (JDict s) => s
  | _ => []
  end.

(** What [patch_plugin] makes of an existing entry [e]. *)
Definition patched_entry (e body : dict) : dict :=
  Dict.set "settings" (JDict (Dict.merge (settings_of e) (settings_of body)))
    (Dict.set "enabled"
       (Dict.get_default "enabled" (Dict.get_default "enabled" (JBool true) e) body)
       e).

Section Handlers.
Context `{PyRuntime}.

Definition _read_config : M store config_obj :=
  st ← get_state;
  match CONFIG_FILE st with
  | Some n =>
      try_except
        (text ← lift (read_text n);
         v ← lift (json_loads text);
         ret {| top := v; shares_default := false |})
        (fun e => match e with JSONDecodeError | OSError => true | _ => false end)
        (fun _ => ret {| top := DEFAULT_CONFIG_now st; shares_default := true |})
  | None => ret {| top := DEFAULT_CONFIG_now st; shares_default := true |}
  end.

Definition _write_config (config : json) : M store unit :=
  st ← get_state;
  match CONFIG_FILE st with
  | Some Dir => raise OSError
  | _ =>
      put_state {| CONFIG_FILE := Some (File (encode (dumps (Some 2%nat) config)));
                   default_plugins := default_plugins st |}
  end.

(** GET /api/config *)
Definition get_config : M store json :=
  config ← _read_config;
  ret (top config).

(** PUT /api/config *)
Definition put_config (body : dict) : M store json :=
  _write_config (JDict body);;
  ret (JDict body).

(** An in-place change of the list under ["plugins"] of [config] to
    [entries]: seen through [config], and through [DEFAULT_CONFIG] when
    the list is shared. *)
Definition set_plugins (config : config_obj) (cd : dict) (entries : list json)
    : M store config_obj :=
  st ← get_state;
  (if shares_default config
   then put_state {| CONFIG_FILE := CONFIG_FILE st; default_plugins := entries |}
   else ret tt);;
  ret {| top := JDict (Dict.set "plugins" (JList entries) cd);
         shares_default := shares_default config |}.

(** PATCH /api/config/plugin/{plugin_id} *)
Definition patch_plugin (plugin_id : string) (body : dict) : M store json :=
  config ← _read_config;
  cd ← lift (as_dict (top config));
  let plugins := Dict.get_default "plugins" (JList []) cd in
  entries ← lift (iterate plugins);
  hit ← lift (scan plugin_id entries 0);
  match hit with
  | Some (i, entry) =>
      (* entry["enabled"] = body.get("enabled", entry.get("enabled", True)) *)
      let entry1 :=
        Dict.set "enabled"
          (Dict.get_default "enabled"
             (Dict.get_default "enabled" (JBool true) entry) body) entry in
      config1 ← set_plugins config cd (<[i := JDict entry1]> entries);
      (* entry["settings"] = {**entry.get("settings", {}), **body.get("settings", {})} *)
      old ← lift (as_mapping (Dict.get_default "settings" (JDict []) entry1));
      new ← lift (as_mapping (Dict.get_default "settings" (JDict []) body));
      let entry2 := Dict.set "settings" (JDict (Dict.merge old new)) entry1 in
      config2 ← set_plugins config1 cd (<[i := JDict entry2]> entries);
      _write_config (top config2);;
      ret (JDict entry2)
  | None =>
      let new_entry :=
        JDict [("id", JStr plugin_id);
               ("enabled", Dict.get_default "enabled" (JBool true) body);
               ("settings", Dict.get_default "settings" (JDict []) body)] in
      (* config.setdefault("plugins", []).append(new_entry) *)
      config1 ←
        match Dict.get "plugins" cd with
        | None => set_plugins config cd [new_entry]
        | Some (JList l) => set_plugins config cd (l ++ [new_entry])
        | Some _ => raise AttributeError
        end;
      _write_config (top config1);;
      ret new_entry
  end.

(** The plugin-config document the store currently holds: what GET
    returns, when that is a document of the data model. *)
Definition current_document (st : store) : option json :=
  match get_config st with
  | (_, Ok doc) => if is_document doc then Some doc else None
  | (_, Raise _) => None
  end.

End Handlers.

(** The first entry of [doc] whose id is [p]. *)
Definition entry_of (p : string) (doc : json) : option dict :=
  match plugins_of doc with
  | Some l =>
      match index_of p l with
      | Some i => match l !! i with Some (JDict e) => Some e | _ => None end
      | None => None
      end
  | None => None
  end.

End Config.

(** ** routes/themes.py *)

Module Themes.

Definition ACTIVE_THEME_FILE : string := "active_theme.json".

(** [f"{name}.json"], the file name joined to [THEMES_DIR]. *)
Definition theme_file_of (name : string) : string := name +:+ ".json".

Record ThemeResponse : Type := {
  name : string;
  theme : dict;
  active : bool;
}.

(** [open(path, "w")] followed by writing [content], for the entry
    [path] of the directory *)
Definition write_file (path : string) (content : list byte)
    : M (gmap string node) unit :=
  dir ← get_state;
  match dir !! path with
  | Some Dir => raise OSError
  | _ => put_state (<[path := File content]> dir)
  end.

(** [path.unlink()] for the entry [path] *)
Definition unlink (path : string) : M (gmap string node) unit :=
  dir ← get_state;
  match dir !! path with
  | Some (File _) => put_state (delete path dir)
  | _ => raise OSError
  end.

(** The body DELETE answers with. *)
Definition deleted_message : json :=
  JDict [("message", JStr "Theme deleted successfully")].

(** *** Paths below [THEMES_DIR]

    The directory is modelled by its entries.  A file name handed to
    [THEMES_DIR / ...] need not name an entry: pathlib splits it at
    ["/"], drops empty and ["."] components and restarts from the root
    on a leading ["/"], and the operating system then walks what is
    left. *)

(** [path.split("/")] *)
Fixpoint split_slash (path : string) : list string :=
  match path with
  | EmptyString => [EmptyString]
  | String c rest =>
      if Ascii.eqb c "/" then EmptyString :: split_slash rest
      else
        match split_slash rest with
        | w :: ws => String c w :: ws
        | [] => [String c EmptyString]
        end
  end.

(** The components pathlib keeps. *)
Definition is_component (c : string) : bool :=
  negb (String.eqb c EmptyString) && negb (String.eqb c ".").

Definition has_nul (path : string) : bool :=
  existsb (Ascii.eqb "000") (list_ascii_of_string path).

(** Where [THEMES_DIR / path] leads. *)
Inductive target : Type :=
| Entry (key : string)   (* the entry [key] of [THEMES_DIR], there or not *)
| Missing                (* through a first component that is absent (ENOENT)
                            or a regular file (ENOTDIR) *)
| Invalid                (* a NUL in the path: rejected before any system call *)
| Beyond.                (* into a subdirectory, above [THEMES_DIR], or to an
                            absolute location *)

Definition locate (dir : gmap string node) (path : string) : target :=
  if has_nul path then Invalid
  else
    match path with
    | String "/" _ => Beyond
    | _ =>
        match List.filter is_component (split_slash path) with
        | [] => Beyond
        | [c] => if String.eqb c ".." then Beyond else Entry c
        | c :: _ =>
            if String.eqb c ".." then Beyond
            else
              match dir !! c with
              | Some Dir => Beyond
              | _ => Missing
              end
        end
    end.

(** A name that is a single path component: it holds no ["/"] and no
    NUL, so that [THEMES_DIR / f"{name}.json"] is the entry
    [f"{name}.json"]. *)
Definition plain_name (name : string) : bool :=
  forallb (fun c => negb (Ascii.eqb c "/") && negb (Ascii.eqb c "000"))
    (list_ascii_of_string name).

(** The file system beyond the entries of [THEMES_DIR], as it is when a
    handler runs: what a path that leads there finds, and what writing
    to it does (both may depend on the entries, a path may lead back
    into [THEMES_DIR]).  Its own state is not followed from one request
    to the next. *)
Class Outside : Type := {
  outside_lookup : string -> gmap string node -> option node;
  outside_write : string -> list byte -> M (gmap string node) unit;
}.

Section Handlers.
Context `{PyRuntime} `{Outside}.

(** What is at [THEMES_DIR / path]; [path.exists()] is whether there is
    anything. *)
Definition lookup_path (dir : gmap string node) (path : string) : option node :=
  match locate dir path with
  | Entry key => dir !! key
  | Missing | Invalid => None
  | Beyond => outside_lookup path dir
  end.

(** [open(THEMES_DIR / path, "w")] followed by writing [content] *)
Definition write_path (path : string) (content : list byte)
    : M (gmap string node) unit :=
  dir ← get_state;
  match locate dir path with
  | Entry key => write_file key content
  | Missing => raise OSError
  | Invalid => raise (ValueError "embedded null byte")
  | Beyond => outside_write path content
  end.

(** [json.load(open(THEMES_DIR / path, "r"))] *)
Definition load_path (path : string) : M (gmap string node) json :=
  dir ← get_state;
  match locate dir path with
  | Invalid => raise (ValueError "embedded null byte")
  | _ =>
      match lookup_path dir path with
      | Some n => lift (json_load n)
      | None => raise OSError
      end
  end.

(** [json.load(open(path, "r"))] for the entry [path] *)
Definition load_file (path : string) : M (gmap string node) json :=
  dir ← get_state;
  match dir !! path with
  | Some n => lift (json_load n)
  | None => raise OSError
  end.

(** POST /api/themes *)
Definition upload_theme (theme_data_name : string) (theme_data_theme : dict)
    : M (gmap string node) ThemeResponse :=
  try_except
    (let theme_file := theme_file_of theme_data_name in
     write_path theme_file
       (encode (dumps (Some 2%nat) (JDict theme_data_theme)));;
     write_file ACTIVE_THEME_FILE
       (encode (dumps None (JDict [("name", JStr theme_data_name)])));;
     ret {| name := theme_data_name; theme := theme_data_theme; active := true |})
    (fun _ => true)
    (fun e => raise (HTTPException 500 ("Failed to save theme: " +:+ exn_str e))).

(** GET /api/themes/active *)
Definition get_active_theme : M (gmap string node) (option ThemeResponse) :=
  try_except
    (dir ← get_state;
     match dir !! ACTIVE_THEME_FILE with
     | None => ret None
     | Some _ =>
         active_data ← load_file ACTIVE_THEME_FILE;
         active_dict ← lift (as_dict active_data);
         let theme_name := Dict.get_default "name" JNull active_dict in
         if negb (truthy theme_name) then ret None
         else
           let theme_file := theme_file_of (py_str theme_name) in
           match lookup_path dir theme_file with
           | None => ret None
           | Some _ =>
               theme ← load_path theme_file;
               match pydantic_str theme_name, pydantic_dict theme with
               | Some n, Some t =>
                   ret (Some {| name := n; theme := t; active := true |})
               | _, _ => raise ValidationError
               end
           end
     end)
    (fun _ => true)
    (fun e => raise (HTTPException 500 ("Failed to load theme: " +:+ exn_str e))).

(** DELETE /api/themes/{theme_name}.  The name is one segment of the
    request path, so it holds no ["/"] and
    [THEMES_DIR / f"{theme_name}.json"] is the entry of that name. *)
Definition delete_theme (theme_name : string) : M (gmap string node) json :=
  try_except
    (let theme_file := theme_file_of theme_name in
     dir ← get_state;
     match dir !! theme_file with
     | None => raise (HTTPException 404 "Theme not found")
     | Some _ =>
         unlink theme_file;;
         dir' ← get_state;
         match dir' !! ACTIVE_THEME_FILE with
         | Some _ =>
             active_data ← load_file ACTIVE_THEME_FILE;
             active_dict ← lift (as_dict active_data);
             if py_eq_str (Dict.get_default "name" JNull active_dict) theme_name
             then unlink ACTIVE_THEME_FILE
             else ret tt
         | None => ret tt
         end;;
         ret deleted_message
     end)
    (fun _ => true)
    (fun e => match e with
              | HTTPException _ _ => raise e
              | _ => raise (HTTPException 500 ("Failed to delete theme: " +:+ exn_str e))
              end).

(** The name the active-theme reference holds, when the reference file
    is there and reads as [{name: <str>}]. *)
Definition active_reference (dir : gmap string node) : option string :=
  match dir !! ACTIVE_THEME_FILE with
  | Some n =>
      match json_load n with
      | Ok (JDict d) =>
          match Dict.get "name" d with
          | Some (JStr a) => Some a
          | _ => None
          end
      | _ => None
      end
  | None => None
  end.

(** What GET /api/themes/active answers when the reference names [a] and
    the path of that theme holds [n]. *)
Definition active_outcome (a : string) (n : option node)
    : outcome (option ThemeResponse) :=
  if String.eqb a EmptyString then Ok None
  else
    match n with
    | None => Ok None
    | Some n =>
        match json_load n with
        | Ok v =>
            match pydantic_dict v with
            | Some t => Ok (Some {| name := a; theme := t; active := true |})
            | None =>
                Raise (HTTPException 500
                         ("Failed to load theme: " +:+ exn_str ValidationError))
            end
        | Raise e =>
            Raise (HTTPException 500 ("Failed to load theme: " +:+ exn_str e))
        end
    end.

End Handlers.

(** *** Listing the themes *)

(** [fnmatch(name, "*.json")]: the name ends in [.json]. *)
Definition is_json_name (name : string) : bool :=
  match rev (list_ascii_of_string name) with
  | "n" :: "o" :: "s" :: "j" :: "." :: _ => true
  | _ => false
  end%char.

(** Position of the first ["."] of [cs]. *)
Fixpoint find_dot (cs : list ascii) : option nat :=
  match cs with
  | [] => None
  | c :: rest => if Ascii.eqb c "."%char then Some 0%nat else S <$> find_dot rest
  end.

(** [Path(name).stem]: the name up to its last dot, when that dot is
    neither the first nor the last character; the whole name otherwise. *)
Definition stem (name : string) : string :=
  let cs := list_ascii_of_string name in
  match find_dot (rev cs) with
  | Some from_end =>
      let i := (length cs - 1 - from_end)%nat in   (* name.rfind(".") *)
      if (0 <? i)%nat && (i <? length cs - 1)%nat
      then string_of_list_ascii (take i cs)
      else name
  | None => name
  end.

Section Listing.
Context `{PyRuntime}.
(** The names [THEMES_DIR] holds, in the order the file system
    enumerates them. *)
Variable scandir : gmap string node -> list string.

(** The body of the loop of [list_themes], over the paths the glob
    yields. *)
Fixpoint list_loop (active_name : json) (files : list string)
    : M (gmap string node) (list ThemeResponse) :=
  match files with
  | [] => mret []
  | theme_file :: rest =>
      if String.eqb theme_file "active_theme.json" then list_loop active_name rest
      else
        theme ← load_file theme_file;
        let theme_name := stem theme_file in
        match pydantic_dict theme with
        | Some t =>
            themes ← list_loop active_name rest;
            mret ({| name := theme_name; theme := t;
                     active := py_eq_str active_name theme_name |} :: themes)
        | None => raise ValidationError
        end
  end.

(** GET /api/themes *)
Definition list_themes : M (gmap string node) (list ThemeResponse) :=
  try_except
    (dir ← get_state;
     active_name ←
       match dir !! ACTIVE_THEME_FILE with
       | Some _ =>
           active_data ← load_file ACTIVE_THEME_FILE;
           active_dict ← lift (as_dict active_data);
           mret (Dict.get_default "name" JNull active_dict)
       | None => mret JNull
       end;
     list_loop active_name (filter (fun f => is_json_name f = true) (scandir dir)))
    (fun _ => true)
    (fun e => raise (HTTPException 500 ("Failed to list themes: " +:+ exn_str e))).

End Listing.

End Themes.

(** ** config.py and models/factory.py *)

Module Factory.

(** A Python [float], as the IEEE value it is. *)
Abbreviation float := spec_float.

Module OllamaConfig.
Record t : Type := {
  host : string;
  model_id : string;
  temperature : float;
  keep_alive : string;
}.

(** The field defaults of the class: 0.7 is the double
    [6305039478318694 * 2^-53]. *)
Definition default : t :=
  {| host := "http://localhost:11434";
     model_id := "llama3.1:latest";
     temperature := S754_finite false 6305039478318694 (-53);
     keep_alive := "10m" |}.
End OllamaConfig.

Module BedrockConfig.
Record t : Type := {
  model_id : string;
  region : string;
  profile : option string;
  temperature : float;
}.

(** The field defaults of the class: 0.3 is the double
    [5404319552844595 * 2^-54]. *)
Definition default : t :=
  {| model_id := "anthropic.claude-sonnet-4-20250514-v1:0";
     region := "us-west-2";
     profile := None;
     temperature := S754_finite false 5404319552844595 (-54) |}.
End BedrockConfig.

(** What [create_model] can be handed: a typed config, or any other
    value (a raw [dict] among them). *)
Inductive config_arg : Type :=
| OfOllama (c : OllamaConfig.t)
| OfBedrock (c : BedrockConfig.t)
| Raw (v : json).

(** [boto3.Session(profile_name=p).client(service)] *)
Record boto3_client : Type := {
  session_profile_name : string;
  service_name : string;
}.

(** The keyword arguments of one [BedrockModel(...)] call. *)
Record BedrockModel_kwargs : Type := {
  bm_model_id : string;
  bm_temperature : float;
  bm_streaming : bool;
  bm_region_name : option string;
  bm_client : option boto3_client;
}.

(** The model instance returned to the caller. *)
Inductive model : Type :=
| OllamaModel (host model_id : string) (temperature : float) (keep_alive : string)
| BedrockModel (kwargs : BedrockModel_kwargs).

(** Calls made to the provider SDKs, in the order they are made. *)
Inductive call : Type :=
| Call_OllamaModel (host model_id : string) (temperature : float) (keep_alive : string)
| Call_boto3_Session (profile_name : string)
| Call_session_client (profile_name : string) (service : string)
| Call_BedrockModel (kwargs : BedrockModel_kwargs).

Definition emit (c : call) : M (list call) unit :=
  calls ← get_state;
  put_state (calls ++ [c])%list.

(** [type(v)] as an f-string prints it *)
Definition type_str (v : json) : string :=
  match v with
  | JNull => "<class 'NoneType'>"
  | JBool _ => "<class 'bool'>"
  | JInt _ => "<class 'int'>"
  | JStr _ => "<class 'str'>"
  | JList _ => "<class 'list'>"
  | JDict _ => "<class 'dict'>"
  end.

(** The keyword arguments [_create_bedrock_model] builds from a config. *)
Definition bedrock_kwargs (config : BedrockConfig.t) : BedrockModel_kwargs :=
  {| bm_model_id := BedrockConfig.model_id config;
     bm_temperature := BedrockConfig.temperature config;
     bm_streaming := true;
     bm_region_name :=
       if String.eqb (BedrockConfig.region config) EmptyString then None
       else Some (BedrockConfig.region config);
     bm_client :=
       match BedrockConfig.profile config with
       | Some p =>
           if String.eqb p EmptyString then None
           else Some {| session_profile_name := p; service_name := "bedrock-runtime" |}
       | None => None
       end |}.

Section Create.
Context `{PyRuntime}.
(** The pydantic constructors [OllamaConfig] and [BedrockConfig] applied
    to the items of a raw dict (they validate the fields and also consult
    the process environment). *)
Variable OllamaConfig_init : dict -> outcome OllamaConfig.t.
Variable BedrockConfig_init : dict -> outcome BedrockConfig.t.
(** Whether [strands.models.ollama], and [strands.models] with [boto3],
    can be imported. *)
Variable ollama_installed : bool.
Variable bedrock_installed : bool.

Definition _create_ollama_model (config : OllamaConfig.t) : M (list call) model :=
  if negb ollama_installed
  then raise (ImportError "Ollama support requires 'strands-agents[ollama]' to be installed")
  else
    emit (Call_OllamaModel (OllamaConfig.host config) (OllamaConfig.model_id config)
            (OllamaConfig.temperature config) (OllamaConfig.keep_alive config));;
    ret (OllamaModel (OllamaConfig.host config) (OllamaConfig.model_id config)
           (OllamaConfig.temperature config) (OllamaConfig.keep_alive config)).

Definition _create_bedrock_model (config : BedrockConfig.t) : M (list call) model :=
  if negb bedrock_installed
  then raise (ImportError "Bedrock support requires 'strands-agents[bedrock]' and 'boto3' to be installed")
  else
    (* if config.region: client_kwargs["region_name"] = config.region *)
    let region_name :=
      if String.eqb (BedrockConfig.region config) EmptyString then None
      else Some (BedrockConfig.region config) in
    (* if config.profile: session = ...; client_kwargs["client"] = ... *)
    client ←
      match BedrockConfig.profile config with
      | Some p =>
          if String.eqb p EmptyString then ret None
          else
            emit (Call_boto3_Session p);;
            emit (Call_session_client p "bedrock-runtime");;
            ret (Some {| session_profile_name := p; service_name := "bedrock-runtime" |})
      | None => ret None
      end;
    let kwargs :=
      {| bm_model_id := BedrockConfig.model_id config;
         bm_temperature := BedrockConfig.temperature config;
         bm_streaming := true;
         bm_region_name := region_name;
         bm_client := client |} in
    emit (Call_BedrockModel kwargs);;
    ret (BedrockModel kwargs).

Definition create_model (config : config_arg) : M (list call) model :=
  (* if isinstance(config, dict): ... *)
  config ←
    match config with
    | Raw (JDict d) =>
        let provider := Dict.get_default "provider" JNull d in
        if py_eq_str provider "ollama" then
          c ← lift (OllamaConfig_init d); ret (OfOllama c)
        else if py_eq_str provider "bedrock" then
          c ← lift (BedrockConfig_init d); ret (OfBedrock c)
        else raise (ValueError ("Unsupported provider: " +:+ py_str provider))
    | _ => ret config
    end;
  match config with
  | OfOllama c => _create_ollama_model c
  | OfBedrock c => _create_bedrock_model c
  | Raw v => raise (ValueError ("Unsupported config type: " +:+ type_str v))
  end.

End Create.

(** *** Application settings *)

Module Settings.
Record t : Type := {
  api_title : string;
  api_version : string;
  debug : bool;
  ai_provider : string;
  ollama_host : string;
  ollama_model : string;
  ollama_temperature : float;
  bedrock_region : string;
  bedrock_model : string;
  bedrock_temperature : float;
  database_url : string;
  log_level : string;
}.
End Settings.

(** The SDK call that constructs a given model. *)
Definition model_call (m : model) : call :=
  match m with
  | OllamaModel host model_id temperature keep_alive =>
      Call_OllamaModel host model_id temperature keep_alive
  | BedrockModel kwargs => Call_BedrockModel kwargs
  end.

Definition is_model_call (c : call) : bool :=
  match c with
  | Call_OllamaModel _ _ _ _ | Call_BedrockModel _ => true
  | Call_boto3_Session _ | Call_session_client _ _ => false
  end.

(** The provider whose SDK a call goes to. *)
Definition provider_of_call (c : call) : string :=
  match c with
  | Call_OllamaModel _ _ _ _ => "ollama"
  | Call_boto3_Session _ | Call_session_client _ _ | Call_BedrockModel _ => "bedrock"
  end.

Section FromSettings.
Context `{PyRuntime}.
Variable OllamaConfig_init : dict -> outcome OllamaConfig.t.
Variable BedrockConfig_init : dict -> outcome BedrockConfig.t.
Variable ollama_installed : bool.
Variable bedrock_installed : bool.
(** The pydantic constructors called with keyword arguments:
    [OllamaConfig(host=, model_id=, temperature=)] and
    [BedrockConfig(model_id=, region=, temperature=)].  The fields not
    passed come from the process environment or the class defaults. *)
Variable OllamaConfig_new : string -> string -> float -> outcome OllamaConfig.t.
Variable BedrockConfig_new : string -> string -> float -> outcome BedrockConfig.t.

Definition create_from_settings (settings : Settings.t) : M (list call) model :=
  config ←
    (if String.eqb (Settings.ai_provider settings) "ollama" then
       c ← lift (OllamaConfig_new (Settings.ollama_host settings)
                   (Settings.ollama_model settings)
                   (Settings.ollama_temperature settings));
       mret (OfOllama c)
     else if String.eqb (Settings.ai_provider settings) "bedrock" then
       c ← lift (BedrockConfig_new (Settings.bedrock_model settings)
                   (Settings.bedrock_region settings)
                   (Settings.bedrock_temperature settings));
       mret (OfBedrock c)
     else raise (ValueError ("Unsupported AI provider: "
                             +:+ Settings.ai_provider settings)));
  create_model OllamaConfig_init BedrockConfig_init ollama_installed
    bedrock_installed config.

End FromSettings.

End Factory.

(** ** A runtime to run the handlers on

    A JSON printer and parser in the layout of Python's [json] module
    ([ensure_ascii], the separators and indentation of [dumps]), over the
    values of the embedding: numbers are integers, and a string holds code
    points below 256.  Text files are encoded in ASCII. *)

Module Codec.
Local Open Scope char_scope.
Local Open Scope list_scope.

Definition is_ws (c : ascii) : bool :=
  match c with
  | " " | "009" | "010" | "013" => true
  | _ => false
  end.

Fixpoint skip_ws (s : list ascii) : list ascii :=
  match s with
  | c :: rest => if is_ws c then skip_ws rest else s
  | [] => []
  end.

(** *** Numbers *)

Fixpoint print_uint (d : uint) : list ascii :=
  match d with
  | Nil => []
  | D0 d => "0" :: print_uint d
  | D1 d => "1" :: print_uint d
  | D2 d => "2" :: print_uint d
  | D3 d => "3" :: print_uint d
  | D4 d => "4" :: print_uint d
  | D5 d => "5" :: print_uint d
  | D6 d => "6" :: print_uint d
  | D7 d => "7" :: print_uint d
  | D8 d => "8" :: print_uint d
  | D9 d => "9" :: print_uint d
  end.

Definition print_int (n : Z) : list ascii :=
  match Z.to_int n with
  | Pos d => print_uint d
  | Neg d => "-" :: print_uint d
  end.

Definition digit_of (c : ascii) : option (uint -> uint) :=
  match c with
  | "0" => Some D0 | "1" => Some D1 | "2" => Some D2 | "3" => Some D3
  | "4" => Some D4 | "5" => Some D5 | "6" => Some D6 | "7" => Some D7
  | "8" => Some D8 | "9" => Some D9
  | _ => None
  end.

(** The longest run of digits at the head of [s], and what follows it. *)
Fixpoint parse_uint (s : list ascii) : uint * list ascii :=
  match s with
  | c :: rest =>
      match digit_of c with
      | Some D => let (d, rest') := parse_uint rest in (D d, rest')
      | None => (Nil, s)
      end
  | [] => (Nil, [])
  end.

(** JSON digits: at least one, and no leading zero before another. *)
Definition valid_digits (d : uint) : bool :=
  match d with
  | Nil => false
  | D0 Nil => true
  | D0 _ => false
  | _ => true
  end.

Definition parse_int (s : list ascii) : option (Z * list ascii) :=
  match s with
  | "-" :: rest =>
      let (d, rest') := parse_uint rest in
      if valid_digits d then Some (Z.of_int (Neg d), rest') else None
  | _ =>
      let (d, rest') := parse_uint s in
      if valid_digits d then Some (Z.of_int (Pos d), rest') else None
  end.

(** *** Strings *)

Definition hex_char (n : N) : ascii :=
  match n with
  | 0 => "0" | 1 => "1" | 2 => "2" | 3 => "3" | 4 => "4" | 5 => "5"
  | 6 => "6" | 7 => "7" | 8 => "8" | 9 => "9" | 10 => "a" | 11 => "b"
  | 12 => "c" | 13 => "d" | 14 => "e" | _ => "f"
  end%N.

Definition hex_value (c : ascii) : option N :=
  let n := N_of_ascii c in
  if ((48 <=? n) && (n <=? 57))%N then Some (n - 48)%N        (* 0-9 *)
  else if ((97 <=? n) && (n <=? 102))%N then Some (n - 87)%N  (* a-f *)
  else if ((65 <=? n) && (n <=? 70))%N then Some (n - 55)%N   (* A-F *)
  else None.

(** [ensure_ascii]: what one character of a string is written as. *)
Definition escape_char (c : ascii) : list ascii :=
  match c with
  | "034" => ["\"; "034"]
  | "\" => ["\"; "\"]
  | "010" => ["\"; "n"]
  | "013" => ["\"; "r"]
  | "009" => ["\"; "t"]
  | "008" => ["\"; "b"]
  | "012" => ["\"; "f"]
  | _ =>
      let n := N_of_ascii c in
      if ((n <? 32) || (126 <? n))%N
      then ["\"; "u"; "0"; "0"; hex_char (n / 16); hex_char (n mod 16)]
      else [c]
  end.

Definition print_string (s : string) : list ascii :=
  "034" :: flat_map escape_char (list_ascii_of_string s) ++ ["034"].

(** The character a one-letter escape stands for. *)
Definition unescape (c : ascii) : option ascii :=
  match c with
  | "034" => Some "034"
  | "\" => Some "\"
  | "/" => Some "/"
  | "b" => Some "008"
  | "f" => Some "012"
  | "n" => Some "010"
  | "r" => Some "013"
  | "t" => Some "009"
  | _ => None
  end.

Definition hex4 (h1 h2 h3 h4 : ascii) : option ascii :=
  match hex_value h1, hex_value h2, hex_value h3, hex_value h4 with
  | Some a, Some b, Some c, Some d =>
      let n := (((a * 16 + b) * 16 + c) * 16 + d)%N in
      if (n <? 256)%N then Some (ascii_of_N n) else None
  | _, _, _, _ => None
  end.

Definition push (c : ascii) (r : option (string * list ascii))
    : option (string * list ascii) :=
  match r with
  | Some (s, rest) => Some (String c s, rest)
  | None => None
  end.

(** The body of a string, after its opening quote, up to the closing one. *)
Fixpoint parse_string (s : list ascii) : option (string * list ascii) :=
  match s with
  | [] => None
  | c :: rest =>
      if Ascii.eqb c "034" then Some (EmptyString, rest)
      else if Ascii.eqb c "\" then
        match rest with
        | [] => None
        | e :: rest' =>
            if Ascii.eqb e "u" then
              match rest' with
              | h1 :: h2 :: h3 :: h4 :: rest'' =>
                  match hex4 h1 h2 h3 h4 with
                  | Some ch => push ch (parse_string rest'')
                  | None => None
                  end
              | _ => None
              end
            else
              match unescape e with
              | Some ch => push ch (parse_string rest')
              | None => None
              end
        end
      else if (N_of_ascii c <? 32)%N then None
      else push c (parse_string rest)
  end.

(** *** Values *)

(** Newline and indentation for nesting depth [lvl], when an indent is
    asked for. *)
Definition newline (indent : option nat) (lvl : nat) : list ascii :=
  match indent with
  | Some n => "010" :: repeat " " (n * lvl)
  | None => []
  end.

Definition item_separator (indent : option nat) (lvl : nat) : list ascii :=
  match indent with
  | Some _ => "," :: newline indent lvl
  | None => [","; " "]
  end.

Fixpoint join (sep : list ascii) (items : list (list ascii)) : list ascii :=
  match items with
  | [] => []
  | [x] => x
  | x :: rest => x ++ sep ++ join sep rest
  end.

(** A list or dict display around its printed items. *)
Definition bracket (indent : option nat) (lvl : nat) (opening closing : ascii)
    (items : list (list ascii)) : list ascii :=
  match items with
  | [] => [opening; closing]
  | _ =>
      opening :: newline indent (S lvl)
        ++ join (item_separator indent (S lvl)) items
        ++ newline indent lvl ++ [closing]
  end.

Fixpoint print (indent : option nat) (lvl : nat) (v : json) : list ascii :=
  match v with
  | JNull => ["n"; "u"; "l"; "l"]
  | JBool true => ["t"; "r"; "u"; "e"]
  | JBool false => ["f"; "a"; "l"; "s"; "e"]
  | JInt n => print_int n
  | JStr s => print_string s
  | JList l => bracket indent lvl "[" "]" (map (print indent (S lvl)) l)
  | JDict d =>
      bracket indent lvl "{" "}"
        (map (fun kv => print_string (fst kv) ++ [":"; " "]
                          ++ print indent (S lvl) (snd kv)) d)
  end.

(** What follows [closing], when that is the next character after
    whitespace: an empty display. *)
Definition closes (closing : ascii) (s : list ascii) : option (list ascii) :=
  match skip_ws s with
  | c :: rest => if Ascii.eqb c closing then Some rest else None
  | [] => None
  end.

(** The items of a list display, up to and including the closing bracket. *)
Fixpoint parse_items (parse_value : list ascii -> option (json * list ascii))
    (fuel : nat) (s : list ascii) : option (list json * list ascii) :=
  match fuel with
  | O => None
  | S fuel =>
      match parse_value s with
      | Some (v, rest) =>
          match skip_ws rest with
          | "," :: rest' =>
              match parse_items parse_value fuel rest' with
              | Some (vs, rest'') => Some (v :: vs, rest'')
              | None => None
              end
          | "]" :: rest' => Some ([v], rest')
          | _ => None
          end
      | None => None
      end
  end.

(** The members of a dict display: ["key": value] separated by commas.
    A repeated key keeps its first position and takes the last value. *)
Fixpoint parse_members (parse_value : list ascii -> option (json * list ascii))
    (fuel : nat) (acc : dict) (s : list ascii) : option (dict * list ascii) :=
  match fuel with
  | O => None
  | S fuel =>
      match skip_ws s with
      | "034" :: rest =>
          match parse_string rest with
          | Some (k, rest1) =>
              match skip_ws rest1 with
              | ":" :: rest2 =>
                  match parse_value rest2 with
                  | Some (v, rest3) =>
                      let acc := Dict.set k v acc in
                      match skip_ws rest3 with
                      | "," :: rest4 => parse_members parse_value fuel acc rest4
                      | "}" :: rest4 => Some (acc, rest4)
                      | _ => None
                      end
                  | None => None
                  end
              | _ => None
              end
          | None => None
          end
      | _ => None
      end
  end.

Fixpoint parse_value (fuel : nat) (s : list ascii) : option (json * list ascii) :=
  match fuel with
  | O => None
  | S fuel =>
      match skip_ws s with
      | "n" :: "u" :: "l" :: "l" :: rest => Some (JNull, rest)
      | "t" :: "r" :: "u" :: "e" :: rest => Some (JBool true, rest)
      | "f" :: "a" :: "l" :: "s" :: "e" :: rest => Some (JBool false, rest)
      | "034" :: rest =>
          match parse_string rest with
          | Some (str, rest') => Some (JStr str, rest')
          | None => None
          end
      | "[" :: rest =>
          match closes "]" rest with
          | Some rest' => Some (JList [], rest')
          | None =>
              match parse_items (parse_value fuel) fuel rest with
              | Some (l, rest') => Some (JList l, rest')
              | None => None
              end
          end
      | "{" :: rest =>
          match closes "}" rest with
          | Some rest' => Some (JDict [], rest')
          | None =>
              match parse_members (parse_value fuel) fuel [] rest with
              | Some (d, rest') => Some (JDict d, rest')
              | None => None
              end
          end
      | s' =>
          match parse_int s' with
          | Some (n, rest) => Some (JInt n, rest)
          | None => None
          end
      end
  end.

(** [json.dumps] and [json.loads] *)
Definition dumps (indent : option nat) (v : json) : string :=
  string_of_list_ascii (print indent 0 v).

Definition loads (text : string) : option json :=
  let s := list_ascii_of_string text in
  match parse_value (S (length s)) s with
  | Some (v, rest) => match skip_ws rest with [] => Some v | _ => None end
  | None => None
  end.

(** *** The ASCII text codec *)

Definition is_ascii7 (c : ascii) : bool := (N_of_ascii c <? 128)%N.

Definition encode (text : string) : list byte :=
  map byte_of_ascii (list_ascii_of_string text).

Definition decode (bytes : list byte) : option string :=
  let cs := map ascii_of_byte bytes in
  if forallb is_ascii7 cs then Some (string_of_list_ascii cs) else None.

(** *** Formatting and validation *)

(** [str(v)]; inside a list or dict a string is shown in single quotes. *)
Fixpoint py_str_in (nested : bool) (v : json) : string :=
  match v with
  | JNull => "None"
  | JBool true => "True"
  | JBool false => "False"
  | JInt n => string_of_list_ascii (print_int n)
  | JStr s => if nested then "'" +:+ s +:+ "'" else s
  | JList l =>
      "[" +:+ String.concat ", " (map (py_str_in true) l) +:+ "]"
  | JDict d =>
      "{" +:+ String.concat ", "
                (map (fun kv => "'" +:+ fst kv +:+ "': " +:+ py_str_in true (snd kv)) d)
          +:+ "}"
  end%string.

Definition py_str : json -> string := py_str_in false.

Definition exn_str (e : exn) : string :=
  match e with
  | TypeError => "unsupported operand"
  | KeyError => "key"
  | AttributeError => "object has no attribute"
  | OSError => "[Errno 21] Is a directory"
  | UnicodeDecodeError => "'ascii' codec can't decode byte"
  | JSONDecodeError => "Expecting value"
  | ValidationError => "validation error"
  | ValueError msg => msg
  | ImportError msg => msg
  | HTTPException _ detail => detail
  end%string.

Definition pydantic_str (v : json) : option string :=
  match v with JStr s => Some s | _ => None end.

Definition pydantic_dict (v : json) : option dict :=
  match v with JDict d => Some d | _ => None end.

End Codec.

(** * Facts *)

(** ** Dicts *)

Module DictFacts.

Lemma get_set_eq k v d : Dict.get k (Dict.set k v d) = Some v.
Proof.
  induction d as [|[k' v'] d IH]; simpl.
  - by rewrite String.eqb_refl.
  - destruct (String.eqb k' k) eqn:E; simpl; rewrite E; auto.
Qed.

Lemma get_set_ne k k' v d :
  k <> k' -> Dict.get k' (Dict.set k v d) = Dict.get k' d.
Proof.
  intros Hne. induction d as [|[k0 v0] d IH]; simpl.
  - destruct (String.eqb k k') eqn:E; [apply String.eqb_eq in E; done | done].
  - destruct (String.eqb k0 k) eqn:E; simpl.
    + apply String.eqb_eq in E. subst k0.
      destruct (String.eqb k k') eqn:E'; [apply String.eqb_eq in E'; done | done].
    + destruct (String.eqb k0 k'); auto.
Qed.

Lemma get_set k k' v d :
  Dict.get k' (Dict.set k v d) = if String.eqb k k' then Some v else Dict.get k' d.
Proof.
  destruct (String.eqb k k') eqn:E.
  - apply String.eqb_eq in E. subst. apply get_set_eq.
  - apply String.eqb_neq in E. by apply get_set_ne.
Qed.

Lemma existsb_eqb_keys k d :
  existsb (String.eqb k) (Dict.keys d) = Dict.mem k d.
Proof.
  unfold Dict.mem, Dict.keys.
  induction d as [|[k' v'] d IH]; simpl; [done|].
  rewrite (String.eqb_sym k k'). destruct (String.eqb k' k); simpl; auto.
Qed.

Lemma mem_set k k' v d :
  Dict.mem k' (Dict.set k v d) = String.eqb k k' || Dict.mem k' d.
Proof.
  unfold Dict.mem. rewrite get_set. by destruct (String.eqb k k').
Qed.

Lemma unique_set k v d :
  Dict.unique (Dict.keys d) = true ->
  Dict.unique (Dict.keys (Dict.set k v d)) = true.
Proof.
  induction d as [|[k' v'] d IH]; simpl; [done|].
  intros [Hk Hu]%andb_prop.
  destruct (String.eqb k' k) eqn:E; simpl.
  - by rewrite Hk, Hu.
  - fold (Dict.keys (Dict.set k v d)). fold (Dict.keys d) in Hk.
    rewrite existsb_eqb_keys in *. rewrite mem_set.
    rewrite (String.eqb_sym k k'), E. simpl. rewrite Hk. simpl. by apply IH.
Qed.

Lemma forallb_set (P : string * json -> bool) k v d :
  (forall k0 v0, P (k0, v0) = true -> P (k0, v) = true) ->
  P (k, v) = true -> forallb P d = true -> forallb P (Dict.set k v d) = true.
Proof.
  intros Hk Hv. induction d as [|[k' v'] d IH]; simpl.
  - by rewrite Hv.
  - intros [H1 H2]%andb_prop. destruct (String.eqb k' k) eqn:E; simpl.
    + by rewrite (Hk _ _ H1), H2.
    + by rewrite H1, IH.
Qed.

Lemma wf_set k v d :
  wf v = true -> wf (JDict d) = true -> wf (JDict (Dict.set k v d)) = true.
Proof.
  simpl. intros Hv [Hu Hd]%andb_prop.
  rewrite unique_set by done. simpl.
  apply forallb_set; auto.
Qed.

Lemma wf_get k v d : wf (JDict d) = true -> Dict.get k d = Some v -> wf v = true.
Proof.
  simpl. intros [_ Hd]%andb_prop.
  induction d as [|[k' v'] d IH]; simpl in *; [done|].
  apply andb_prop in Hd as [H1 H2].
  destruct (String.eqb k' k); [by intros [= <-] | auto].
Qed.

Lemma wf_get_default k dflt d :
  wf (JDict d) = true -> wf dflt = true -> wf (Dict.get_default k dflt d) = true.
Proof.
  intros Hd Hdf. unfold Dict.get_default.
  destruct (Dict.get k d) eqn:E; [by eapply wf_get | done].
Qed.

Lemma wf_merge a b :
  wf (JDict a) = true -> wf (JDict b) = true -> wf (JDict (Dict.merge a b)) = true.
Proof.
  unfold Dict.merge. revert a.
  induction b as [|[k v] b IH]; intros a Ha Hb; simpl; [done|].
  simpl in Hb. apply andb_prop in Hb as [[Hk Hu]%andb_prop [Hv Hb]%andb_prop].
  apply IH.
  - by apply wf_set.
  - simpl. by rewrite Hu, Hb.
Qed.

(** An item of [b] wins over [a]; a key [b] lacks keeps [a]'s value. *)
Lemma get_merge k a b :
  Dict.unique (Dict.keys b) = true ->
  Dict.get k (Dict.merge a b) =
    match Dict.get k b with Some v => Some v | None => Dict.get k a end.
Proof.
  unfold Dict.merge. revert a.
  induction b as [|[k' v'] b IH]; intros a Hu; simpl; [done|].
  simpl in Hu. apply andb_prop in Hu as [Hk Hu].
  rewrite IH by done. rewrite get_set.
  destruct (String.eqb k' k) eqn:E; [|done].
  apply String.eqb_eq in E. subst k'.
  fold (Dict.keys b) in Hk. rewrite existsb_eqb_keys in Hk.
  unfold Dict.mem in Hk. by destruct (Dict.get k b).
Qed.

End DictFacts.

(** ** The plugin-config store *)

Module ConfigFacts.
Import Config.

Ltac monad_simpl :=
  unfold mbind, mret, M_bind, M_ret, bind, ret, raise, lift, get_state,
    put_state, try_except in *;
  cbn beta iota zeta delta [fst snd top shares_default CONFIG_FILE default_plugins] in *.

Lemma forallb_insert {A} (P : A -> bool) (l : list A) i x :
  forallb P l = true -> P x = true -> forallb P (<[i := x]> l) = true.
Proof.
  revert i. induction l as [|a l IH]; intros i Hl Hx; [done|].
  simpl in Hl. apply andb_prop in Hl as [Ha Hl].
  destruct i; simpl; [by rewrite Hx, Hl | by rewrite Ha, IH].
Qed.

Lemma forallb_snoc {A} (P : A -> bool) (l : list A) x :
  forallb P l = true -> P x = true -> forallb P (l ++ [x]) = true.
Proof. intros Hl Hx. rewrite forallb_app, Hl. simpl. by rewrite Hx. Qed.

Lemma forallb_lookup {A} (P : A -> bool) (l : list A) i x :
  forallb P l = true -> l !! i = Some x -> P x = true.
Proof.
  intros Hl Hi. rewrite forallb_forall in Hl. apply Hl.
  apply list_elem_of_In. by eapply list_elem_of_lookup_2.
Qed.

Lemma index_of_lookup p entries i :
  index_of p entries = Some i ->
  exists e, entries !! i = Some e /\ has_id p e = true.
Proof.
  revert i. induction entries as [|e l IH]; intros i; simpl; [done|].
  destruct (has_id p e) eqn:E.
  - intros [= <-]. eauto.
  - destruct (index_of p l) as [j|]; [|done]. simpl. intros [= <-].
    destruct (IH j eq_refl) as (e' & ? & ?). eauto.
Qed.

Lemma index_of_insert p entries i x :
  index_of p entries = Some i -> has_id p x = true ->
  index_of p (<[i := x]> entries) = Some i.
Proof.
  revert i. induction entries as [|e l IH]; intros i; simpl; [done|].
  destruct (has_id p e) eqn:E.
  - intros [= <-] Hx. simpl. by rewrite Hx.
  - destruct (index_of p l) as [j|] eqn:Ej; [|done]. simpl. intros [= <-] Hx.
    simpl. rewrite E. by rewrite (IH j eq_refl Hx).
Qed.

Lemma index_of_snoc_None p entries x :
  index_of p entries = None -> has_id p x = true ->
  index_of p (entries ++ [x]) = Some (length entries).
Proof.
  induction entries as [|e l IH]; simpl; intros Hn Hx.
  - by rewrite Hx.
  - destruct (has_id p e); [done|].
    destruct (index_of p l); [done|]. by rewrite IH.
Qed.

(** On plugin entries the loop of [patch_plugin] raises nothing and stops
    at the first entry whose id matches. *)
Lemma scan_found p entries n i e :
  forallb is_plugin_entry entries = true ->
  index_of p entries = Some i -> entries !! i = Some (JDict e) ->
  scan p entries n = Ok (Some ((n + i)%nat, e)).
Proof.
  revert n i. induction entries as [|x l IH]; intros n i; simpl; [done|].
  intros [Hx Hl]%andb_prop.
  destruct x as [| | | | |d]; try done. simpl in *.
  unfold Dict.get_default.
  destruct (Dict.get "id" d) as [v|]; [|done].
  destruct (py_eq_str v p).
  - intros [= <-] [= <-]. by rewrite Nat.add_0_r.
  - destruct (index_of p l) as [j|] eqn:Ej; [|done]. simpl. intros [= <-] Hi.
    simpl in Hi. rewrite (IH (S n) j Hl eq_refl Hi). do 3 f_equal. lia.
Qed.

Lemma scan_missing p entries n :
  forallb is_plugin_entry entries = true ->
  index_of p entries = None -> scan p entries n = Ok None.
Proof.
  revert n. induction entries as [|x l IH]; intros n; simpl; [done|].
  intros [Hx Hl]%andb_prop.
  destruct x as [| | | | |d]; try done. simpl in *.
  unfold Dict.get_default.
  destruct (Dict.get "id" d) as [v|]; [|done].
  destruct (py_eq_str v p); [done|].
  destruct (index_of p l) eqn:Ej; [done|]. intros _. by apply IH.
Qed.

Section WithRuntime.
Context `{PyRuntime}.

(** Reading never changes the store. *)
Lemma read_config_state st : fst (_read_config st) = st.
Proof.
  unfold _read_config, try_except. monad_simpl.
  destruct (CONFIG_FILE st) as [[bytes|]|]; simpl; try done.
  destruct (decode bytes) as [text|]; simpl; [|done].
  unfold json_loads. by destruct (loads text).
Qed.

Lemma get_config_state st : fst (get_config st) = st.
Proof.
  unfold get_config. monad_simpl.
  pose proof (read_config_state st) as Hr.
  destruct (_read_config st) as [st' [c|e]]; simpl in *; by subst.
Qed.

(** A file written by [_write_config] reads back as the value written,
    shared with nothing. *)
Lemma read_written st i v :
  CONFIG_FILE st = Some (File (encode (dumps i v))) -> wf v = true ->
  _read_config st = (st, Ok {| top := v; shares_default := false |}).
Proof.
  intros Hf Hv. unfold _read_config, try_except. monad_simpl.
  rewrite Hf. simpl. rewrite decode_encode_dumps. simpl.
  unfold json_loads. by rewrite loads_dumps.
Qed.

Lemma get_config_read st st' doc :
  get_config st = (st', Ok doc) ->
  st' = st /\ exists c, _read_config st = (st, Ok c) /\ top c = doc.
Proof.
  intros Hg. pose proof (read_config_state st) as Hr.
  unfold get_config in Hg. monad_simpl.
  destruct (_read_config st) as [st1 [c|e]]; simpl in *; [|done].
  injection Hg as -> <-. subst. eauto.
Qed.

Lemma write_config_ok st v :
  CONFIG_FILE st <> Some Dir ->
  _write_config v st =
    ({| CONFIG_FILE := Some (File (encode (dumps (Some 2%nat) v)));
        default_plugins := default_plugins st |}, Ok tt).
Proof.
  intros Hd. unfold _write_config. monad_simpl.
  destruct (CONFIG_FILE st) as [[|]|]; done.
Qed.

Lemma plugins_of_set cd l :
  plugins_of (JDict (Dict.set "plugins" (JList l) cd)) = Some l.
Proof. simpl. by rewrite DictFacts.get_set_eq. Qed.

Lemma plugins_of_nonempty cd entries i (x : json) :
  plugins_of (JDict cd) = Some entries -> entries !! i = Some x ->
  Dict.get "plugins" cd = Some (JList entries).
Proof.
  simpl. destruct (Dict.get "plugins" cd) as [[| | | |l|]|]; try done.
  - by intros [= ->].
  - by intros [= <-].
Qed.

Lemma wf_document_set cd l :
  wf (JDict cd) = true -> forallb wf l = true ->
  wf (JDict (Dict.set "plugins" (JList l) cd)) = true.
Proof. intros. by apply DictFacts.wf_set. Qed.

Lemma wf_plugin_entries doc l :
  wf doc = true -> plugins_of doc = Some l -> forallb wf l = true.
Proof.
  destruct doc as [| | | | |cd]; try done. intros Hw. simpl.
  destruct (Dict.get "plugins" cd) as [[| | | |l'|]|] eqn:E; try done.
  - intros [= <-]. by apply (DictFacts.wf_get _ _ _ Hw E).
  - by intros [= <-].
Qed.

Lemma is_patch_settings body :
  is_patch body = true ->
  as_mapping (Dict.get_default "settings" (JDict []) body) = Ok (settings_of body)
  /\ wf (JDict (settings_of body)) = true.
Proof.
  unfold is_patch, settings_of, Dict.get_default.
  intros [[Hw _]%andb_prop Hs]%andb_prop.
  destruct (Dict.get "settings" body) as [[| | | | |s]|] eqn:E; try done.
  split; [done|]. by apply (DictFacts.wf_get _ _ _ Hw E).
Qed.

(** What a patch turns an existing entry into. *)
Lemma patch_existing p body st doc entries i e :
  get_config st = (st, Ok doc) -> is_document doc = true ->
  plugins_of doc = Some entries ->
  index_of p entries = Some i -> entries !! i = Some (JDict e) ->
  is_patch body = true -> CONFIG_FILE st <> Some Dir ->
  exists st' cd, doc = JDict cd /\
    let e' := patched_entry e body in
    let doc' := JDict (Dict.set "plugins" (JList (<[i := JDict e']> entries)) cd) in
    patch_plugin p body st = (st', Ok (JDict e')) /\
    get_config st' = (st', Ok doc') /\ is_document doc' = true /\
    CONFIG_FILE st' <> Some Dir.
Proof.
  intros Hg Hdoc Hpl Hidx He Hpatch Hdir.
  apply get_config_read in Hg as (_ & c & Hread & Htop).
  unfold is_document in Hdoc. rewrite Hpl in Hdoc.
  apply andb_prop in Hdoc as [Hwf Hentries].
  destruct doc as [| | | | |cd]; try done.
  pose proof (plugins_of_nonempty _ _ _ _ Hpl He) as Hget.
  pose proof (forallb_lookup _ _ _ _ Hentries He) as Hentry.
  destruct (is_patch_settings _ Hpatch) as [Hbs Hbswf].
  exists (let st1 := if shares_default c
              then {| CONFIG_FILE := CONFIG_FILE st;
                      default_plugins := <[i := JDict (patched_entry e body)]> entries |}
              else st in
     {| CONFIG_FILE := Some (File (encode (dumps (Some 2%nat)
          (JDict (Dict.set "plugins" (JList (<[i := JDict (patched_entry e body)]> entries)) cd)))));
        default_plugins := default_plugins st1 |}), cd.
  split; [done|]. cbn zeta.
  assert (Hscan := scan_found p entries 0 i e Hentries Hidx He).
  assert (Hes : Dict.get "settings" e = Some (JDict (settings_of e))).
  { unfold settings_of. simpl in Hentry.
    destruct (Dict.get "id" e) as [[]|]; try done.
    destruct (Dict.get "enabled" e) as [[]|]; try done.
    by destruct (Dict.get "settings" e) as [[]|]. }
  split.
  { unfold patch_plugin, set_plugins. monad_simpl. rewrite Hread. cbn. rewrite Htop. cbn.
    unfold Dict.get_default at 1. rewrite Hget. cbn. rewrite Hscan. cbn.
        assert (Hs1 : forall x, as_mapping (Dict.get_default "settings" (JDict [])
               (Dict.set "enabled" x e)) = Ok (settings_of e)).
    { intros x. unfold Dict.get_default.
      rewrite DictFacts.get_set_ne by done. by rewrite Hes. }
    rewrite Hs1, Hbs.
    destruct (shares_default c); cbn; rewrite write_config_ok by done; done. }
  assert (Hpe : is_plugin_entry (JDict (patched_entry e body)) = true).
  { unfold patched_entry. cbn.
    rewrite !DictFacts.get_set. cbn.
    cbn in Hentry. destruct (Dict.get "id" e) as [[]|]; try done.
    unfold Dict.get_default.
    unfold is_patch in Hpatch. apply andb_prop in Hpatch as [[_ Hen]%andb_prop _].
    destruct (Dict.get "enabled" body) as [[]|]; try done.
    by destruct (Dict.get "enabled" e) as [[]|]. }
  assert (Hpw : wf (JDict (patched_entry e body)) = true).
  { unfold patched_entry.
    pose proof (forallb_lookup _ _ _ _ (wf_plugin_entries _ _ Hwf Hpl) He) as Hew.
    apply DictFacts.wf_set.
    - apply DictFacts.wf_merge; [|done].
      by apply (DictFacts.wf_get _ _ _ Hew Hes).
    - apply DictFacts.wf_set; [|done].
      unfold is_patch in Hpatch. apply andb_prop in Hpatch as [[Hbw _]%andb_prop _].
      apply DictFacts.wf_get_default; [done|].
      by apply DictFacts.wf_get_default. }
  assert (Hdw : wf (JDict (Dict.set "plugins"
            (JList (<[i := JDict (patched_entry e body)]> entries)) cd)) = true).
  { apply wf_document_set; [done|].
    apply forallb_insert; [|done]. exact (wf_plugin_entries _ _ Hwf Hpl). }
  split; [|split].
  - unfold get_config. monad_simpl.
    erewrite read_written; [done | done | done].
  - unfold is_document. rewrite Hdw, plugins_of_set. cbn.
    by apply forallb_insert.
  - done.
Qed.

Lemma current_document_get st doc :
  current_document st = Some doc ->
  get_config st = (st, Ok doc) /\ is_document doc = true.
Proof.
  unfold current_document. pose proof (get_config_state st) as Hs.
  destruct (get_config st) as [st' [d|]]; [|done]. simpl in Hs. subst st'.
  destruct (is_document d) eqn:E; [|done]. by intros [= ->].
Qed.

Lemma get_current_document st doc :
  get_config st = (st, Ok doc) -> is_document doc = true ->
  current_document st = Some doc.
Proof. intros Hg Hd. unfold current_document. by rewrite Hg, Hd. Qed.

Lemma entry_of_Some p doc e :
  entry_of p doc = Some e ->
  exists entries i, plugins_of doc = Some entries /\
    index_of p entries = Some i /\ entries !! i = Some (JDict e).
Proof.
  unfold entry_of. destruct (plugins_of doc) as [l|]; [|done].
  destruct (index_of p l) as [i|] eqn:Ei; [|done].
  destruct (l !! i) as [[| | | | |d]|] eqn:E; try done.
  intros [= ->]. eauto.
Qed.

Lemma has_id_patched p e body :
  has_id p (JDict e) = true -> has_id p (JDict (patched_entry e body)) = true.
Proof.
  unfold has_id, patched_entry, Dict.get_default.
  by rewrite !DictFacts.get_set_ne by done.
Qed.

Lemma settings_of_patched e body :
  settings_of (patched_entry e body) = Dict.merge (settings_of e) (settings_of body).
Proof.
  unfold patched_entry. unfold settings_of at 1.
  by rewrite DictFacts.get_set_eq.
Qed.

Lemma enabled_patched e body v :
  Dict.get "enabled" body = None -> Dict.get "enabled" e = Some v ->
  Dict.get "enabled" (patched_entry e body) = Some v.
Proof.
  intros Hb He. unfold patched_entry, Dict.get_default.
  rewrite DictFacts.get_set_ne by done. rewrite DictFacts.get_set_eq.
  by rewrite Hb, He.
Qed.

Lemma disjoint_get a b k v :
  Dict.disjoint a b = true -> Dict.get k a = Some v -> Dict.get k b = None.
Proof.
  unfold Dict.disjoint. rewrite forallb_forall. intros Hd Ha.
  assert (In k (Dict.keys a)) as Hin.
  { unfold Dict.keys. induction a as [|[k' v'] a IH]; simpl in *; [done|].
    destruct (String.eqb k' k) eqn:E; [left; by apply String.eqb_eq | right; auto]. }
  specialize (Hd k Hin). unfold Dict.mem in Hd.
  by destruct (Dict.get k b).
Qed.

(** One patch of an existing entry, in the vocabulary of the data model. *)
Lemma patch_existing_entry p body st doc e :
  current_document st = Some doc -> entry_of p doc = Some e ->
  is_patch body = true -> CONFIG_FILE st <> Some Dir ->
  exists st' doc',
    patch_plugin p body st = (st', Ok (JDict (patched_entry e body))) /\
    current_document st' = Some doc' /\
    entry_of p doc' = Some (patched_entry e body) /\
    CONFIG_FILE st' <> Some Dir.
Proof.
  intros [Hg Hdoc]%current_document_get (entries & i & Hpl & Hidx & He)%entry_of_Some
    Hpatch Hdir.
  destruct (patch_existing p body st doc entries i e) as
    (st' & cd & -> & Hp & Hg' & Hdoc' & Hdir'); try done.
  exists st', (JDict (Dict.set "plugins"
                 (JList (<[i := JDict (patched_entry e body)]> entries)) cd)).
  split; [done|]. split; [by apply get_current_document|]. split; [|done].
  unfold entry_of. rewrite plugins_of_set.
  destruct (index_of_lookup _ _ _ Hidx) as (x & Hx & Hid).
  rewrite He in Hx. injection Hx as <-.
  rewrite (index_of_insert _ _ _ _ Hidx (has_id_patched _ _ body Hid)).
  rewrite list_lookup_insert_eq; [done|]. by eapply lookup_lt_Some.
Qed.

(** C1.  On a document that has an entry with id [p], a patch keeps every
    settings key it does not name, gives the keys it names their new
    values, and keeps [enabled] when it carries none; two patches with
    disjoint settings keys leave the entry with the union of both patches
    over the original settings. *)
Theorem patch_plugin_merge_union p body1 body2 st doc e :
  current_document st = Some doc -> entry_of p doc = Some e ->
  is_patch body1 = true -> is_patch body2 = true ->
  Dict.disjoint (settings_of body1) (settings_of body2) = true ->
  CONFIG_FILE st <> Some Dir ->
  exists st1 doc1 e1 st2 doc2 e2,
    (* the first patch *)
    patch_plugin p body1 st = (st1, Ok (JDict e1)) /\
    current_document st1 = Some doc1 /\ entry_of p doc1 = Some e1 /\
    (forall k, Dict.mem k (settings_of body1) = false ->
               Dict.get k (settings_of e1) = Dict.get k (settings_of e)) /\
    (forall k v, Dict.get k (settings_of body1) = Some v ->
                 Dict.get k (settings_of e1) = Some v) /\
    (Dict.get "enabled" body1 = None ->
     Dict.get "enabled" e1 = Dict.get "enabled" e) /\
    (* the second patch, on what the first one stored *)
    patch_plugin p body2 st1 = (st2, Ok (JDict e2)) /\
    current_document st2 = Some doc2 /\ entry_of p doc2 = Some e2 /\
    (forall k, Dict.mem k (settings_of body2) = false ->
               Dict.get k (settings_of e2) = Dict.get k (settings_of e1)) /\
    (forall k v, Dict.get k (settings_of body2) = Some v ->
                 Dict.get k (settings_of e2) = Some v) /\
    (Dict.get "enabled" body2 = None ->
     Dict.get "enabled" e2 = Dict.get "enabled" e1) /\
    (* the union of both patches over the original settings *)
    (forall k, Dict.get k (settings_of e2) =
               match Dict.get k (settings_of body1), Dict.get k (settings_of body2) with
               | Some v, _ => Some v
               | None, Some v => Some v
               | None, None => Dict.get k (settings_of e)
               end).
Proof.
  intros Hcur He Hp1 Hp2 Hdisj Hdir.
  destruct (patch_existing_entry p body1 st doc e) as (st1 & doc1 & R1 & C1 & E1 & D1);
    try done.
  destruct (patch_existing_entry p body2 st1 doc1 (patched_entry e body1))
    as (st2 & doc2 & R2 & C2 & E2 & D2); try done.
  destruct (is_patch_settings _ Hp1) as [_ W1].
  destruct (is_patch_settings _ Hp2) as [_ W2].
  simpl in W1, W2. apply andb_prop in W1 as [U1 _]. apply andb_prop in W2 as [U2 _].
  assert (Hen : forall e0 body, is_plugin_entry (JDict e0) = true ->
            Dict.get "enabled" body = None ->
            Dict.get "enabled" (patched_entry e0 body) = Dict.get "enabled" e0).
  { intros e0 body Hpe Hb. simpl in Hpe.
    destruct (Dict.get "id" e0) as [[]|]; try done.
    destruct (Dict.get "enabled" e0) as [v|] eqn:Ev; [|done].
    by apply enabled_patched. }
  assert (Hentry : forall st0 doc0 e0, current_document st0 = Some doc0 ->
            entry_of p doc0 = Some e0 -> is_plugin_entry (JDict e0) = true).
  { intros st0 doc0 e0 [_ Hd]%current_document_get (l & j & Hl & _ & Hj)%entry_of_Some.
    unfold is_document in Hd. rewrite Hl in Hd. apply andb_prop in Hd as [_ Hd].
    by eapply forallb_lookup. }
  exists st1, doc1, (patched_entry e body1), st2, doc2,
    (patched_entry (patched_entry e body1) body2).
  repeat split; try done.
  - intros k Hk. rewrite settings_of_patched, DictFacts.get_merge by done.
    unfold Dict.mem in Hk. by destruct (Dict.get k (settings_of body1)).
  - intros k v Hk. rewrite settings_of_patched, DictFacts.get_merge by done.
    by rewrite Hk.
  - intros Hb. apply Hen; [|done]. exact (Hentry st doc e Hcur He).
  - intros k Hk. rewrite settings_of_patched, DictFacts.get_merge by done.
    unfold Dict.mem in Hk. by destruct (Dict.get k (settings_of body2)).
  - intros k v Hk. rewrite settings_of_patched, DictFacts.get_merge by done.
    by rewrite Hk.
  - intros Hb. apply Hen; [|done]. exact (Hentry st1 doc1 _ C1 E1).
  - intros k. rewrite !settings_of_patched, !DictFacts.get_merge by done.
    destruct (Dict.get k (settings_of body1)) as [v1|] eqn:G1.
    + by rewrite (disjoint_get _ _ _ _ Hdisj G1).
    + by destruct (Dict.get k (settings_of body2)).
Qed.

(** C2.  PUT then GET: whenever [put_config body] completes, it returns
    [body] and the next [get_config] returns exactly [body]; and it does
    complete unless the backing path is a directory. *)
Theorem put_config_then_get_config (body : dict) (st : store) :
  wf (JDict body) = true ->
  (CONFIG_FILE st <> Some Dir ->
   exists st', put_config body st = (st', Ok (JDict body))) /\
  (forall st' r, put_config body st = (st', Ok r) ->
     r = JDict body /\ get_config st' = (st', Ok (JDict body))).
Proof.
  intros Hwf. split.
  - intros Hdir. eexists. unfold put_config. monad_simpl.
    by rewrite write_config_ok.
  - intros st' r. unfold put_config, _write_config. monad_simpl.
    destruct (CONFIG_FILE st) as [[bytes|]|] eqn:E; cbn; try done;
      intros [= <- <-]; (split; [done|]);
      unfold get_config; monad_simpl; by erewrite read_written.
Qed.

(** The fallback of [_read_config]: with the backing file absent,
    unreadable, or holding text that is not JSON, GET returns the default
    document as it currently is, and the store is left as it was. *)
Lemma get_config_falls_back st :
  match CONFIG_FILE st with
  | None | Some Dir => True
  | Some (File bytes) => exists text, decode bytes = Some text /\ loads text = None
  end ->
  get_config st = (st, Ok (DEFAULT_CONFIG_now st)).
Proof.
  unfold get_config, _read_config. monad_simpl.
  destruct (CONFIG_FILE st) as [[bytes|]|]; cbn; try done.
  intros (text & -> & Hl). cbn. unfold json_loads. by rewrite Hl.
Qed.

Lemma get_config_falls_back_initial file :
  match file with
  | None | Some Dir => True
  | Some (File bytes) => exists text, decode bytes = Some text /\ loads text = None
  end ->
  get_config (initial file) = (initial file, Ok DEFAULT_CONFIG).
Proof. intros Hf. by rewrite get_config_falls_back. Qed.

(** C3 (as the code behaves).  A backing file whose bytes the text codec
    cannot decode makes [_read_config], and GET with it, raise
    [UnicodeDecodeError]: the [except] clause names only
    [JSONDecodeError] and [OSError]. *)
Theorem get_config_raises_on_undecodable_bytes (bytes : list byte) :
  decode bytes = None ->
  get_config (initial (Some (File bytes))) =
    (initial (Some (File bytes)), Raise UnicodeDecodeError).
Proof.
  intros Hd. unfold get_config, _read_config. monad_simpl. cbn.
  by rewrite Hd.
Qed.

(** C4.  On a document with no entry of id [p], a patch appends exactly
    one entry: id [p], [enabled] from the body or [True], [settings] from
    the body or an empty dict.  The entries before it are unchanged and
    the count grows by one. *)
Theorem patch_plugin_appends_entry p body st doc entries :
  current_document st = Some doc -> plugins_of doc = Some entries ->
  index_of p entries = None ->
  wf (JDict body) = true -> CONFIG_FILE st <> Some Dir ->
  let new_entry :=
    JDict [("id", JStr p);
           ("enabled", Dict.get_default "enabled" (JBool true) body);
           ("settings", Dict.get_default "settings" (JDict []) body)] in
  exists st' doc' entries',
    patch_plugin p body st = (st', Ok new_entry) /\
    get_config st' = (st', Ok doc') /\
    plugins_of doc' = Some entries' /\
    entries' = (entries ++ [new_entry])%list /\
    length entries' = S (length entries) /\
    (forall i x, entries !! i = Some x -> entries' !! i = Some x) /\
    index_of p entries' = Some (length entries).
Proof.
  intros [Hg Hdoc]%current_document_get Hpl Hidx Hbody Hdir new_entry.
  apply get_config_read in Hg as (_ & c & Hread & Htop).
  unfold is_document in Hdoc. rewrite Hpl in Hdoc.
  apply andb_prop in Hdoc as [Hwf Hentries].
  destruct doc as [| | | | |cd]; try done.
  assert (Hnew : wf new_entry = true).
  { subst new_entry. cbn. rewrite !andb_true_r.
    rewrite !DictFacts.wf_get_default by done. done. }
  assert (Hdw : wf (JDict (Dict.set "plugins" (JList (entries ++ [new_entry])) cd)) = true).
  { apply wf_document_set; [done|]. apply forallb_snoc; [|done].
    exact (wf_plugin_entries _ _ Hwf Hpl). }
  assert (Hit : iterate (Dict.get_default "plugins" (JList []) cd) = Ok entries).
  { simpl in Hpl. unfold Dict.get_default.
    destruct (Dict.get "plugins" cd) as [[| | | |l|]|]; try done; by injection Hpl as <-. }
  exists (let st1 := if shares_default c
              then {| CONFIG_FILE := CONFIG_FILE st;
                      default_plugins := (entries ++ [new_entry])%list |}
              else st in
     {| CONFIG_FILE := Some (File (encode (dumps (Some 2%nat)
          (JDict (Dict.set "plugins" (JList (entries ++ [new_entry])) cd)))));
        default_plugins := default_plugins st1 |}),
    (JDict (Dict.set "plugins" (JList (entries ++ [new_entry])) cd)),
    (entries ++ [new_entry])%list.
  split; [|split; [|split; [|split; [|split; [|split]]]]].
  - unfold patch_plugin, set_plugins. monad_simpl. rewrite Hread. cbn.
    rewrite Htop. cbn. rewrite Hit. cbn.
    rewrite (scan_missing _ _ _ Hentries Hidx). cbn.
    simpl in Hpl.
    destruct (Dict.get "plugins" cd) as [[| | | |l|]|] eqn:E; try done;
      injection Hpl as <-; cbn;
      destruct (shares_default c); cbn; by rewrite write_config_ok.
  - unfold get_config. monad_simpl. by erewrite read_written.
  - apply plugins_of_set.
  - done.
  - rewrite length_app. simpl. lia.
  - intros i x Hi. by apply lookup_app_l_Some.
  - apply index_of_snoc_None; [done|]. subst new_entry. cbn.
    apply String.eqb_refl.
Qed.

(** GET and PUT never touch the list [DEFAULT_CONFIG] holds. *)
Lemma put_config_keeps_default body st :
  default_plugins (fst (put_config body st)) = default_plugins st.
Proof.
  unfold put_config, _write_config. monad_simpl.
  by destruct (CONFIG_FILE st) as [[|]|].
Qed.

(** C10 (as the code behaves).  [DEFAULT_CONFIG.copy()] is shallow, so a
    patch applied to a default-fallback read updates the entry inside
    [DEFAULT_CONFIG] itself.
    - With no backing file, PATCH of [lavarrock.ui] with
      [{enabled: false, settings: 5}] sets [enabled] on the shared entry,
      then raises [TypeError] on the merge before anything is written: the
      file is still absent, and the next GET falls back to a default in
      which [lavarrock.ui] is disabled.
    - PATCH with [{enabled: false}] succeeds and writes the file; once the
      file is gone again, GET falls back to the same altered default. *)
Theorem default_config_is_mutated_by_patch :
  let disabled_ui :=
    [("id", JStr "lavarrock.ui"); ("enabled", JBool false); ("settings", JDict [])] in
  (exists st1 doc,
     patch_plugin "lavarrock.ui" [("enabled", JBool false); ("settings", JInt 5)]
       (initial None) = (st1, Raise TypeError) /\
     CONFIG_FILE st1 = None /\
     get_config st1 = (st1, Ok doc) /\
     entry_of "lavarrock.ui" doc = Some disabled_ui /\
     doc <> DEFAULT_CONFIG) /\
  (exists st1 doc,
     patch_plugin "lavarrock.ui" [("enabled", JBool false)] (initial None)
       = (st1, Ok (JDict disabled_ui)) /\
     let st2 := {| CONFIG_FILE := None; default_plugins := default_plugins st1 |} in
     get_config st2 = (st2, Ok doc) /\
     entry_of "lavarrock.ui" doc = Some disabled_ui /\
     doc <> DEFAULT_CONFIG).
Proof.
  split.
  - eexists _, _. split; [vm_compute; reflexivity|]. split; [reflexivity|].
    split; [vm_compute; reflexivity|]. split; [reflexivity|]. discriminate.
  - eexists _, _. split; [vm_compute; reflexivity|]. cbn zeta.
    split; [vm_compute; reflexivity|]. split; [reflexivity|]. discriminate.
Qed.

End WithRuntime.

End ConfigFacts.

(** ** The theme store *)

Module ThemesFacts.
Import Themes.

Ltac monad_simpl :=
  unfold mbind, mret, M_bind, M_ret, bind, ret, raise, lift, get_state,
    put_state, try_except in *;
  cbn beta iota zeta delta [negb andb orb] in *.

Lemma list_ascii_of_string_app a t :
  list_ascii_of_string (a +:+ t) = (list_ascii_of_string a ++ list_ascii_of_string t)%list.
Proof. induction a as [|c a IH]; simpl; [done | by rewrite IH]. Qed.

Lemma append_inj_l a b t : a +:+ t = b +:+ t -> a = b.
Proof.
  intros Heq. apply (f_equal list_ascii_of_string) in Heq.
  rewrite !list_ascii_of_string_app in Heq. apply app_inv_tail in Heq.
  apply (f_equal string_of_list_ascii) in Heq.
  by rewrite !string_of_list_ascii_of_string in Heq.
Qed.

(** File names are told apart by their theme names.  This is about the
    strings: two file names can still lead to one file, as [./dark.json]
    and [dark.json] do, which is what [locate] accounts for. *)
Lemma theme_file_of_inj a b : theme_file_of a = theme_file_of b -> a = b.
Proof. apply append_inj_l. Qed.

Lemma theme_file_of_active a :
  theme_file_of a = ACTIVE_THEME_FILE -> a = "active_theme".
Proof. intros Ha. by apply (append_inj_l a "active_theme" ".json"). Qed.

(** A plain name gives a file name of one component. *)
Lemma split_slash_plain x :
  plain_name x = true -> split_slash (theme_file_of x) = [theme_file_of x].
Proof.
  unfold plain_name, theme_file_of.
  induction x as [|c x IH]; [done|]. cbn [list_ascii_of_string forallb].
  intros [[Hc _]%andb_prop Hx]%andb_prop.
  change (String c x +:+ ".json") with (String c (x +:+ ".json")).
  cbn [split_slash].
  apply negb_true_iff in Hc. rewrite Hc. by rewrite (IH Hx).
Qed.

Lemma has_nul_plain x : plain_name x = true -> has_nul (theme_file_of x) = false.
Proof.
  unfold plain_name, has_nul, theme_file_of.
  induction x as [|c x IH]; [done|]. cbn [list_ascii_of_string forallb].
  intros [[_ Hc]%andb_prop Hx]%andb_prop.
  change (String c x +:+ ".json") with (String c (x +:+ ".json")).
  cbn [list_ascii_of_string existsb].
  apply negb_true_iff in Hc. rewrite (IH Hx), orb_false_r.
  by rewrite Ascii.eqb_sym.
Qed.

Lemma theme_file_of_component x :
  is_component (theme_file_of x) = true /\
  String.eqb (theme_file_of x) ".." = false.
Proof.
  unfold is_component, theme_file_of.
  assert (forall c s t, String c s +:+ t = String c (s +:+ t)) as Happ by done.
  destruct x as [|c [|c' [|c'' x]]]; rewrite ?Happ; cbn [String.eqb];
    change (EmptyString +:+ ".json") with ".json"; cbn [String.eqb];
    repeat (destruct (Ascii.eqb _ "."); try done).
Qed.

(** For a plain name [THEMES_DIR / f"{name}.json"] is the entry of that
    file name, whatever the directory holds. *)
Lemma locate_plain dir x :
  plain_name x = true -> locate dir (theme_file_of x) = Entry (theme_file_of x).
Proof.
  intros Hx. unfold locate.
  rewrite (has_nul_plain _ Hx), (split_slash_plain _ Hx).
  destruct (theme_file_of_component x) as [Hc Hd].
  cbn [List.filter]. rewrite Hc, Hd.
  unfold theme_file_of, plain_name in *. destruct x as [|c x]; [done|].
  cbn in Hx. apply andb_prop in Hx as [[Hs _]%andb_prop _].
  apply negb_true_iff, Ascii.eqb_neq in Hs.
  change (String c x +:+ ".json") with (String c (x +:+ ".json")).
  by destruct c as [[] [] [] [] [] [] [] []].
Qed.

Section WithRuntime.
Context `{PyRuntime} `{Outside}.

Lemma lookup_path_plain dir x :
  plain_name x = true -> lookup_path dir (theme_file_of x) = dir !! theme_file_of x.
Proof. intros Hx. unfold lookup_path. by rewrite locate_plain. Qed.

Lemma write_path_plain dir x content :
  plain_name x = true ->
  write_path (theme_file_of x) content dir = write_file (theme_file_of x) content dir.
Proof.
  intros Hx. unfold write_path. monad_simpl. by rewrite locate_plain.
Qed.

Lemma json_load_written i v :
  wf v = true -> json_load (File (encode (dumps i v))) = Ok v.
Proof.
  intros Hv. unfold json_load, read_text, json_loads.
  by rewrite decode_encode_dumps, loads_dumps.
Qed.

(** C9.  Deleting a theme whose file does not exist fails with 404 and
    leaves every file, the active-theme reference included, as it was. *)
Theorem delete_theme_not_found (theme_name : string) (dir : gmap string node) :
  dir !! theme_file_of theme_name = None ->
  delete_theme theme_name dir = (dir, Raise (HTTPException 404 "Theme not found")).
Proof.
  intros Hnone. unfold delete_theme. monad_simpl. by rewrite Hnone.
Qed.

Lemma get_active_theme_of_reference dir a :
  active_reference dir = Some a ->
  get_active_theme dir = (dir, active_outcome a (lookup_path dir (theme_file_of a))).
Proof.
  unfold active_reference.
  destruct (dir !! ACTIVE_THEME_FILE) as [n|] eqn:En; [|done].
  destruct (json_load n) as [[| | | | |d]|] eqn:Ej; try done.
  destruct (Dict.get "name" d) as [[| | |s| |]|] eqn:Ed; try done.
  intros [= ->].
  unfold get_active_theme, load_file, load_path, active_outcome. monad_simpl.
  repeat (progress (rewrite ?En, ?Ej; monad_simpl)).
  unfold as_dict. monad_simpl.
  unfold Dict.get_default. rewrite Ed. unfold truthy.
  rewrite py_str_str, pydantic_str_str.
  destruct (String.eqb a EmptyString); monad_simpl; [done|].
  destruct (lookup_path dir (theme_file_of a)) as [n'|] eqn:Et;
    repeat (progress (rewrite ?Et; monad_simpl)); [|done].
  assert (locate dir (theme_file_of a) <> Invalid) as Hl.
  { intros Hl. unfold lookup_path in Et. by rewrite Hl in Et. }
  destruct (locate dir (theme_file_of a)); try done;
    (destruct (json_load n') as [v|e]; monad_simpl; [|done];
     by destruct (pydantic_dict v)).
Qed.

Lemma get_active_theme_no_reference dir :
  dir !! ACTIVE_THEME_FILE = None -> get_active_theme dir = (dir, Ok None).
Proof. intros Hn. unfold get_active_theme. monad_simpl. by rewrite Hn. Qed.

Lemma active_reference_written dir i a :
  dir !! ACTIVE_THEME_FILE = Some (File (encode (dumps i (JDict [("name", JStr a)])))) ->
  active_reference dir = Some a.
Proof.
  intros Hd. unfold active_reference. rewrite Hd.
  by rewrite json_load_written.
Qed.

(** The two writes of [upload_theme] succeed unless a path is a directory. *)
Lemma upload_theme_ok x T dir :
  plain_name x = true ->
  dir !! theme_file_of x <> Some Dir -> dir !! ACTIVE_THEME_FILE <> Some Dir ->
  upload_theme x T dir =
    (<[ACTIVE_THEME_FILE := File (encode (dumps None (JDict [("name", JStr x)])))]>
       (<[theme_file_of x := File (encode (dumps (Some 2%nat) (JDict T)))]> dir),
     Ok {| name := x; theme := T; active := true |}).
Proof.
  intros Hp Hx Ha. unfold upload_theme. monad_simpl.
  rewrite (write_path_plain _ _ _ Hp). unfold write_file. monad_simpl.
  destruct (dir !! theme_file_of x) as [[|]|] eqn:E; try done.
  - destruct (decide (theme_file_of x = ACTIVE_THEME_FILE)) as [Heq|Hne].
    + rewrite Heq. by rewrite lookup_insert_eq.
    + rewrite lookup_insert_ne by done.
      by destruct (dir !! ACTIVE_THEME_FILE) as [[|]|].
  - destruct (decide (theme_file_of x = ACTIVE_THEME_FILE)) as [Heq|Hne].
    + rewrite Heq. by rewrite lookup_insert_eq.
    + rewrite lookup_insert_ne by done.
      by destruct (dir !! ACTIVE_THEME_FILE) as [[|]|].
Qed.


Lemma json_load_ok_file n v : json_load n = Ok v -> exists bytes, n = File bytes.
Proof. destruct n; [eauto | done]. Qed.

(** Deleting the file the reference itself lives in: the theme name
    [active_theme] maps to [active_theme.json]. *)
Lemma delete_theme_reference_file dir bytes :
  dir !! ACTIVE_THEME_FILE = Some (File bytes) ->
  delete_theme "active_theme" dir = (delete ACTIVE_THEME_FILE dir, Ok deleted_message).
Proof.
  intros Hd. unfold delete_theme, unlink. monad_simpl.
  change (theme_file_of "active_theme") with ACTIVE_THEME_FILE.
  repeat (progress (rewrite ?Hd; monad_simpl)).
  by rewrite lookup_delete_eq.
Qed.

(** Deleting the theme the reference names removes the reference, and
    GET /api/themes/active then answers "none". *)
Lemma delete_theme_active dir a bytes :
  active_reference dir = Some a ->
  dir !! theme_file_of a = Some (File bytes) ->
  exists dir',
    delete_theme a dir = (dir', Ok deleted_message) /\
    dir' !! ACTIVE_THEME_FILE = None /\
    get_active_theme dir' = (dir', Ok None).
Proof.
  intros Href Hfile.
  destruct (decide (theme_file_of a = ACTIVE_THEME_FILE)) as [Heq|Hne].
  - apply theme_file_of_active in Heq as ->.
    exists (delete ACTIVE_THEME_FILE dir).
    split; [by eapply delete_theme_reference_file|].
    split; [apply lookup_delete_eq|].
    apply get_active_theme_no_reference, lookup_delete_eq.
  - unfold active_reference in Href.
    destruct (dir !! ACTIVE_THEME_FILE) as [n|] eqn:En; [|done].
    destruct (json_load n) as [[| | | | |d]|] eqn:Ej; try done.
    destruct (Dict.get "name" d) as [[| | |s| |]|] eqn:Ed; try done.
    injection Href as ->.
    destruct (json_load_ok_file _ _ Ej) as [b' ->].
    exists (delete ACTIVE_THEME_FILE (delete (theme_file_of a) dir)).
    split; [|split; [apply lookup_delete_eq|
                     apply get_active_theme_no_reference, lookup_delete_eq]].
    unfold delete_theme, unlink, load_file. monad_simpl.
    assert (delete (theme_file_of a) dir !! ACTIVE_THEME_FILE = Some (File b')) as En'
      by (by rewrite lookup_delete_ne).
    repeat (progress (rewrite ?Hfile, ?En', ?Ej; monad_simpl)).
    unfold as_dict, Dict.get_default. monad_simpl. rewrite Ed.
    unfold py_eq_str. rewrite String.eqb_refl.
    by repeat (progress (rewrite ?En'; monad_simpl)).
Qed.

(** Deleting a theme other than the one the reference names, and not
    named [active_theme], leaves the reference file and, when the
    reference holds a plain name, the answer of GET /api/themes/active
    as they were. *)
Lemma delete_theme_inactive dir n bytes :
  n <> "active_theme" ->
  dir !! theme_file_of n = Some (File bytes) ->
  match active_reference dir with
  | Some a => a <> n /\ plain_name a = true
  | None => dir !! ACTIVE_THEME_FILE = None
  end ->
  let dir' := delete (theme_file_of n) dir in
  delete_theme n dir = (dir', Ok deleted_message) /\
  dir' !! ACTIVE_THEME_FILE = dir !! ACTIVE_THEME_FILE /\
  snd (get_active_theme dir') = snd (get_active_theme dir).
Proof.
  intros Hn Hfile Href dir'.
  assert (theme_file_of n <> ACTIVE_THEME_FILE) as Hpath
    by (intros Heq; by apply theme_file_of_active in Heq).
  assert (dir' !! ACTIVE_THEME_FILE = dir !! ACTIVE_THEME_FILE) as Hsame
    by (subst dir'; by rewrite lookup_delete_ne).
  assert (active_reference dir' = active_reference dir) as Hrefsame
    by (unfold active_reference; by rewrite Hsame).
  split; [|split; [done|]].
  - unfold delete_theme, unlink, load_file. monad_simpl.
    repeat (progress (rewrite ?Hfile; monad_simpl)). fold dir'.
    unfold active_reference in Href.
    destruct (dir !! ACTIVE_THEME_FILE) as [x|] eqn:En;
      rewrite Hsame; monad_simpl; [|done].
    repeat (progress (rewrite ?Hsame; monad_simpl)).
    destruct (json_load x) as [[| | | | |d]|] eqn:Ej; try done.
    unfold as_dict, Dict.get_default. monad_simpl.
    destruct (Dict.get "name" d) as [[| | |s| |]|] eqn:Ed; try done.
    unfold py_eq_str.
    destruct Href as [Href _].
    destruct (String.eqb s n) eqn:E; [by apply String.eqb_eq in E | done].
  - destruct (active_reference dir) as [a|] eqn:Ea.
    + destruct Href as [Href Hp].
      rewrite (get_active_theme_of_reference _ _ Ea).
      rewrite (get_active_theme_of_reference _ _ Hrefsame). cbn.
      rewrite !(lookup_path_plain _ _ Hp).
      subst dir'. rewrite lookup_delete_ne; [done|].
      intros Heq. by apply theme_file_of_inj in Heq.
    + rewrite !get_active_theme_no_reference; [done | done | by rewrite Hsame].
Qed.

(** C8 (as the code behaves).  After uploading [dark], which makes it the
    active theme, DELETE of the name [active_theme] (not the active theme)
    finds [active_theme.json], the reference file itself, and unlinks it:
    [dark] is still stored, yet the reference is gone and
    GET /api/themes/active changes from [dark] to "none". *)
Theorem delete_theme_named_active_theme_drops_reference :
  let T := [("colors", JDict [])] in
  let dark := {| name := "dark"; theme := T; active := true |} in
  exists dir dir',
    upload_theme "dark" T ∅ = (dir, Ok dark) /\
    active_reference dir = Some "dark" /\
    get_active_theme dir = (dir, Ok (Some dark)) /\
    delete_theme "active_theme" dir = (dir', Ok deleted_message) /\
    dir' !! theme_file_of "dark" = dir !! theme_file_of "dark" /\
    is_Some (dir' !! theme_file_of "dark") /\
    dir' !! ACTIVE_THEME_FILE = None /\
    get_active_theme dir' = (dir', Ok None).
Proof.
  intros T dark.
  set (ref := File (encode (dumps None (JDict [("name", JStr "dark")])))).
  set (file := File (encode (dumps (Some 2%nat) (JDict T)))).
  exists (<[ACTIVE_THEME_FILE := ref]> (<[theme_file_of "dark" := file]> ∅)),
    (delete ACTIVE_THEME_FILE
       (<[ACTIVE_THEME_FILE := ref]> (<[theme_file_of "dark" := file]> ∅))).
  assert (active_reference
            (<[ACTIVE_THEME_FILE := ref]> (<[theme_file_of "dark" := file]> ∅))
          = Some "dark") as Href.
  { eapply active_reference_written. by rewrite lookup_insert_eq. }
  split; [by apply upload_theme_ok|]. split; [done|].
  split.
  { rewrite (get_active_theme_of_reference _ _ Href).
    rewrite (lookup_path_plain _ "dark") by done.
    rewrite lookup_insert_ne by done. rewrite lookup_insert_eq.
    unfold active_outcome, file. rewrite json_load_written by done.
    by rewrite pydantic_dict_dict. }
  split; [eapply delete_theme_reference_file; by rewrite lookup_insert_eq|].
  split; [by rewrite lookup_delete_ne|].
  split.
  { rewrite lookup_delete_ne by done. rewrite lookup_insert_ne by done.
    rewrite lookup_insert_eq. by eexists. }
  split; [apply lookup_delete_eq|].
  apply get_active_theme_no_reference, lookup_delete_eq.
Qed.

End WithRuntime.

End ThemesFacts.

(** ** The model factory *)

Module FactoryFacts.
Import Factory.

Ltac monad_simpl :=
  unfold mbind, mret, M_bind, M_ret, bind, ret, raise, lift, get_state,
    put_state, try_except in *;
  cbn beta iota zeta delta [negb andb orb] in *.

Section WithRuntime.
Context `{PyRuntime}.
Variable OllamaConfig_init : dict -> outcome OllamaConfig.t.
Variable BedrockConfig_init : dict -> outcome BedrockConfig.t.
Variable ollama_installed : bool.
Variable bedrock_installed : bool.

(** C5.  A raw dict whose [provider] is neither ["ollama"] nor
    ["bedrock"] (an absent one reads as [None]) makes [create_model]
    raise [ValueError] with the offending value in its message, and no
    SDK call is made. *)
Theorem create_model_unsupported_provider (d : dict) (calls : list call) :
  Dict.get "provider" d <> Some (JStr "ollama") ->
  Dict.get "provider" d <> Some (JStr "bedrock") ->
  create_model OllamaConfig_init BedrockConfig_init ollama_installed
      bedrock_installed (Raw (JDict d)) calls =
    (calls,
     Raise (ValueError ("Unsupported provider: "
                        +:+ py_str (Dict.get_default "provider" JNull d)))).
Proof.
  intros Ho Hb. unfold create_model, Dict.get_default, py_eq_str. monad_simpl.
  destruct (Dict.get "provider" d) as [[| | |s| |]|] eqn:E; try done.
  destruct (String.eqb s "ollama") eqn:E1.
  { apply String.eqb_eq in E1. by subst. }
  destruct (String.eqb s "bedrock") eqn:E2.
  { apply String.eqb_eq in E2. by subst. }
  done.
Qed.

(** C6 (amended).  With the Bedrock SDK importable, [create_model] on a
    Bedrock config ends in one [BedrockModel] call with [streaming=True].
    A non-empty profile is first bound to a [boto3.Session], and the
    client handed to [BedrockModel] is that session's
    ["bedrock-runtime"] client; with no profile, or an empty one, no
    session is made and no client is passed (ambient credentials).
    When the SDK cannot be imported, [create_model] raises [ImportError]
    and no call is made. *)
Theorem create_model_bedrock_streams (config : BedrockConfig.t) (calls : list call) :
  if bedrock_installed then
    exists kwargs trace,
      create_model OllamaConfig_init BedrockConfig_init ollama_installed
          bedrock_installed (OfBedrock config) calls
        = ((calls ++ trace)%list, Ok (BedrockModel kwargs)) /\
      bm_streaming kwargs = true /\
      match BedrockConfig.profile config with
      | Some p =>
          if String.eqb p EmptyString then
            trace = [Call_BedrockModel kwargs] /\ bm_client kwargs = None
          else
            trace = [Call_boto3_Session p;
                     Call_session_client p "bedrock-runtime";
                     Call_BedrockModel kwargs] /\
            bm_client kwargs =
              Some {| session_profile_name := p; service_name := "bedrock-runtime" |}
      | None => trace = [Call_BedrockModel kwargs] /\ bm_client kwargs = None
      end
  else
    create_model OllamaConfig_init BedrockConfig_init ollama_installed
        bedrock_installed (OfBedrock config) calls
      = (calls,
         Raise (ImportError
           "Bedrock support requires 'strands-agents[bedrock]' and 'boto3' to be installed")).
Proof.
  destruct bedrock_installed; [|done].
  exists (bedrock_kwargs config).
  unfold create_model, _create_bedrock_model, emit, bedrock_kwargs. monad_simpl.
  destruct (BedrockConfig.profile config) as [p|]; monad_simpl.
  - destruct (String.eqb p EmptyString); monad_simpl.
    + by eexists.
    + eexists. split; [|done]. by rewrite <- !app_assoc.
  - by eexists.
Qed.

End WithRuntime.

End FactoryFacts.

(** ** More on the plugin-config store *)

Module ConfigProps.
Import Config ConfigFacts.

Section WithRuntime.
Context `{PyRuntime}.

(** The value the backing file loads as, when it is a regular file whose
    bytes decode to JSON text. *)
Definition loaded (st : store) : option json :=
  match CONFIG_FILE st with
  | Some (File bytes) =>
      match decode bytes with
      | Some text => loads text
      | None => None
      end
  | _ => None
  end.

Lemma read_loaded st v :
  loaded st = Some v ->
  _read_config st = (st, Ok {| top := v; shares_default := false |}).
Proof.
  unfold loaded, _read_config. monad_simpl.
  destruct (CONFIG_FILE st) as [[bytes|]|]; try done. cbn.
  destruct (decode bytes) as [text|]; [|done]. cbn.
  unfold json_loads. by intros ->.
Qed.

(** X1.  GET never writes: whatever the backing file holds, and whether
    the read returns or raises, the file and the list held by
    [DEFAULT_CONFIG] are left as they were. *)
Theorem get_config_never_writes (st : store) : fst (get_config st) = st.
Proof. apply get_config_state. Qed.

(** X2.  With the backing file absent, a directory, or holding decodable
    text that is not JSON, GET returns the default document of a fresh
    process and raises nothing. *)
Theorem get_config_default_on_bad_file (file : option node) :
  match file with
  | None | Some Dir => True
  | Some (File bytes) => exists text, decode bytes = Some text /\ loads text = None
  end ->
  get_config (initial file) = (initial file, Ok DEFAULT_CONFIG).
Proof. apply get_config_falls_back_initial. Qed.

(** X3.  When the backing file loads, PATCH works on the loaded document
    alone: the list held by [DEFAULT_CONFIG] is never touched, and a PATCH
    that raises leaves the whole store, file included, as it was. *)
Theorem patch_plugin_on_loaded_file p body st v :
  loaded st = Some v ->
  default_plugins (fst (patch_plugin p body st)) = default_plugins st /\
  (forall e, snd (patch_plugin p body st) = Raise e -> fst (patch_plugin p body st) = st).
Proof.
  intros Hl. unfold patch_plugin, set_plugins, _write_config. monad_simpl.
  rewrite (read_loaded _ _ Hl). monad_simpl.
  unfold loaded in Hl. destruct st as [file dp]. cbn in *.
  repeat (case_match; monad_simpl; simplify_eq; cbn in *; try done).
Qed.

(** X4.  A stored document of the wrong shape makes PATCH raise before
    anything is written: [AttributeError] when the top level is not a dict
    or when ["plugins"] is an empty string or an empty dict (the loop runs
    out and there is nothing to [append] to), [TypeError] when ["plugins"]
    is null, a bool or a number (not iterable). *)
Theorem patch_plugin_malformed_document p body st v :
  loaded st = Some v ->
  match v with
  | JDict cd =>
      match Dict.get "plugins" cd with
      | Some (JNull | JBool _ | JInt _) =>
          patch_plugin p body st = (st, Raise TypeError)
      | Some (JStr EmptyString) | Some (JDict []) =>
          patch_plugin p body st = (st, Raise AttributeError)
      | _ => True
      end
  | _ => patch_plugin p body st = (st, Raise AttributeError)
  end.
Proof.
  intros Hl. unfold patch_plugin. monad_simpl.
  rewrite (read_loaded _ _ Hl). monad_simpl.
  destruct v as [| | | | |cd]; try done. cbn. unfold Dict.get_default.
  destruct (Dict.get "plugins" cd) as [[| | |[|]| |[|]]|]; done.
Qed.

(** An entry the loop passes over: a dict whose id is not [p]. *)
Definition has_other_id (p : string) (e : json) : bool :=
  match e with
  | JDict d =>
      match Dict.get "id" d with
      | Some v => negb (py_eq_str v p)
      | None => false
      end
  | _ => false
  end.

(** What [entry["id"]] raises on an entry the loop cannot read. *)
Definition unreadable_entry (e : json) : option exn :=
  match e with
  | JDict d => match Dict.get "id" d with None => Some KeyError | Some _ => None end
  | _ => Some TypeError
  end.

Lemma scan_unreadable p pre bad post n e :
  forallb (has_other_id p) pre = true -> unreadable_entry bad = Some e ->
  scan p (pre ++ bad :: post) n = Raise e.
Proof.
  intros Hpre Hbad. revert n.
  induction pre as [|x pre IH]; intros n; simpl.
  - destruct bad as [| | | | |d]; simpl in Hbad; try by injection Hbad as <-.
    destruct (Dict.get "id" d); [done | by injection Hbad as <-].
  - simpl in Hpre. apply andb_prop in Hpre as [Hx Hpre].
    destruct x as [| | | | |d]; try done. simpl in Hx.
    destruct (Dict.get "id" d) as [v|]; [|done].
    apply negb_true_iff in Hx. rewrite Hx. by apply IH.
Qed.

(** X5.  The loop reads [entry["id"]] of every entry up to the first
    match: an entry without an id ([KeyError]) or one that is not a dict
    ([TypeError]) ahead of it makes PATCH raise, whatever follows in the
    list, and nothing is written. *)
Theorem patch_plugin_unreadable_entry p body st cd pre bad post e :
  loaded st = Some (JDict cd) ->
  Dict.get "plugins" cd = Some (JList (pre ++ bad :: post)) ->
  forallb (has_other_id p) pre = true ->
  unreadable_entry bad = Some e ->
  patch_plugin p body st = (st, Raise e).
Proof.
  intros Hl Hget Hpre Hbad. unfold patch_plugin. monad_simpl.
  rewrite (read_loaded _ _ Hl). monad_simpl. cbn.
  unfold Dict.get_default. rewrite Hget. cbn.
  by rewrite (scan_unreadable _ _ _ _ _ _ Hpre Hbad).
Qed.

(** X6.  A body whose ["settings"] is not a mapping makes PATCH of an
    existing entry raise [TypeError]; on a document loaded from the file
    nothing is written and the store is unchanged. *)
Theorem patch_plugin_settings_not_a_mapping p body st doc e x :
  loaded st = Some doc -> is_document doc = true -> entry_of p doc = Some e ->
  Dict.get "settings" body = Some x ->
  match x with JDict _ => false | _ => true end = true ->
  patch_plugin p body st = (st, Raise TypeError).
Proof.
  intros Hl Hdoc (entries & i & Hpl & Hidx & He)%entry_of_Some Hset Hx.
  unfold is_document in Hdoc. rewrite Hpl in Hdoc.
  apply andb_prop in Hdoc as [Hwf Hentries].
  destruct doc as [| | | | |cd]; try done.
  pose proof (plugins_of_nonempty _ _ _ _ Hpl He) as Hget.
  pose proof (forallb_lookup _ _ _ _ Hentries He) as Hentry.
  assert (Hscan := scan_found p entries 0 i e Hentries Hidx He).
  unfold patch_plugin, set_plugins. monad_simpl.
  rewrite (read_loaded _ _ Hl). monad_simpl. cbn.
  unfold Dict.get_default at 1. rewrite Hget. cbn. rewrite Hscan. cbn.
  assert (Hs1 : forall y, as_mapping (Dict.get_default "settings" (JDict [])
               (Dict.set "enabled" y e)) = Ok (settings_of e)).
  { intros y. unfold Dict.get_default, settings_of.
    rewrite DictFacts.get_set_ne by done. simpl in Hentry.
    destruct (Dict.get "id" e) as [[]|]; try done.
    destruct (Dict.get "enabled" e) as [[]|]; try done.
    by destruct (Dict.get "settings" e) as [[]|]. }
  rewrite Hs1.
  assert (as_mapping (Dict.get_default "settings" (JDict []) body) = Raise TypeError) as ->
    by (unfold Dict.get_default; rewrite Hset; by destruct x).
  done.
Qed.

Lemma set_same k v d : Dict.get k d = Some v -> Dict.set k v d = d.
Proof.
  induction d as [|[k' v'] d IH]; simpl; [done|].
  destruct (String.eqb k' k); [by intros [= ->] | intros Hg; by rewrite IH].
Qed.

Lemma set_set k v v' d : Dict.set k v (Dict.set k v' d) = Dict.set k v d.
Proof.
  induction d as [|[k0 v0] d IH]; simpl.
  - by rewrite String.eqb_refl.
  - destruct (String.eqb k0 k) eqn:E; simpl; rewrite E; [done | by rewrite IH].
Qed.

Lemma get_In k v (d : dict) :
  Dict.unique (Dict.keys d) = true -> In (k, v) d -> Dict.get k d = Some v.
Proof.
  induction d as [|[k' v'] d IH]; simpl; [done|].
  intros [Hk Hu]%andb_prop [[= -> ->]|Hin].
  - by rewrite String.eqb_refl.
  - destruct (String.eqb k' k) eqn:E; [|auto].
    apply String.eqb_eq in E. subst k'.
    fold (Dict.keys d) in Hk. rewrite DictFacts.existsb_eqb_keys in Hk.
    unfold Dict.mem in Hk. rewrite (IH Hu Hin) in Hk. done.
Qed.

(** Merging [b] again into a dict that already has its items changes
    nothing. *)
Lemma merge_again a b :
  Dict.unique (Dict.keys b) = true ->
  Dict.merge (Dict.merge a b) b = Dict.merge a b.
Proof.
  intros Hu.
  assert (forall b' d, (forall k v, In (k, v) b' -> Dict.get k d = Some v) ->
            Dict.merge d b' = d) as Hnoop.
  { unfold Dict.merge. induction b' as [|[k v] b' IH]; intros d Hd; simpl; [done|].
    rewrite (set_same k v d) by (apply Hd; by left).
    apply IH. intros k' v' Hin. apply Hd. by right. }
  apply Hnoop. intros k v Hin.
  rewrite DictFacts.get_merge by done. by rewrite (get_In _ _ _ Hu Hin).
Qed.

Lemma patched_entry_again e body :
  is_plugin_entry (JDict e) = true -> is_patch body = true ->
  patched_entry (patched_entry e body) body = patched_entry e body.
Proof.
  intros He Hb. destruct (is_patch_settings _ Hb) as [_ Hw].
  simpl in Hw. apply andb_prop in Hw as [Hu _].
  set (e1 := patched_entry e body).
  assert (Dict.get "settings" e1 = Some (JDict (settings_of e1))) as Hs.
  { unfold e1 at 2. rewrite settings_of_patched. unfold e1, patched_entry.
    by rewrite DictFacts.get_set_eq. }
  set (E := Dict.get_default "enabled" (Dict.get_default "enabled" (JBool true) e) body).
  assert (Dict.get "enabled" e1 = Some E) as HE.
  { unfold e1, patched_entry. rewrite DictFacts.get_set_ne by done.
    apply DictFacts.get_set_eq. }
  assert (Dict.get_default "enabled" (Dict.get_default "enabled" (JBool true) e1) body = E)
    as HE'.
  { unfold E. unfold Dict.get_default at 1 3.
    destruct (Dict.get "enabled" body) as [v|] eqn:Eb; [done|].
    unfold Dict.get_default at 1. rewrite HE. unfold E.
    unfold Dict.get_default at 1. by rewrite Eb. }
  unfold patched_entry at 1. fold e1. rewrite HE'.
  rewrite (set_same "enabled" E e1 HE).
  unfold e1 at 1. rewrite settings_of_patched, merge_again by done.
  rewrite <- settings_of_patched. fold e1. by apply set_same.
Qed.

(** X7.  PATCH is idempotent on an existing entry: sending the same body
    again returns the same entry and leaves the same document stored. *)
Theorem patch_plugin_idempotent p body st doc e :
  current_document st = Some doc -> entry_of p doc = Some e ->
  is_patch body = true -> CONFIG_FILE st <> Some Dir ->
  exists st1 st2 r doc1,
    patch_plugin p body st = (st1, Ok r) /\
    patch_plugin p body st1 = (st2, Ok r) /\
    current_document st1 = Some doc1 /\
    current_document st2 = Some doc1.
Proof.
  intros [Hg Hdoc]%current_document_get (entries & i & Hpl & Hidx & He)%entry_of_Some
    Hpatch Hdir.
  destruct (patch_existing p body st doc entries i e) as
    (st1 & cd & -> & Hp1 & Hg1 & Hdoc1 & Hdir1); try done.
  set (e1 := patched_entry e body) in *.
  set (entries1 := <[i := JDict e1]> entries) in *.
  assert (is_plugin_entry (JDict e) = true) as Hentry.
  { unfold is_document in Hdoc. rewrite Hpl in Hdoc.
    apply andb_prop in Hdoc as [_ Hdoc]. by eapply forallb_lookup. }
  destruct (index_of_lookup _ _ _ Hidx) as (x & Hx & Hid).
  rewrite He in Hx. injection Hx as <-.
  destruct (patch_existing p body st1
              (JDict (Dict.set "plugins" (JList entries1) cd)) entries1 i e1) as
    (st2 & cd2 & Hcd2 & Hp2 & Hg2 & Hdoc2 & Hdir2); try done.
  { apply plugins_of_set. }
  { apply index_of_insert; [done | by apply has_id_patched]. }
  { apply list_lookup_insert_eq. by eapply lookup_lt_Some. }
  injection Hcd2 as <-.
  assert (patched_entry e1 body = e1) as Hagain
    by (by apply patched_entry_again).
  cbn zeta in Hp2, Hg2, Hdoc2. rewrite Hagain in Hp2, Hg2, Hdoc2.
  assert (<[i := JDict e1]> entries1 = entries1) as Hins
    by (unfold entries1; apply list_insert_insert_eq).
  rewrite Hins, set_set in Hg2, Hdoc2.
  exists st1, st2, (JDict e1), (JDict (Dict.set "plugins" (JList entries1) cd)).
  split; [done|]. split; [done|].
  split; by apply get_current_document.
Qed.

(** X8.  PATCH of an existing entry changes that entry alone: the list
    keeps its length, every other entry (a later one with the same id
    included) and every other top-level key of the document keep their
    values, and within the entry only ["enabled"] and ["settings"] can
    change. *)
Theorem patch_plugin_frame p body st cd entries i e :
  current_document st = Some (JDict cd) -> plugins_of (JDict cd) = Some entries ->
  index_of p entries = Some i -> entries !! i = Some (JDict e) ->
  is_patch body = true -> CONFIG_FILE st <> Some Dir ->
  exists st' cd' entries' e',
    patch_plugin p body st = (st', Ok (JDict e')) /\
    current_document st' = Some (JDict cd') /\
    plugins_of (JDict cd') = Some entries' /\
    length entries' = length entries /\
    entries' !! i = Some (JDict e') /\
    (forall j, j <> i -> entries' !! j = entries !! j) /\
    (forall k, k <> "plugins" -> Dict.get k cd' = Dict.get k cd) /\
    (forall k, k <> "enabled" -> k <> "settings" -> Dict.get k e' = Dict.get k e).
Proof.
  intros [Hg Hdoc]%current_document_get Hpl Hidx He Hpatch Hdir.
  destruct (patch_existing p body st (JDict cd) entries i e) as
    (st1 & cd0 & Hcd & Hp1 & Hg1 & Hdoc1 & Hdir1); try done.
  injection Hcd as <-.
  exists st1, (Dict.set "plugins" (JList (<[i := JDict (patched_entry e body)]> entries)) cd),
    (<[i := JDict (patched_entry e body)]> entries), (patched_entry e body).
  split; [done|]. split; [by apply get_current_document|].
  split; [apply plugins_of_set|]. split; [apply length_insert|].
  split; [apply list_lookup_insert_eq; by eapply lookup_lt_Some|].
  split; [intros j Hj; by apply list_lookup_insert_ne|].
  split; [intros k Hk; by apply DictFacts.get_set_ne|].
  intros k Hk1 Hk2. unfold patched_entry.
  by rewrite !DictFacts.get_set_ne.
Qed.

(** What PATCH stores for an id the document does not have. *)
Definition created_entry (p : string) (body : dict) : dict :=
  [("id", JStr p);
   ("enabled", Dict.get_default "enabled" (JBool true) body);
   ("settings", Dict.get_default "settings" (JDict []) body)].

Lemma index_of_None_entry p doc entries :
  plugins_of doc = Some entries -> forallb is_plugin_entry entries = true ->
  entry_of p doc = None -> index_of p entries = None.
Proof.
  intros Hpl Hentries. unfold entry_of. rewrite Hpl.
  destruct (index_of p entries) as [i|] eqn:Hi; [|done].
  destruct (index_of_lookup _ _ _ Hi) as (x & Hx & _). rewrite Hx.
  pose proof (forallb_lookup _ _ _ _ Hentries Hx) as Hp.
  by destruct x.
Qed.

Lemma patch_missing p body st doc entries :
  get_config st = (st, Ok doc) -> is_document doc = true ->
  plugins_of doc = Some entries -> index_of p entries = None ->
  is_patch body = true -> CONFIG_FILE st <> Some Dir ->
  exists st' cd, doc = JDict cd /\
    let doc' := JDict (Dict.set "plugins"
                         (JList (entries ++ [JDict (created_entry p body)])) cd) in
    patch_plugin p body st = (st', Ok (JDict (created_entry p body))) /\
    get_config st' = (st', Ok doc') /\ is_document doc' = true /\
    CONFIG_FILE st' <> Some Dir.
Proof.
  intros Hg Hdoc Hpl Hidx Hpatch Hdir.
  apply get_config_read in Hg as (_ & c & Hread & Htop).
  unfold is_document in Hdoc. rewrite Hpl in Hdoc.
  apply andb_prop in Hdoc as [Hwf Hentries].
  destruct doc as [| | | | |cd]; try done.
  pose proof Hpatch as Hpatch'. unfold is_patch in Hpatch'.
  apply andb_prop in Hpatch' as [[Hbw Hben]%andb_prop Hbs].
  assert (Hnew : wf (JDict (created_entry p body)) = true).
  { unfold created_entry. cbn. rewrite !andb_true_r.
    rewrite !DictFacts.wf_get_default by done. done. }
  assert (Hpe : is_plugin_entry (JDict (created_entry p body)) = true).
  { unfold created_entry, Dict.get_default. cbn.
    destruct (Dict.get "enabled" body) as [[]|]; try done;
      by destruct (Dict.get "settings" body) as [[]|]. }
  set (new_entry := JDict (created_entry p body)) in *.
  assert (Hdw : wf (JDict (Dict.set "plugins" (JList (entries ++ [new_entry])) cd)) = true).
  { apply wf_document_set; [done|]. apply forallb_snoc; [|done].
    exact (wf_plugin_entries _ _ Hwf Hpl). }
  assert (Hit : iterate (Dict.get_default "plugins" (JList []) cd) = Ok entries).
  { simpl in Hpl. unfold Dict.get_default.
    destruct (Dict.get "plugins" cd) as [[| | | |l|]|]; try done; by injection Hpl as <-. }
  exists (let st1 := if shares_default c
              then {| CONFIG_FILE := CONFIG_FILE st;
                      default_plugins := (entries ++ [new_entry])%list |}
              else st in
     {| CONFIG_FILE := Some (File (encode (dumps (Some 2%nat)
          (JDict (Dict.set "plugins" (JList (entries ++ [new_entry])) cd)))));
        default_plugins := default_plugins st1 |}), cd.
  split; [done|]. cbn zeta. split; [|split; [|split]].
  - unfold patch_plugin, set_plugins. monad_simpl. rewrite Hread. cbn.
    rewrite Htop. cbn. rewrite Hit. cbn.
    rewrite (scan_missing _ _ _ Hentries Hidx). cbn.
    simpl in Hpl.
    destruct (Dict.get "plugins" cd) as [[| | | |l|]|] eqn:E; try done;
      injection Hpl as <-; cbn;
      destruct (shares_default c); cbn; by rewrite write_config_ok.
  - unfold get_config. monad_simpl. by erewrite read_written.
  - unfold is_document. rewrite Hdw, plugins_of_set. cbn.
    by apply forallb_snoc.
  - done.
Qed.

(** X9.  On a document and a body of the data model PATCH always
    succeeds, whether or not the id is known: the entry it returns is the
    one now stored under that id, and what is stored is again a document
    of the data model, so patches can follow one another. *)
Theorem patch_plugin_keeps_document p body st doc :
  current_document st = Some doc -> is_patch body = true ->
  CONFIG_FILE st <> Some Dir ->
  exists st' doc' r,
    patch_plugin p body st = (st', Ok (JDict r)) /\
    current_document st' = Some doc' /\
    entry_of p doc' = Some r /\
    CONFIG_FILE st' <> Some Dir.
Proof.
  intros Hcur Hpatch Hdir.
  destruct (entry_of p doc) as [e|] eqn:He.
  - destruct (patch_existing_entry p body st doc e) as (st' & doc' & ?); try done.
    by exists st', doc', (patched_entry e body).
  - pose proof Hcur as [Hg Hdoc]%current_document_get.
    pose proof Hdoc as Hdoc'. unfold is_document in Hdoc'.
    destruct (plugins_of doc) as [entries|] eqn:Hpl;
      [|by rewrite andb_false_r in Hdoc'].
    apply andb_prop in Hdoc' as [_ Hentries].
    pose proof (index_of_None_entry _ _ _ Hpl Hentries He) as Hidx.
    destruct (patch_missing p body st doc entries) as
      (st' & cd & -> & Hp & Hg' & Hdoc1 & Hdir'); try done.
    eexists st', _, (created_entry p body).
    split; [done|]. split; [by apply get_current_document|]. split; [|done].
    unfold entry_of. rewrite plugins_of_set.
    rewrite index_of_snoc_None; [|done|cbn; apply String.eqb_refl].
    by rewrite lookup_app_r, Nat.sub_diag.
Qed.

End WithRuntime.

End ConfigProps.

(** ** More on the theme store *)

Module ThemesProps.
Import Themes ThemesFacts.

(** *** File names *)

Lemma find_dot_json r :
  find_dot ("n" :: "o" :: "s" :: "j" :: "." :: r)%char = Some 4%nat.
Proof. reflexivity. Qed.

Lemma rev_json_chars (cs : list ascii) :
  rev (cs ++ list_ascii_of_string ".json") = ("n" :: "o" :: "s" :: "j" :: "." :: rev cs)%char.
Proof. by rewrite rev_app_distr. Qed.


(** A name ending in [.json] is the file name of some theme name. *)
Lemma is_json_name_inv f : is_json_name f = true -> exists x, f = theme_file_of x.
Proof.
  unfold is_json_name. intros Hf.
  destruct (rev (list_ascii_of_string f)) as [|c1 [|c2 [|c3 [|c4 [|c5 r]]]]] eqn:E;
    try (by repeat case_match).
  assert (c1 = "n" /\ c2 = "o" /\ c3 = "s" /\ c4 = "j" /\ c5 = ".")%char
    as (-> & -> & -> & -> & ->).
  { repeat split;
      [destruct (Ascii.eqb_spec c1 "n") | destruct (Ascii.eqb_spec c2 "o")
      | destruct (Ascii.eqb_spec c3 "s") | destruct (Ascii.eqb_spec c4 "j")
      | destruct (Ascii.eqb_spec c5 ".")]; try done; exfalso;
      repeat case_match; simplify_eq. }
  exists (string_of_list_ascii (rev r)). unfold theme_file_of.
  apply (f_equal (@rev ascii)) in E. rewrite rev_involutive in E. simpl in E.
  rewrite <- (string_of_list_ascii_of_string f), E.
  rewrite <- !app_assoc. simpl.
  rewrite <- (list_ascii_of_string_of_list_ascii (rev r)) at 1.
  change ["."; "j"; "s"; "o"; "n"]%char with (list_ascii_of_string ".json").
  by rewrite <- list_ascii_of_string_app, string_of_list_ascii_of_string.
Qed.

(** The stem of [<x>.json] is [x]; only for the empty [x], whose file
    name starts with its one dot, is it the whole name. *)
Lemma stem_theme_file x :
  stem (theme_file_of x) = if String.eqb x EmptyString then ".json" else x.
Proof.
  unfold stem, theme_file_of.
  rewrite list_ascii_of_string_app, rev_json_chars, find_dot_json.
  rewrite length_app. simpl length.
  destruct x as [|c x]; [done|].
  cbn [String.eqb list_ascii_of_string length].
  replace (S (length (list_ascii_of_string x)) + 5 - 1 - 4)%nat
    with (S (length (list_ascii_of_string x))) by lia.
  replace (S (length (list_ascii_of_string x)) + 5 - 1)%nat
    with (S (length (list_ascii_of_string x)) + 4)%nat by lia.
  assert ((0 <? S (length (list_ascii_of_string x)))%nat = true) as -> by done.
  assert ((S (length (list_ascii_of_string x)) <? S (length (list_ascii_of_string x)) + 4)%nat
          = true) as -> by (apply Nat.ltb_lt; lia).
  cbn [andb].
  change (c :: list_ascii_of_string x) with (list_ascii_of_string (String c x)).
  rewrite take_app_length'; [|done].
  apply string_of_list_ascii_of_string.
Qed.

Section WithRuntime.
Context `{PyRuntime} `{Outside}.

(** X10.  Deleting the theme the reference names removes the reference
    file as well, and GET /api/themes/active then answers "none". *)
Theorem delete_theme_clears_active dir a bytes :
  active_reference dir = Some a ->
  dir !! theme_file_of a = Some (File bytes) ->
  exists dir',
    delete_theme a dir = (dir', Ok deleted_message) /\
    dir' !! theme_file_of a = None /\
    dir' !! ACTIVE_THEME_FILE = None /\
    get_active_theme dir' = (dir', Ok None).
Proof.
  intros Href Hfile.
  destruct (delete_theme_active dir a bytes Href Hfile) as (dir' & Hd & Ha & Hg).
  exists dir'. split; [done|]. split; [|done].
  destruct (decide (theme_file_of a = ACTIVE_THEME_FILE)) as [Heq|Hne];
    [by rewrite Heq|].
  assert (delete_theme a dir
          = (delete ACTIVE_THEME_FILE (delete (theme_file_of a) dir), Ok deleted_message)
          \/ delete_theme a dir = (delete (theme_file_of a) dir, Ok deleted_message))
    as [Hd'|Hd'].
  { unfold delete_theme, unlink, load_file in *. monad_simpl.
    repeat (progress (rewrite ?Hfile in *; monad_simpl)).
    repeat (case_match; monad_simpl; simplify_eq; try done); auto. }
  - rewrite Hd in Hd'. injection Hd' as ->.
    rewrite lookup_delete_ne by done. apply lookup_delete_eq.
  - rewrite Hd in Hd'. injection Hd' as ->. apply lookup_delete_eq.
Qed.

(** X11.  Deleting a theme that is not the active one, under any name but
    [active_theme], removes that file alone: the reference file and the
    answer of GET /api/themes/active are what they were.  The name the
    reference holds is a single path component (["./dark"] and [dark]
    are two names of one file). *)
Theorem delete_theme_keeps_active dir n bytes :
  n <> "active_theme" ->
  dir !! theme_file_of n = Some (File bytes) ->
  match active_reference dir with
  | Some a => a <> n /\ plain_name a = true
  | None => dir !! ACTIVE_THEME_FILE = None
  end ->
  delete_theme n dir = (delete (theme_file_of n) dir, Ok deleted_message) /\
  delete (theme_file_of n) dir !! ACTIVE_THEME_FILE = dir !! ACTIVE_THEME_FILE /\
  snd (get_active_theme (delete (theme_file_of n) dir)) = snd (get_active_theme dir).
Proof. apply delete_theme_inactive. Qed.

(** X12.  GET /api/themes/active never writes: the directory is the same
    after it, whatever the files hold and whether it answers or fails. *)
Theorem get_active_theme_never_writes dir : fst (get_active_theme dir) = dir.
Proof.
  unfold get_active_theme, load_file, load_path. monad_simpl.
  repeat (case_match; monad_simpl; simplify_eq; try done).
Qed.

(** X13.  A reference that names a theme whose file is gone is not an
    error: when nothing is at the path of that theme (for a name that is
    a single path component: when the directory has no entry
    [<a>.json]), GET /api/themes/active answers "none". *)
Theorem get_active_theme_dangling_reference dir a :
  active_reference dir = Some a ->
  lookup_path dir (theme_file_of a) = None \/
  (plain_name a = true /\ dir !! theme_file_of a = None) ->
  get_active_theme dir = (dir, Ok None).
Proof.
  intros Href Hnone.
  assert (lookup_path dir (theme_file_of a) = None) as Hgone.
  { destruct Hnone as [Hnone|[Hp Hnone]]; [done|]. by rewrite lookup_path_plain. }
  clear Hnone. rename Hgone into Hnone.
  rewrite (get_active_theme_of_reference _ _ Href), Hnone.
  unfold active_outcome. by destruct (String.eqb a EmptyString).
Qed.

(** X14.  A reference file that cannot be loaded is an error, not "none":
    GET /api/themes/active fails with 500 carrying the cause, and so it
    does when the file loads as something other than a dict. *)
Theorem get_active_theme_corrupt_reference dir n :
  dir !! ACTIVE_THEME_FILE = Some n ->
  match json_load n with
  | Raise e =>
      get_active_theme dir
      = (dir, Raise (HTTPException 500 ("Failed to load theme: " +:+ exn_str e)))
  | Ok (JDict _) => True
  | Ok _ =>
      get_active_theme dir
      = (dir, Raise (HTTPException 500
                       ("Failed to load theme: " +:+ exn_str AttributeError)))
  end.
Proof.
  intros Hn. unfold get_active_theme, load_file. monad_simpl.
  repeat (progress (rewrite ?Hn; monad_simpl)).
  by destruct (json_load n) as [[]|].
Qed.





(** X19.  [delete_theme] does not roll back either: with a reference
    file that cannot be loaded the request fails with 500 carrying the
    cause, after the theme file has been unlinked. *)
Theorem delete_theme_unlinks_before_failure x bytes n e (dir : gmap string node) :
  x <> "active_theme" ->
  dir !! theme_file_of x = Some (File bytes) ->
  dir !! ACTIVE_THEME_FILE = Some n -> json_load n = Raise e ->
  delete_theme x dir =
    (delete (theme_file_of x) dir,
     Raise (HTTPException 500 ("Failed to delete theme: " +:+ exn_str e))).
Proof.
  intros Hxa Hx Ha He.
  assert (theme_file_of x <> ACTIVE_THEME_FILE) as Hpx
    by (intros Heq; by apply theme_file_of_active in Heq).
  assert (delete (theme_file_of x) dir !! ACTIVE_THEME_FILE = Some n) as Ha'
    by (by rewrite lookup_delete_ne).
  unfold delete_theme, unlink, load_file. monad_simpl.
  repeat (progress (rewrite ?Hx, ?Ha', ?He; monad_simpl)).
  destruct e; try done.
  (* an HTTPException is re-raised as it is; [json_load] raises none *)
  exfalso. unfold json_load, read_text, json_loads in He.
  destruct n as [content|]; [|done].
  destruct (decode content) as [text|]; [|done]. by destruct (loads text).
Qed.

(** X20.  A theme can be deleted once: after a DELETE that succeeded the
    file is gone and the same DELETE fails with 404, changing nothing. *)
Theorem delete_theme_twice x r (dir dir' : gmap string node) :
  delete_theme x dir = (dir', Ok r) ->
  dir' !! theme_file_of x = None /\
  delete_theme x dir' = (dir', Raise (HTTPException 404 "Theme not found")).
Proof.
  intros Hd.
  assert (dir' !! theme_file_of x = None) as Hgone.
  { unfold delete_theme, unlink, load_file in Hd. monad_simpl.
    repeat (case_match; monad_simpl; simplify_eq; try done);
      rewrite ?lookup_delete_eq; try done;
      destruct (decide (theme_file_of x = ACTIVE_THEME_FILE)) as [->|Hne];
      rewrite ?lookup_delete_eq; try done;
      rewrite lookup_delete_ne by done; by rewrite lookup_delete_eq. }
  split; [done|].
  unfold delete_theme. monad_simpl. by rewrite Hgone.
Qed.

(** *** Listing *)

(** A file [list_themes] reports: a [.json] name other than the
    reference file's. *)
Definition is_theme_file (f : string) : bool :=
  is_json_name f && negb (String.eqb f ACTIVE_THEME_FILE).

(** The entry [list_themes] builds for the file [f], none when the file
    is missing or does not load as a dict. *)
Definition listed (dir : gmap string node) (active_name : json) (f : string)
    : option ThemeResponse :=
  match dir !! f with
  | Some n =>
      match json_load n with
      | Ok v =>
          match pydantic_dict v with
          | Some t => Some {| name := stem f; theme := t;
                              active := py_eq_str active_name (stem f) |}
          | None => None
          end
      | Raise _ => None
      end
  | None => None
  end.

(** The name [list_themes] compares stems with: [None] without a
    reference file; nothing when that file does not load as a dict. *)
Definition active_name_of (dir : gmap string node) : option json :=
  match dir !! ACTIVE_THEME_FILE with
  | None => Some JNull
  | Some n =>
      match json_load n with
      | Ok (JDict d) => Some (Dict.get_default "name" JNull d)
      | _ => None
      end
  end.

(** Every theme file of [dir] loads as a dict. *)
Definition all_listed (dir : gmap string node) (a : json) : bool :=
  forallb (fun f => negb (is_theme_file f) || bool_decide (is_Some (listed dir a f)))
    (map_to_list dir).*1.

Lemma list_loop_state a files dir : fst (list_loop a files dir) = dir.
Proof.
  induction files as [|f files IH]; [done|]. cbn [list_loop].
  destruct (String.eqb f "active_theme.json"); [done|].
  unfold load_file. monad_simpl.
  destruct (dir !! f) as [n|]; monad_simpl; [|done].
  destruct (json_load n) as [v|]; monad_simpl; [|done].
  destruct (pydantic_dict v); monad_simpl; [|done].
  destruct (list_loop a files dir) as [s' [rs|e]]; by simpl in *.
Qed.

Lemma list_loop_ok a files dir :
  (forall f, f ∈ files -> is_theme_file f = true -> is_Some (listed dir a f)) ->
  list_loop a (filter (fun f => is_json_name f = true) files) dir
  = (dir, Ok (omap (fun f => if is_theme_file f then listed dir a f else None) files)).
Proof.
  induction files as [|f files IH]; intros Hall; [done|].
  assert (list_loop a (filter (fun f => is_json_name f = true) files) dir
          = (dir, Ok (omap (fun f => if is_theme_file f then listed dir a f else None) files)))
    as IH' by (apply IH; intros g Hg; apply Hall; by right).
  rewrite filter_cons. cbn [omap list_omap].
  destruct (decide (is_json_name f = true)) as [Hj|Hj].
  - cbn [list_loop]. change "active_theme.json" with ACTIVE_THEME_FILE.
    destruct (String.eqb f ACTIVE_THEME_FILE) eqn:Ea.
    + assert (is_theme_file f = false) as ->
        by (unfold is_theme_file; by rewrite Ea, andb_false_r).
      done.
    + assert (is_theme_file f = true) as Ht
        by (unfold is_theme_file; by rewrite Hj, Ea).
      rewrite Ht.
      destruct (Hall f) as [r Hr]; [by left | done |].
      rewrite Hr. unfold listed in Hr. unfold load_file. monad_simpl.
      destruct (dir !! f) as [n|]; [|done]. monad_simpl.
      destruct (json_load n) as [v|]; [|done]. monad_simpl.
      destruct (pydantic_dict v) as [t|]; [|done]. monad_simpl.
      injection Hr as <-. by rewrite IH'.
  - apply not_true_is_false in Hj.
    assert (is_theme_file f = false) as ->
      by (unfold is_theme_file; by rewrite Hj).
    done.
Qed.

Lemma list_loop_raises a files dir f :
  f ∈ files -> is_theme_file f = true -> listed dir a f = None ->
  exists e, list_loop a (filter (fun f => is_json_name f = true) files) dir
            = (dir, Raise e).
Proof.
  intros Hin Hf Hnone.
  induction files as [|g files IH]; [by apply not_elem_of_nil in Hin|].
  rewrite filter_cons.
  destruct (decide (is_json_name g = true)) as [Hj|Hj].
  - cbn [list_loop]. change "active_theme.json" with ACTIVE_THEME_FILE.
    destruct (String.eqb g ACTIVE_THEME_FILE) eqn:Ea.
    + apply IH. apply elem_of_cons in Hin as [->|Hin]; [|done].
      unfold is_theme_file in Hf. by rewrite Ea, andb_false_r in Hf.
    + unfold load_file. monad_simpl.
      destruct (decide (f = g)) as [->|Hne].
      * unfold listed in Hnone.
        destruct (dir !! g) as [n|]; monad_simpl; [|by eexists].
        destruct (json_load n) as [v|]; monad_simpl; [|by eexists].
        destruct (pydantic_dict v); [done|]. by eexists.
      * apply elem_of_cons in Hin as [?|Hin]; [done|].
        destruct (IH Hin) as [e He].
        destruct (dir !! g) as [n|]; monad_simpl; [|by eexists].
        destruct (json_load n) as [v|]; monad_simpl; [|by eexists].
        destruct (pydantic_dict v); monad_simpl; [|by eexists].
        rewrite He. by eexists.
  - apply IH. apply elem_of_cons in Hin as [->|Hin]; [|done].
    unfold is_theme_file in Hf. apply andb_prop in Hf as [Hf _]. done.
Qed.

Lemma list_loop_names a files dir dir' l r :
  list_loop a files dir = (dir', Ok l) -> r ∈ l ->
  exists f, f ∈ files /\ f <> ACTIVE_THEME_FILE /\ name r = stem f.
Proof.
  revert l. induction files as [|f files IH]; intros l.
  - cbn. intros [= _ <-] Hr. by apply not_elem_of_nil in Hr.
  - cbn [list_loop]. change "active_theme.json" with ACTIVE_THEME_FILE.
    destruct (String.eqb f ACTIVE_THEME_FILE) eqn:Ea.
    + intros Hl Hr. destruct (IH _ Hl Hr) as (g & ? & ? & ?).
      exists g. split; [by right | done].
    + unfold load_file. monad_simpl.
      destruct (dir !! f) as [n|]; monad_simpl; [|done].
      destruct (json_load n) as [v|]; monad_simpl; [|done].
      destruct (pydantic_dict v) as [t|]; monad_simpl; [|done].
      destruct (list_loop a files dir) as [s' [l'|e]] eqn:El; [|done].
      intros [= -> <-] [->|Hr]%elem_of_cons.
      * exists f. split; [by left|]. split; [|done].
        intros ->. by rewrite String.eqb_refl in Ea.
      * destruct (IH _ eq_refl Hr) as (g & ? & ? & ?).
        exists g. split; [by right | done].
Qed.

Section Listing.
Variable scandir : gmap string node -> list string.

Lemma list_themes_with_reference dir a :
  active_name_of dir = Some a ->
  list_themes scandir dir =
    match list_loop a (filter (fun f => is_json_name f = true) (scandir dir)) dir with
    | (dir', Ok l) => (dir', Ok l)
    | (dir', Raise e) =>
        (dir', Raise (HTTPException 500 ("Failed to list themes: " +:+ exn_str e)))
    end.
Proof.
  unfold active_name_of, list_themes, load_file. monad_simpl.
  destruct (dir !! ACTIVE_THEME_FILE) as [n|] eqn:En;
    repeat (progress (rewrite ?En; monad_simpl)).
  - destruct (json_load n) as [[| | | | |d]|] eqn:Ej; try done. intros [= <-].
    unfold as_dict. monad_simpl.
    by destruct (list_loop _ _ dir) as [dir' [l|e]].
  - intros [= <-]. by destruct (list_loop _ _ dir) as [dir' [l|e]].
Qed.

Lemma list_themes_without_reference dir :
  active_name_of dir = None ->
  exists e, list_themes scandir dir
            = (dir, Raise (HTTPException 500 ("Failed to list themes: " +:+ exn_str e))).
Proof.
  unfold active_name_of, list_themes, load_file. monad_simpl.
  destruct (dir !! ACTIVE_THEME_FILE) as [n|] eqn:En;
    repeat (progress (rewrite ?En; monad_simpl)); [|done].
  destruct (json_load n) as [[| | | | |d]|] eqn:Ej; try done; intros _; by eexists.
Qed.

(** X21.  GET /api/themes never writes, in whatever order the directory
    is enumerated and whether it answers or fails. *)
Theorem list_themes_never_writes dir : fst (list_themes scandir dir) = dir.
Proof.
  destruct (active_name_of dir) as [a|] eqn:Ea.
  - rewrite (list_themes_with_reference _ _ Ea).
    pose proof (list_loop_state a
                  (filter (fun f => is_json_name f = true) (scandir dir)) dir) as Hs.
    by destruct (list_loop _ _ dir) as [dir' [l|e]].
  - destruct (list_themes_without_reference _ Ea) as [e ->]. done.
Qed.

(** X22.  The reference file is never listed as a theme: no entry of a
    listing is named [active_theme], whatever the directory holds. *)
Theorem list_themes_skips_reference dir dir' l r :
  list_themes scandir dir = (dir', Ok l) -> r ∈ l -> name r <> "active_theme".
Proof.
  intros Hl Hr.
  destruct (active_name_of dir) as [a|] eqn:Ea;
    [|destruct (list_themes_without_reference _ Ea) as [e He]; congruence].
  rewrite (list_themes_with_reference _ _ Ea) in Hl.
  destruct (list_loop _ _ dir) as [s' [l'|e]] eqn:El; [|done].
  injection Hl as -> ->.
  destruct (list_loop_names _ _ _ _ _ _ El Hr) as (f & Hf & Hne & ->).
  apply list_elem_of_filter in Hf as [Hj _].
  destruct (is_json_name_inv _ Hj) as [x ->].
  rewrite stem_theme_file.
  destruct (String.eqb x EmptyString) eqn:Ex; [done|].
  intros ->. by apply Hne.
Qed.

Hypothesis scandir_perm : forall dir, scandir dir ≡ₚ (map_to_list dir).*1.

(** X23.  When the reference, if any, loads as a dict and every theme
    file loads as a dict, GET /api/themes answers with exactly one entry
    per theme file: its stem as name, its content as theme, and [active]
    telling whether the stem equals the name in the reference. *)
Theorem list_themes_lists_every_theme dir a :
  active_name_of dir = Some a -> all_listed dir a = true ->
  exists l,
    list_themes scandir dir = (dir, Ok l) /\
    (forall r, r ∈ l <->
       exists f, is_theme_file f = true /\ listed dir a f = Some r) /\
    length l = length (filter (fun f => is_theme_file f = true) (map_to_list dir).*1).
Proof.
  intros Ha Hall.
  set (g := fun f => if is_theme_file f then listed dir a f else None).
  assert (forall f, f ∈ (map_to_list dir).*1 -> is_theme_file f = true ->
            is_Some (listed dir a f)) as Hall'.
  { intros f Hf Ht. unfold all_listed in Hall. rewrite forallb_forall in Hall.
    specialize (Hall f). rewrite Ht in Hall. cbn in Hall.
    eapply bool_decide_eq_true_1. apply Hall. by apply list_elem_of_In. }
  exists (omap g (scandir dir)).
  split; [|split].
  - rewrite (list_themes_with_reference _ _ Ha).
    rewrite list_loop_ok; [done|].
    intros f Hf. apply Hall'. by rewrite <- (scandir_perm dir).
  - intros r. rewrite (scandir_perm dir). rewrite list_elem_of_omap. split.
    + intros (f & Hf & Hg). exists f. unfold g in Hg.
      by destruct (is_theme_file f).
    + intros (f & Ht & Hr). exists f. split; [|unfold g; by rewrite Ht].
      unfold listed in Hr. destruct (dir !! f) as [n|] eqn:En; [|done].
      apply list_elem_of_fmap. exists (f, n). split; [done|].
      by apply elem_of_map_to_list.
  - rewrite (scandir_perm dir).
    induction ((map_to_list dir).*1) as [|f fs IH]; [done|].
    rewrite filter_cons. cbn [omap list_omap]. unfold g at 1.
    destruct (decide (is_theme_file f = true)) as [Ht|Ht].
    + rewrite Ht. destruct (Hall' f) as [r ->]; [by left | done |].
      cbn [length]. f_equal. apply IH. intros f' Hf'. apply Hall'. by right.
    + apply not_true_is_false in Ht. rewrite Ht.
      apply IH. intros f' Hf'. apply Hall'. by right.
Qed.

(** X24.  One theme file that does not load as a dict, or a reference
    file that does not, fails the whole listing with 500: no partial list
    is returned. *)
Theorem list_themes_fails_on_one_bad_file dir :
  (active_name_of dir = None \/
   exists a f n, active_name_of dir = Some a /\ dir !! f = Some n /\
                 is_theme_file f = true /\ listed dir a f = None) ->
  exists e, list_themes scandir dir
            = (dir, Raise (HTTPException 500 ("Failed to list themes: " +:+ exn_str e))).
Proof.
  intros [Hnone|(a & f & n & Ha & Hf & Ht & Hl)].
  - by apply list_themes_without_reference.
  - rewrite (list_themes_with_reference _ _ Ha).
    destruct (list_loop_raises a (scandir dir) dir f) as [e ->]; [|done|done|by eexists].
    rewrite (scandir_perm dir). apply list_elem_of_fmap. exists (f, n).
    split; [done|]. by apply elem_of_map_to_list.
Qed.


End Listing.

End WithRuntime.

End ThemesProps.

(** ** More on the model factory *)

Module FactoryProps.
Import Factory FactoryFacts.

(** The provider tag [create_model] dispatches on. *)
Definition tag_of (config : config_arg) : option string :=
  match config with
  | OfOllama _ => Some "ollama"
  | OfBedrock _ => Some "bedrock"
  | Raw (JDict d) =>
      match Dict.get "provider" d with
      | Some (JStr s) => Some s
      | _ => None
      end
  | Raw _ => None
  end.

Section WithRuntime.
Context `{PyRuntime}.
Variable OllamaConfig_init : dict -> outcome OllamaConfig.t.
Variable BedrockConfig_init : dict -> outcome BedrockConfig.t.
Variable ollama_installed : bool.
Variable bedrock_installed : bool.

Lemma create_ollama_calls c calls :
  _create_ollama_model ollama_installed c calls
  = if ollama_installed
    then ((calls ++ [model_call (OllamaModel (OllamaConfig.host c) (OllamaConfig.model_id c)
                                   (OllamaConfig.temperature c) (OllamaConfig.keep_alive c))])%list,
          Ok (OllamaModel (OllamaConfig.host c) (OllamaConfig.model_id c)
                (OllamaConfig.temperature c) (OllamaConfig.keep_alive c)))
    else (calls, Raise (ImportError
           "Ollama support requires 'strands-agents[ollama]' to be installed")).
Proof. unfold _create_ollama_model, emit. monad_simpl. by destruct ollama_installed. Qed.

Lemma create_bedrock_calls c calls :
  _create_bedrock_model bedrock_installed c calls
  = if bedrock_installed
    then ((calls ++
            match bm_client (bedrock_kwargs c) with
            | Some cl => [Call_boto3_Session (session_profile_name cl);
                          Call_session_client (session_profile_name cl) "bedrock-runtime"]
            | None => []
            end ++ [model_call (BedrockModel (bedrock_kwargs c))])%list,
          Ok (BedrockModel (bedrock_kwargs c)))
    else (calls, Raise (ImportError
           "Bedrock support requires 'strands-agents[bedrock]' and 'boto3' to be installed")).
Proof.
  unfold _create_bedrock_model, emit, bedrock_kwargs. monad_simpl.
  destruct bedrock_installed; [|done]. monad_simpl.
  destruct (BedrockConfig.profile c) as [p|]; monad_simpl; [|done].
  destruct (String.eqb p EmptyString); monad_simpl; [done|].
  cbn. by rewrite <- !app_assoc.
Qed.

(** A raw dict with a known provider goes through validation and then
    down the path of the typed config. *)
Lemma create_model_raw d calls :
  create_model OllamaConfig_init BedrockConfig_init ollama_installed
      bedrock_installed (Raw (JDict d)) calls =
    let provider := Dict.get_default "provider" JNull d in
    if py_eq_str provider "ollama" then
      match OllamaConfig_init d with
      | Ok c => create_model OllamaConfig_init BedrockConfig_init ollama_installed
      bedrock_installed (OfOllama c) calls
      | Raise e => (calls, Raise e)
      end
    else if py_eq_str provider "bedrock" then
      match BedrockConfig_init d with
      | Ok c => create_model OllamaConfig_init BedrockConfig_init ollama_installed
      bedrock_installed (OfBedrock c) calls
      | Raise e => (calls, Raise e)
      end
    else (calls, Raise (ValueError ("Unsupported provider: " +:+ py_str provider))).
Proof.
  unfold create_model. monad_simpl.
  destruct (py_eq_str _ "ollama").
  { by destruct (OllamaConfig_init d). }
  destruct (py_eq_str _ "bedrock"); [|done].
  by destruct (BedrockConfig_init d).
Qed.

(** X26.  One call, one handle: when [create_model] returns a model, the
    calls it made end with the one that constructed that model and hold
    no other construction; and every error the factory raises itself
    (failed validation, unsupported provider or type, SDK not installed;
    the SDK calls are taken to return) comes before any call is made. *)
Theorem create_model_one_call_one_handle config calls :
  match create_model OllamaConfig_init BedrockConfig_init ollama_installed
      bedrock_installed config calls with
  | (calls', Ok m) =>
      exists before,
        calls' = (calls ++ before ++ [model_call m])%list /\
        forallb (fun c => negb (is_model_call c)) before = true
  | (calls', Raise _) => calls' = calls
  end.
Proof.
  assert (forall c, match create_model OllamaConfig_init BedrockConfig_init ollama_installed
      bedrock_installed (OfOllama c) calls with
                    | (calls', Ok m) =>
                        exists before,
                          calls' = (calls ++ before ++ [model_call m])%list /\
                          forallb (fun c => negb (is_model_call c)) before = true
                    | (calls', Raise _) => calls' = calls
                    end) as Hollama.
  { intros c. unfold create_model. monad_simpl. rewrite create_ollama_calls.
    destruct ollama_installed; [by exists [] | done]. }
  assert (forall c, match create_model OllamaConfig_init BedrockConfig_init ollama_installed
      bedrock_installed (OfBedrock c) calls with
                    | (calls', Ok m) =>
                        exists before,
                          calls' = (calls ++ before ++ [model_call m])%list /\
                          forallb (fun c => negb (is_model_call c)) before = true
                    | (calls', Raise _) => calls' = calls
                    end) as Hbedrock.
  { intros c. unfold create_model. monad_simpl. rewrite create_bedrock_calls.
    destruct bedrock_installed; [|done].
    eexists. split; [done|]. by destruct (bm_client (bedrock_kwargs c)). }
  destruct config as [c|c|v]; [apply Hollama | apply Hbedrock |].
  destruct v as [| | | | |d]; try done.
  rewrite create_model_raw. cbn zeta.
  destruct (py_eq_str _ "ollama").
  { destruct (OllamaConfig_init d); [apply Hollama | done]. }
  destruct (py_eq_str _ "bedrock"); [|done].
  destruct (BedrockConfig_init d); [apply Hbedrock | done].
Qed.

(** X27.  The factory never calls into the other provider's SDK: every
    call made for a config tagged [ollama] is an Ollama call, every call
    made for one tagged [bedrock] a Bedrock or boto3 call, and for any
    other tag no call is made. *)
Theorem create_model_calls_own_provider config calls tag :
  tag_of config = Some tag ->
  exists made,
    fst (create_model OllamaConfig_init BedrockConfig_init ollama_installed
      bedrock_installed config calls) = (calls ++ made)%list /\
    Forall (fun c => provider_of_call c = tag) made.
Proof.
  assert (forall c, exists made,
            fst (create_model OllamaConfig_init BedrockConfig_init ollama_installed
      bedrock_installed (OfOllama c) calls) = (calls ++ made)%list /\
            Forall (fun c => provider_of_call c = "ollama") made) as Hollama.
  { intros c. unfold create_model. monad_simpl. rewrite create_ollama_calls.
    destruct ollama_installed.
    - eexists. split; [done|]. by repeat constructor.
    - exists []. by rewrite app_nil_r. }
  assert (forall c, exists made,
            fst (create_model OllamaConfig_init BedrockConfig_init ollama_installed
      bedrock_installed (OfBedrock c) calls) = (calls ++ made)%list /\
            Forall (fun c => provider_of_call c = "bedrock") made) as Hbedrock.
  { intros c. unfold create_model. monad_simpl. rewrite create_bedrock_calls.
    destruct bedrock_installed.
    - eexists. split; [done|].
      destruct (bm_client (bedrock_kwargs c)); by repeat constructor.
    - exists []. by rewrite app_nil_r. }
  assert (exists made : list call, calls = (calls ++ made)%list /\
            Forall (fun c => provider_of_call c = tag) made) as Hnone
    by (exists []; by rewrite app_nil_r).
  destruct config as [c|c|v]; cbn [tag_of].
  - intros [= <-]. apply Hollama.
  - intros [= <-]. apply Hbedrock.
  - destruct v as [| | | | |d]; try done.
    destruct (Dict.get "provider" d) as [[| | |s| |]|] eqn:Ep; try done.
    intros [= ->]. rewrite create_model_raw. cbn zeta.
    unfold Dict.get_default. rewrite Ep. unfold py_eq_str.
    destruct (String.eqb_spec tag "ollama") as [->|].
    { destruct (OllamaConfig_init d); [apply Hollama | exact Hnone]. }
    destruct (String.eqb_spec tag "bedrock") as [->|]; [|exact Hnone].
    destruct (BedrockConfig_init d); [apply Hbedrock | exact Hnone].
Qed.

(** X28.  A raw dict is treated as the typed config its validation
    yields: with a supported provider, [create_model] on the dict does
    what it does on the validated config, and a dict that fails
    validation raises that error with no call made. *)
Theorem create_model_raw_dict_as_typed d calls :
  (Dict.get "provider" d = Some (JStr "ollama") ->
   create_model OllamaConfig_init BedrockConfig_init ollama_installed
      bedrock_installed (Raw (JDict d)) calls =
     match OllamaConfig_init d with
     | Ok c => create_model OllamaConfig_init BedrockConfig_init ollama_installed
      bedrock_installed (OfOllama c) calls
     | Raise e => (calls, Raise e)
     end) /\
  (Dict.get "provider" d = Some (JStr "bedrock") ->
   create_model OllamaConfig_init BedrockConfig_init ollama_installed
      bedrock_installed (Raw (JDict d)) calls =
     match BedrockConfig_init d with
     | Ok c => create_model OllamaConfig_init BedrockConfig_init ollama_installed
      bedrock_installed (OfBedrock c) calls
     | Raise e => (calls, Raise e)
     end).
Proof.
  split; intros Hp; rewrite create_model_raw; cbn zeta;
    unfold Dict.get_default; by rewrite Hp.
Qed.

Variable OllamaConfig_new : string -> string -> float -> outcome OllamaConfig.t.
Variable BedrockConfig_new : string -> string -> float -> outcome BedrockConfig.t.
(** pydantic-settings gives the keyword arguments of a constructor
    priority over the environment and the field defaults: a config that
    is built holds the values it was passed. *)
Hypothesis OllamaConfig_new_fields : forall host model_id temperature c,
  OllamaConfig_new host model_id temperature = Ok c ->
  OllamaConfig.host c = host /\ OllamaConfig.model_id c = model_id /\
  OllamaConfig.temperature c = temperature.
Hypothesis BedrockConfig_new_fields : forall model_id region temperature c,
  BedrockConfig_new model_id region temperature = Ok c ->
  BedrockConfig.model_id c = model_id /\ BedrockConfig.region c = region /\
  BedrockConfig.temperature c = temperature.

(** X29.  [create_from_settings] dispatches on [ai_provider] and builds
    the model from the settings.  For ["ollama"], once the config
    validates and the SDK is installed, the one call made constructs the
    model returned, with the host, model and temperature of the settings.
    For ["bedrock"] likewise the model returned is the one the last call
    constructs, with the model id, region and temperature of the
    settings and [streaming=True].  A config that fails validation
    raises that error, a missing SDK raises [ImportError], any other
    provider raises [ValueError] naming it, and in each of these cases
    no call is made (the SDK calls are taken to return). *)
Theorem create_from_settings_dispatch settings calls :
  (Settings.ai_provider settings = "ollama" ->
   match OllamaConfig_new (Settings.ollama_host settings)
           (Settings.ollama_model settings) (Settings.ollama_temperature settings) with
   | Ok c =>
       if ollama_installed then
         create_from_settings OllamaConfig_init BedrockConfig_init ollama_installed
             bedrock_installed OllamaConfig_new BedrockConfig_new settings calls
         = ((calls ++ [Call_OllamaModel (Settings.ollama_host settings)
                         (Settings.ollama_model settings)
                         (Settings.ollama_temperature settings)
                         (OllamaConfig.keep_alive c)])%list,
            Ok (OllamaModel (Settings.ollama_host settings)
                  (Settings.ollama_model settings)
                  (Settings.ollama_temperature settings)
                  (OllamaConfig.keep_alive c)))
       else
         create_from_settings OllamaConfig_init BedrockConfig_init ollama_installed
             bedrock_installed OllamaConfig_new BedrockConfig_new settings calls
         = (calls, Raise (ImportError
              "Ollama support requires 'strands-agents[ollama]' to be installed"))
   | Raise e =>
       create_from_settings OllamaConfig_init BedrockConfig_init ollama_installed
           bedrock_installed OllamaConfig_new BedrockConfig_new settings calls
       = (calls, Raise e)
   end) /\
  (Settings.ai_provider settings = "bedrock" ->
   match BedrockConfig_new (Settings.bedrock_model settings)
           (Settings.bedrock_region settings) (Settings.bedrock_temperature settings) with
   | Ok c =>
       if bedrock_installed then
         exists kwargs before,
           create_from_settings OllamaConfig_init BedrockConfig_init ollama_installed
               bedrock_installed OllamaConfig_new BedrockConfig_new settings calls
           = ((calls ++ before ++ [Call_BedrockModel kwargs])%list,
              Ok (BedrockModel kwargs)) /\
           forallb (fun c => negb (is_model_call c)) before = true /\
           bm_model_id kwargs = Settings.bedrock_model settings /\
           bm_temperature kwargs = Settings.bedrock_temperature settings /\
           bm_streaming kwargs = true /\
           bm_region_name kwargs =
             (if String.eqb (Settings.bedrock_region settings) EmptyString then None
              else Some (Settings.bedrock_region settings))
       else
         create_from_settings OllamaConfig_init BedrockConfig_init ollama_installed
             bedrock_installed OllamaConfig_new BedrockConfig_new settings calls
         = (calls, Raise (ImportError
              "Bedrock support requires 'strands-agents[bedrock]' and 'boto3' to be installed"))
   | Raise e =>
       create_from_settings OllamaConfig_init BedrockConfig_init ollama_installed
           bedrock_installed OllamaConfig_new BedrockConfig_new settings calls
       = (calls, Raise e)
   end) /\
  (Settings.ai_provider settings <> "ollama" ->
   Settings.ai_provider settings <> "bedrock" ->
   create_from_settings OllamaConfig_init BedrockConfig_init ollama_installed
       bedrock_installed OllamaConfig_new BedrockConfig_new settings calls
   = (calls, Raise (ValueError ("Unsupported AI provider: "
                                +:+ Settings.ai_provider settings)))).
Proof.
  unfold create_from_settings. monad_simpl.
  split; [|split].
  - intros ->. cbn [String.eqb Ascii.eqb Bool.eqb]. monad_simpl.
    destruct (OllamaConfig_new _ _ _) as [c|e] eqn:Ec; monad_simpl; [|done].
    destruct (OllamaConfig_new_fields _ _ _ _ Ec) as (Hh & Hm & Ht).
    unfold create_model. monad_simpl. rewrite create_ollama_calls.
    destruct ollama_installed; [|done]. cbn [model_call].
    by rewrite Hh, Hm, Ht.
  - intros ->. cbn [String.eqb Ascii.eqb Bool.eqb]. monad_simpl.
    destruct (BedrockConfig_new _ _ _) as [c|e] eqn:Ec; monad_simpl; [|done].
    destruct (BedrockConfig_new_fields _ _ _ _ Ec) as (Hm & Hr & Ht).
    unfold create_model. monad_simpl. rewrite create_bedrock_calls.
    destruct bedrock_installed; [|done].
    eexists (bedrock_kwargs c), _. split; [done|].
    split; [by destruct (bm_client (bedrock_kwargs c))|].
    cbn. by rewrite Hm, Hr, Ht.
  - intros Ho Hb.
    destruct (String.eqb_spec (Settings.ai_provider settings) "ollama"); [done|].
    by destruct (String.eqb_spec (Settings.ai_provider settings) "bedrock").
Qed.

End WithRuntime.

End FactoryProps.

(** ** The printer and parser of the runtime *)

Module CodecFacts.
Import Codec.
Local Open Scope char_scope.
Local Open Scope list_scope.
Local Open Scope nat_scope.

(** Induction on values that reaches the items of lists and dicts. *)
Lemma json_nested_ind (P : json -> Prop) :
  P JNull -> (forall b, P (JBool b)) -> (forall n, P (JInt n)) ->
  (forall s, P (JStr s)) ->
  (forall l, Forall P l -> P (JList l)) ->
  (forall d, Forall (fun kv => P (snd kv)) d -> P (JDict d)) ->
  forall v, P v.
Proof.
  intros Hnull Hbool Hint Hstr Hlist Hdict.
  fix IH 1.
  intros [|b|n|s|l|d];
    [exact Hnull | apply Hbool | apply Hint | apply Hstr | apply Hlist | apply Hdict].
  - induction l as [|x l IHl]; constructor; [apply IH | exact IHl].
  - induction d as [|[k x] d IHd]; constructor; [apply IH | exact IHd].
Qed.

(** *** Whitespace *)

Definition all_ws (s : list ascii) : Prop := forallb is_ws s = true.

Lemma skip_ws_app ws s : all_ws ws -> skip_ws (ws ++ s) = skip_ws s.
Proof.
  unfold all_ws. induction ws as [|c ws IH]; simpl; [done|].
  intros [Hc Hws]%andb_prop. rewrite Hc. auto.
Qed.

Lemma all_ws_newline indent lvl : all_ws (newline indent lvl).
Proof.
  unfold all_ws, newline. destruct indent as [n|]; [|done]. simpl.
  induction (n * lvl)%nat; simpl; auto.
Qed.

(** A text that starts with the first character of a value: not
    whitespace and not a closing bracket. *)
Definition starts_value (s : list ascii) : Prop :=
  match s with
  | c :: _ => is_ws c = false /\ c <> "]" /\ c <> "}"
  | [] => False
  end.

Lemma skip_ws_starts_value s : starts_value s -> skip_ws s = s.
Proof. destruct s as [|c s]; [done|]. simpl. by intros [-> _]. Qed.

(** A text at which a run of digits ends. *)
Definition ends_number (s : list ascii) : Prop :=
  match s with
  | c :: _ => digit_of c = None
  | [] => True
  end.

(** *** Numbers *)

Lemma parse_uint_print d rest :
  ends_number rest -> parse_uint (print_uint d ++ rest) = (d, rest).
Proof.
  intros Hrest. induction d; simpl; try (by rewrite IHd).
  destruct rest as [|c rest]; [done|]. simpl in *. by rewrite Hrest.
Qed.

Lemma nzhead_valid d : nzhead d = d -> d <> Nil -> valid_digits d = true.
Proof.
  destruct d; try done. simpl. intros Hd _.
  assert (forall u, match nzhead u with D0 _ => False | _ => True end) as Hnz
    by (induction u; simpl; auto).
  specialize (Hnz d). rewrite Hd in Hnz. done.
Qed.

Lemma unorm_valid d : unorm d = d -> valid_digits d = true.
Proof.
  unfold unorm. destruct (nzhead d) eqn:E; intros <-; try done;
    rewrite <- E at 1; apply nzhead_valid; try done;
    rewrite E; simpl; by rewrite ?E.
Qed.

Lemma to_int_normal n : norm (Z.to_int n) = Z.to_int n.
Proof. rewrite <- (DecimalZ.of_to n) at 2. by rewrite DecimalZ.to_of. Qed.

Lemma to_int_valid n :
  match Z.to_int n with Pos d | Neg d => valid_digits d = true end.
Proof.
  pose proof (to_int_normal n) as Hn.
  destruct (Z.to_int n) as [d|d]; simpl in Hn.
  - injection Hn as Hd. by apply unorm_valid.
  - destruct (nzhead d) eqn:E; try done; injection Hn as <-;
      apply nzhead_valid; try done; simpl; by rewrite ?E.
Qed.

Lemma parse_int_unsigned c s :
  c <> "-" ->
  parse_int (c :: s) =
    let (d, rest) := parse_uint (c :: s) in
    if valid_digits d then Some (Z.of_int (Pos d), rest) else None.
Proof.
  intros Hc. unfold parse_int.
  destruct c as [[] [] [] [] [] [] [] []]; done.
Qed.

Lemma print_uint_head d rest :
  d <> Nil -> exists c s, print_uint d ++ rest = c :: s /\ c <> "-" /\
    is_ws c = false /\ c <> "]" /\ c <> "}".
Proof. destruct d; try done; intros _; simpl; eexists _, _; done. Qed.

Lemma parse_int_print n rest :
  ends_number rest -> parse_int (print_int n ++ rest) = Some (n, rest).
Proof.
  intros Hrest. unfold print_int. pose proof (to_int_valid n) as Hv.
  pose proof (DecimalZ.of_to n) as Hof.
  destruct (Z.to_int n) as [d|d].
  - destruct (print_uint_head d rest) as (c & s & Heq & Hc & _).
    { by destruct d. }
    pose proof (parse_uint_print d rest Hrest) as Hp.
    rewrite Heq in *. rewrite parse_int_unsigned by done.
    by rewrite Hp, Hv, Hof.
  - rewrite <- app_comm_cons. unfold parse_int. cbv beta iota.
    rewrite parse_uint_print by done. by rewrite Hv, Hof.
Qed.

Lemma print_int_starts_value n rest : starts_value (print_int n ++ rest).
Proof.
  unfold print_int. pose proof (to_int_valid n) as Hv.
  destruct (Z.to_int n) as [d|d]; [|done].
  destruct (print_uint_head d rest) as (c & s & -> & _ & ? & ? & ?); [|done].
  by destruct d.
Qed.

(** *** Strings *)

Lemma parse_string_escape c tail :
  parse_string (escape_char c ++ tail) = push c (parse_string tail).
Proof. destruct c as [[] [] [] [] [] [] [] []]; reflexivity. Qed.

Lemma parse_string_body cs rest :
  parse_string (flat_map escape_char cs ++ "034" :: rest)
  = Some (string_of_list_ascii cs, rest).
Proof.
  induction cs as [|c cs IH]; [done|].
  cbn [flat_map]. rewrite <- app_assoc, parse_string_escape, IH. done.
Qed.

Lemma print_string_parse s rest :
  exists body, print_string s ++ rest = "034" :: body /\
    parse_string body = Some (s, rest).
Proof.
  exists (flat_map escape_char (list_ascii_of_string s) ++ "034" :: rest).
  split.
  - unfold print_string. rewrite <- app_comm_cons. by rewrite <- app_assoc.
  - by rewrite parse_string_body, string_of_list_ascii_of_string.
Qed.

(** *** Layout *)

Lemma item_separator_shape indent lvl :
  exists w, item_separator indent lvl = "," :: w /\ all_ws w.
Proof.
  unfold item_separator. destruct indent as [n|].
  - eexists. split; [done|]. apply all_ws_newline.
  - by eexists.
Qed.

Lemma join_cons2 sep x y items :
  join sep (x :: y :: items) = x ++ sep ++ join sep (y :: items).
Proof. done. Qed.

Lemma join_length_item sep items x :
  In x items -> length x <= length (join sep items).
Proof.
  induction items as [|y items IH]; [done|].
  intros [->|Hin].
  - destruct items; [done|]. rewrite join_cons2, !length_app. lia.
  - destruct items; [done|]. rewrite join_cons2, !length_app.
    specialize (IH Hin). lia.
Qed.

Lemma join_length_count sep items :
  (forall x, In x items -> 1 <= length x) -> length items <= length (join sep items).
Proof.
  induction items as [|y items IH]; [simpl; lia|].
  intros Hne. assert (1 <= length y) by (apply Hne; by left).
  destruct items as [|z items]; [simpl; lia|].
  rewrite join_cons2, !length_app.
  assert (length (z :: items) <= length (join sep (z :: items)))
    by (apply IH; intros; apply Hne; by right).
  simpl in *. lia.
Qed.

Lemma bracket_nonempty indent lvl o c x items :
  bracket indent lvl o c (x :: items) =
    o :: newline indent (S lvl)
      ++ join (item_separator indent (S lvl)) (x :: items)
      ++ newline indent lvl ++ [c].
Proof. done. Qed.

Lemma bracket_length indent lvl o c x items :
  length (join (item_separator indent (S lvl)) (x :: items)) + 2
  <= length (bracket indent lvl o c (x :: items)).
Proof. rewrite bracket_nonempty. simpl. rewrite !length_app. simpl. lia. Qed.

Lemma print_starts_value indent lvl v rest :
  starts_value (print indent lvl v ++ rest).
Proof.
  destruct v as [|[]|n|s|[|x l]|[|kv d]]; try done.
  apply print_int_starts_value.
Qed.

Lemma print_length indent lvl v : 1 <= length (print indent lvl v).
Proof.
  pose proof (print_starts_value indent lvl v []) as Hs.
  rewrite app_nil_r in Hs. destruct (print indent lvl v); [done | simpl; lia].
Qed.

Lemma closes_starts_value c s :
  (c = "]" \/ c = "}") -> starts_value s -> closes c s = None.
Proof.
  intros Hc Hs. unfold closes. rewrite skip_ws_starts_value by done.
  destruct s as [|c' s]; [done|]. destruct Hs as (_ & H1 & H2).
  destruct (Ascii.eqb c' c) eqn:E; [|done].
  apply Ascii.eqb_eq in E. by destruct Hc; subst.
Qed.

Lemma closes_ws c ws s : all_ws ws -> closes c (ws ++ s) = closes c s.
Proof. intros Hws. unfold closes. by rewrite skip_ws_app. Qed.

(** *** Values *)

Lemma parse_value_ws fuel ws s :
  all_ws ws -> parse_value fuel (ws ++ s) = parse_value fuel s.
Proof. intros Hws. destruct fuel; [done|]. simpl. by rewrite skip_ws_app. Qed.

Lemma parse_value_ws_cons fuel c s :
  is_ws c = true -> parse_value fuel (c :: s) = parse_value fuel s.
Proof. intros Hc. apply (parse_value_ws fuel [c]). unfold all_ws. simpl. by rewrite Hc. Qed.

Lemma parse_value_number fuel c s :
  (digit_of c <> None \/ c = "-") ->
  parse_value (S fuel) (c :: s) =
    match parse_int (c :: s) with
    | Some (n, rest) => Some (JInt n, rest)
    | None => None
    end.
Proof.
  destruct c as [[] [] [] [] [] [] [] []]; intros [Hc|Hc]; try done.
Qed.

Lemma print_int_head n rest :
  exists c s, print_int n ++ rest = c :: s /\ (digit_of c <> None \/ c = "-").
Proof.
  unfold print_int. pose proof (to_int_valid n) as Hv.
  destruct (Z.to_int n) as [d|d].
  - destruct d; try done; simpl; eexists _, _; split; try done; by left.
  - simpl. eexists _, _. split; [done|]. by right.
Qed.

(** Printed with any layout and followed by [rest], the value parses back
    with [rest] left over, given fuel for the length of its text. *)
Definition parses_back (v : json) : Prop :=
  forall indent lvl fuel rest,
    length (print indent lvl v) <= fuel -> ends_number rest ->
    parse_value fuel (print indent lvl v ++ rest) = Some (v, rest).

Lemma ends_number_newline indent lvl c rest :
  digit_of c = None -> ends_number (newline indent lvl ++ c :: rest).
Proof. destruct indent; done. Qed.

Lemma skip_ws_newline indent lvl c rest :
  is_ws c = false -> skip_ws (newline indent lvl ++ c :: rest) = c :: rest.
Proof.
  intros Hc. rewrite skip_ws_app by apply all_ws_newline. simpl. by rewrite Hc.
Qed.

Lemma parse_items_print f indent lvl items :
  items <> [] ->
  Forall (fun x => forall rest, ends_number rest ->
            parse_value f (print indent (S lvl) x ++ rest) = Some (x, rest)) items ->
  forall fi ws rest, length items <= fi -> all_ws ws ->
    parse_items (parse_value f) fi
      (ws ++ join (item_separator indent (S lvl)) (map (print indent (S lvl)) items)
          ++ newline indent lvl ++ "]" :: rest)
    = Some (items, rest).
Proof.
  induction items as [|x items IH]; [done|].
  intros _ HF fi ws rest Hfi Hws.
  apply Forall_cons in HF as [Hx HF].
  destruct fi as [|fi]; [simpl in Hfi; lia|].
  destruct items as [|y items].
  - cbn [map join parse_items]. rewrite parse_value_ws by done.
    rewrite Hx by (by apply ends_number_newline).
    by rewrite skip_ws_newline.
  - cbn [map]. rewrite join_cons2.
    change (print indent (S lvl) y :: map (print indent (S lvl)) items)
      with (map (print indent (S lvl)) (y :: items)).
    set (J := join _ (map _ (y :: items))).
    destruct (item_separator_shape indent (S lvl)) as (w & -> & Hw).
    cbn [parse_items]. rewrite parse_value_ws by done.
    rewrite <- !app_assoc. rewrite Hx by done.
    rewrite <- app_comm_cons. cbn [skip_ws is_ws].
    subst J. rewrite IH; [done | done | done | simpl in *; lia | done].
Qed.

Lemma unique_NoDup ks : Dict.unique ks = true -> NoDup ks.
Proof.
  induction ks as [|k ks IH]; simpl; [constructor|].
  intros [Hk Hu]%andb_prop. constructor; [|auto].
  intros Hin. apply negb_true_iff in Hk.
  assert (existsb (String.eqb k) ks = true); [|congruence].
  apply existsb_exists. exists k. split; [by apply list_elem_of_In|].
  apply String.eqb_refl.
Qed.

Lemma set_fresh k v acc :
  k ∉ Dict.keys acc -> Dict.set k v acc = acc ++ [(k, v)].
Proof.
  induction acc as [|[k' v'] acc IH]; simpl; [done|].
  intros Hk. apply not_elem_of_cons in Hk as [Hne Hk].
  destruct (String.eqb k' k) eqn:E; [apply String.eqb_eq in E; done|].
  by rewrite IH.
Qed.

Lemma parse_members_print f indent lvl d :
  d <> [] ->
  Forall (fun kv => forall rest, ends_number rest ->
            parse_value f (print indent (S lvl) (snd kv) ++ rest)
            = Some (snd kv, rest)) d ->
  forall fi acc ws rest, length d <= fi -> all_ws ws ->
    NoDup (Dict.keys (acc ++ d)) ->
    parse_members (parse_value f) fi acc
      (ws ++ join (item_separator indent (S lvl))
               (map (fun kv => print_string (fst kv) ++ [":"; " "]
                                 ++ print indent (S lvl) (snd kv)) d)
          ++ newline indent lvl ++ "}" :: rest)
    = Some (acc ++ d, rest).
Proof.
  induction d as [|[k v] d IH]; [done|].
  intros _ HF fi acc ws rest Hfi Hws Hnd.
  apply Forall_cons in HF as [Hx HF]. simpl in Hx.
  destruct fi as [|fi]; [simpl in Hfi; lia|].
  assert (k ∉ Dict.keys acc) as Hfresh.
  { unfold Dict.keys in *. rewrite map_app in Hnd. simpl in Hnd.
    apply NoDup_app in Hnd as (_ & Hdisj & _).
    intros Hin. apply (Hdisj _ Hin). by left. }
  assert (NoDup (Dict.keys ((acc ++ [(k, v)]) ++ d))) as Hnd'
    by (by rewrite <- app_assoc).
  destruct d as [|kv d].
  - cbn [map join parse_members]. rewrite skip_ws_app by done.
    cbn [fst snd]. rewrite <- !app_assoc.
    destruct (print_string_parse k ([":"; " "] ++ print indent (S lvl) v
                ++ newline indent lvl ++ "}" :: rest)) as (body & -> & Hbody).
    cbn [skip_ws is_ws]. rewrite Hbody. cbn [skip_ws is_ws app].
    rewrite parse_value_ws_cons by done.
    rewrite Hx by (by apply ends_number_newline).
    rewrite skip_ws_newline by done. by rewrite set_fresh.
  - cbn [map]. rewrite join_cons2.
    match goal with
    | |- context [join ?sep (?a :: map ?g d)] =>
        change (a :: map g d) with (map g (kv :: d));
        set (J := join sep (map g (kv :: d)))
    end.
    destruct (item_separator_shape indent (S lvl)) as (w & -> & Hw).
    cbn [parse_members]. rewrite skip_ws_app by done.
    cbn [fst snd]. rewrite <- !app_assoc.
    match goal with
    | |- context [print_string k ++ ?tail] =>
        destruct (print_string_parse k tail) as (body & -> & Hbody)
    end.
    cbn [skip_ws is_ws]. rewrite Hbody. cbn [skip_ws is_ws app].
    rewrite parse_value_ws_cons by done.
    rewrite Hx by done. cbn [skip_ws is_ws].
    rewrite set_fresh by done. subst J.
    rewrite IH; [by rewrite <- app_assoc | done | done | simpl in *; lia | done | done].
Qed.

Lemma join_head sep (x : list ascii) items tail :
  exists t, join sep (x :: items) ++ tail = x ++ t.
Proof.
  destruct items as [|y items]; [by eexists|].
  rewrite join_cons2, <- app_assoc. by eexists.
Qed.

Lemma join_starts_value indent lvl sep x items tail :
  starts_value (join sep (map (print indent lvl) (x :: items)) ++ tail).
Proof.
  cbn [map]. destruct (join_head sep (print indent lvl x)
                         (map (print indent lvl) items) tail) as [t ->].
  apply print_starts_value.
Qed.

Lemma join_members_starts_value (g : string * json -> list ascii) sep kv d tail :
  starts_value (join sep (map (fun kv => print_string (fst kv) ++ g kv) (kv :: d)) ++ tail).
Proof.
  cbn [map]. destruct (join_head sep (print_string (fst kv) ++ g kv)
                         (map (fun kv => print_string (fst kv) ++ g kv) d) tail) as [t ->].
  done.
Qed.

(** Every well-formed value parses back from its printed text. *)
Theorem parse_print v : wf v = true -> parses_back v.
Proof.
  induction v as [|b|n|s|l IH|d IH] using json_nested_ind;
    intros Hwf indent lvl fuel rest Hlen Hrest;
    (destruct fuel as [|f];
     [match type of Hlen with
      | length (print _ _ ?v) <= 0 => pose proof (print_length indent lvl v); lia
      end |]).
  - done.
  - by destruct b.
  - cbn [print]. destruct (print_int_head n rest) as (c & t & Heq & Hc).
    rewrite Heq, parse_value_number by done. by rewrite <- Heq, parse_int_print.
  - cbn [print]. destruct (print_string_parse s rest) as (body & -> & Hbody).
    cbn [parse_value skip_ws is_ws]. by rewrite Hbody.
  - destruct l as [|x l]; [done|].
    cbn [print map] in Hlen |- *.
    pose proof (bracket_length indent lvl "[" "]" (print indent (S lvl) x)
                  (map (print indent (S lvl)) l)) as Hbl.
    rewrite bracket_nonempty.
    change (print indent (S lvl) x :: map (print indent (S lvl)) l)
      with (map (print indent (S lvl)) (x :: l)) in *.
    set (items := x :: l) in *.
    rewrite <- app_comm_cons, <- !app_assoc. cbn [app].
    cbn [parse_value skip_ws is_ws].
    rewrite closes_ws by apply all_ws_newline.
    rewrite closes_starts_value; [|by left|apply join_starts_value].
    rewrite parse_items_print; [done | done | | | apply all_ws_newline].
    + change (forallb wf items = true) in Hwf. rewrite Forall_forall in IH.
      apply Forall_forall. intros y Hy tail Htail.
      apply IH; [done | | | done].
      * rewrite forallb_forall in Hwf. apply Hwf. by apply list_elem_of_In.
      * assert (length (print indent (S lvl) y)
                <= length (join (item_separator indent (S lvl))
                             (map (print indent (S lvl)) items))); [|lia].
        apply join_length_item, in_map. by apply list_elem_of_In.
    + assert (length (map (print indent (S lvl)) items)
              <= length (join (item_separator indent (S lvl))
                           (map (print indent (S lvl)) items))).
      { apply join_length_count. intros t [y [<- _]]%in_map_iff.
        apply print_length. }
      rewrite length_map in *. lia.
  - destruct d as [|kv d]; [done|].
    cbn [print] in Hlen |- *.
    set (g := fun kv : string * json =>
                print_string (fst kv) ++ [":"; " "] ++ print indent (S lvl) (snd kv)) in *.
    cbn [map] in Hlen |- *.
    pose proof (bracket_length indent lvl "{" "}" (g kv) (map g d)) as Hbl.
    rewrite bracket_nonempty.
    change (g kv :: map g d) with (map g (kv :: d)) in *.
    set (items := kv :: d) in *.
    rewrite <- app_comm_cons, <- !app_assoc. cbn [app].
    cbn [parse_value skip_ws is_ws].
    rewrite closes_ws by apply all_ws_newline.
    rewrite closes_starts_value;
      [|by right|apply (join_members_starts_value
                          (fun kv => [":"; " "] ++ print indent (S lvl) (snd kv)))].
    change (Dict.unique (Dict.keys items)
            && forallb (fun kv => wf (snd kv)) items = true) in Hwf.
    apply andb_prop in Hwf as [Hu Hwf].
    subst g. rewrite (parse_members_print f indent lvl items);
      [done | done | | | apply all_ws_newline | by apply unique_NoDup].
    + rewrite Forall_forall in IH.
      apply Forall_forall. intros y Hy tail Htail.
      apply IH; [done | | | done].
      * rewrite forallb_forall in Hwf. apply Hwf. by apply list_elem_of_In.
      * set (g := fun kv : string * json =>
                print_string (fst kv) ++ [":"; " "] ++ print indent (S lvl) (snd kv)) in *.
        assert (length (g y) <= length (join (item_separator indent (S lvl)) (map g items))).
        { apply join_length_item, in_map. by apply list_elem_of_In. }
        assert (length (print indent (S lvl) (snd y)) <= length (g y)).
        { subst g. cbn beta. rewrite !length_app. lia. }
        lia.
    + set (g := fun kv : string * json =>
                print_string (fst kv) ++ [":"; " "] ++ print indent (S lvl) (snd kv)) in *.
      assert (length (map g items)
              <= length (join (item_separator indent (S lvl)) (map g items))).
      { apply join_length_count. intros t [y [<- _]]%in_map_iff.
        subst g. cbn beta. rewrite !length_app. simpl. lia. }
      rewrite length_map in *. lia.
Qed.

Lemma loads_dumps indent v : wf v = true -> loads (dumps indent v) = Some v.
Proof.
  intros Hwf. unfold loads, dumps. rewrite list_ascii_of_string_of_list_ascii.
  pose proof (parse_print v Hwf indent 0 (S (length (print indent 0 v))) []) as Hp.
  rewrite app_nil_r in Hp. rewrite Hp; [done | lia | done].
Qed.

(** *** The text is ASCII *)

Definition ascii_only (s : list ascii) : Prop := forallb is_ascii7 s = true.

Lemma ascii_only_app a b : ascii_only a -> ascii_only b -> ascii_only (a ++ b).
Proof. unfold ascii_only. intros Ha Hb. by rewrite forallb_app, Ha, Hb. Qed.

Lemma ascii_only_cons c s : is_ascii7 c = true -> ascii_only s -> ascii_only (c :: s).
Proof. unfold ascii_only. simpl. by intros -> ->. Qed.

Lemma escape_char_ascii c : ascii_only (escape_char c).
Proof. destruct c as [[] [] [] [] [] [] [] []]; reflexivity. Qed.

Lemma print_string_ascii s : ascii_only (print_string s).
Proof.
  unfold print_string. apply ascii_only_cons; [done|].
  apply ascii_only_app; [|done].
  induction (list_ascii_of_string s) as [|c cs IH]; [done|].
  cbn [flat_map]. apply ascii_only_app; [apply escape_char_ascii | done].
Qed.

Lemma print_uint_ascii d : ascii_only (print_uint d).
Proof. induction d; try done; by apply ascii_only_cons. Qed.

Lemma print_int_ascii n : ascii_only (print_int n).
Proof.
  unfold print_int. destruct (Z.to_int n); [apply print_uint_ascii|].
  apply ascii_only_cons; [done | apply print_uint_ascii].
Qed.

Lemma newline_ascii indent lvl : ascii_only (newline indent lvl).
Proof.
  unfold newline. destruct indent as [n|]; [|done].
  apply ascii_only_cons; [done|]. unfold ascii_only.
  induction (n * lvl); simpl; auto.
Qed.

Lemma item_separator_ascii indent lvl : ascii_only (item_separator indent lvl).
Proof.
  unfold item_separator. destruct indent; [|done].
  apply ascii_only_cons; [done | apply newline_ascii].
Qed.

Lemma join_ascii sep items :
  ascii_only sep -> Forall ascii_only items -> ascii_only (join sep items).
Proof.
  intros Hsep. induction items as [|x items IH]; [done|].
  intros [Hx Hitems]%Forall_cons. destruct items as [|y items]; [done|].
  rewrite join_cons2. repeat apply ascii_only_app; auto.
Qed.

Lemma bracket_ascii indent lvl o c items :
  is_ascii7 o = true -> is_ascii7 c = true -> Forall ascii_only items ->
  ascii_only (bracket indent lvl o c items).
Proof.
  intros Ho Hc Hitems. destruct items as [|x items].
  - unfold ascii_only. simpl. by rewrite Ho, Hc.
  - rewrite bracket_nonempty. apply ascii_only_cons; [done|].
    repeat apply ascii_only_app.
    + apply newline_ascii.
    + apply join_ascii; [apply item_separator_ascii | done].
    + apply newline_ascii.
    + unfold ascii_only. simpl. by rewrite Hc.
Qed.

Lemma print_ascii v : forall indent lvl, ascii_only (print indent lvl v).
Proof.
  induction v as [|b|n|s|l IH|d IH] using json_nested_ind; intros indent lvl.
  - done.
  - by destruct b.
  - apply print_int_ascii.
  - apply print_string_ascii.
  - cbn [print]. apply bracket_ascii; [done | done |].
    apply Forall_map. eapply Forall_impl; [exact IH|]. intros x Hx. apply Hx.
  - cbn [print]. apply bracket_ascii; [done | done |].
    apply Forall_map. eapply Forall_impl; [exact IH|]. intros [k x] Hx. cbn.
    apply ascii_only_app; [apply print_string_ascii|].
    do 2 (apply ascii_only_cons; [done|]). apply Hx.
Qed.

Lemma decode_encode text :
  ascii_only (list_ascii_of_string text) -> decode (encode text) = Some text.
Proof.
  intros Hascii. unfold decode, encode. rewrite map_map.
  rewrite (map_ext _ id) by apply ascii_of_byte_of_ascii.
  rewrite map_id. unfold ascii_only in Hascii. rewrite Hascii.
  by rewrite string_of_list_ascii_of_string.
Qed.

Lemma decode_encode_dumps indent v :
  decode (encode (dumps indent v)) = Some (dumps indent v).
Proof.
  apply decode_encode. unfold dumps.
  rewrite list_ascii_of_string_of_list_ascii. apply print_ascii.
Qed.

End CodecFacts.

(** The runtime instance: Python with the ASCII locale. *)
#[global] Instance ascii_runtime : PyRuntime := {|
  dumps := Codec.dumps;
  loads := Codec.loads;
  encode := Codec.encode;
  decode := Codec.decode;
  py_str := Codec.py_str;
  exn_str := Codec.exn_str;
  pydantic_str := Codec.pydantic_str;
  pydantic_dict := Codec.pydantic_dict;
  loads_dumps := CodecFacts.loads_dumps;
  decode_encode_dumps := CodecFacts.decode_encode_dumps;
  py_str_str := fun s => eq_refl;
  pydantic_str_str := fun s => eq_refl;
  pydantic_dict_dict := fun d => eq_refl;
|}.

(** Surroundings of [THEMES_DIR] in which nothing is found and nothing
    can be written. *)
#[global] Instance nothing_outside : Themes.Outside := {|
  Themes.outside_lookup := fun _ _ => None;
  Themes.outside_write := fun _ _ => raise OSError;
|}.

(** * The claims on concrete inputs, run on [ascii_runtime] *)

Module Witnesses.
Import Config Themes Factory.

Definition ui_entry : dict :=
  [("id", JStr "lavarrock.ui"); ("enabled", JBool true); ("settings", JDict [])].

Definition colors_theme : dict := [("colors", JDict [])].

(** C1 on the default document: two patches of [lavarrock.ui] with the
    disjoint keys [theme] and [font]. *)
Lemma patch_plugin_merge_union_witness :
  let body1 := [("settings", JDict [("theme", JStr "dark")])] in
  let body2 := [("settings", JDict [("font", JInt 12)])] in
  (current_document (initial None) = Some DEFAULT_CONFIG /\
   entry_of "lavarrock.ui" DEFAULT_CONFIG = Some ui_entry /\
   is_patch body1 = true /\ is_patch body2 = true /\
   Dict.disjoint (settings_of body1) (settings_of body2) = true /\
   CONFIG_FILE (initial None) <> Some Dir) /\
  exists st1 e1 st2 e2,
    patch_plugin "lavarrock.ui" body1 (initial None) = (st1, Ok (JDict e1)) /\
    patch_plugin "lavarrock.ui" body2 st1 = (st2, Ok (JDict e2)) /\
    Dict.get "theme" (settings_of e2) = Some (JStr "dark") /\
    Dict.get "font" (settings_of e2) = Some (JInt 12) /\
    Dict.get "enabled" e2 = Some (JBool true).
Proof.
  intros body1 body2.
  assert (current_document (initial None) = Some DEFAULT_CONFIG) as H1
    by (vm_compute; reflexivity).
  assert (entry_of "lavarrock.ui" DEFAULT_CONFIG = Some ui_entry) as H2
    by reflexivity.
  assert (CONFIG_FILE (initial None) <> Some Dir) as H6 by discriminate.
  split; [repeat split; try reflexivity; assumption|].
  destruct (ConfigFacts.patch_plugin_merge_union "lavarrock.ui" body1 body2
              (initial None) DEFAULT_CONFIG ui_entry H1 H2 eq_refl eq_refl eq_refl H6)
    as (st1 & doc1 & e1 & st2 & doc2 & e2 & P1 & _ & _ & _ & _ & En1 & P2 & _ & _
        & _ & _ & En2 & U).
  exists st1, e1, st2, e2.
  split; [exact P1|]. split; [exact P2|].
  split; [exact (U "theme")|]. split; [exact (U "font")|].
  rewrite (En2 eq_refl). exact (En1 eq_refl).
Defined.

(** C2 on a one-plugin document, with no backing file yet. *)
Lemma put_config_then_get_config_witness :
  let body := [("plugins", JList [JDict ui_entry])] in
  wf (JDict body) = true /\
  ((CONFIG_FILE (initial None) <> Some Dir ->
    exists st', put_config body (initial None) = (st', Ok (JDict body))) /\
   (forall st' r, put_config body (initial None) = (st', Ok r) ->
      r = JDict body /\ get_config st' = (st', Ok (JDict body)))).
Proof.
  intros body. split; [reflexivity|].
  exact (ConfigFacts.put_config_then_get_config body (initial None) eq_refl).
Defined.

(** C3 on a backing file that holds the single byte 0xFF. *)
Lemma get_config_raises_on_undecodable_bytes_witness :
  decode [xff] = None /\
  get_config (initial (Some (File [xff]))) =
    (initial (Some (File [xff])), Raise UnicodeDecodeError).
Proof.
  split; [reflexivity|].
  exact (ConfigFacts.get_config_raises_on_undecodable_bytes [xff] eq_refl).
Defined.

(** C4 on the default document and a plugin id it does not have. *)
Lemma patch_plugin_appends_entry_witness :
  let body := [("settings", JDict [("k", JInt 1)])] in
  let new_entry :=
    JDict [("id", JStr "my.plugin"); ("enabled", JBool true);
           ("settings", JDict [("k", JInt 1)])] in
  (current_document (initial None) = Some DEFAULT_CONFIG /\
   plugins_of DEFAULT_CONFIG = Some DEFAULT_PLUGINS /\
   index_of "my.plugin" DEFAULT_PLUGINS = None /\
   wf (JDict body) = true /\
   CONFIG_FILE (initial None) <> Some Dir) /\
  exists st' doc',
    patch_plugin "my.plugin" body (initial None) = (st', Ok new_entry) /\
    get_config st' = (st', Ok doc') /\
    plugins_of doc' = Some (DEFAULT_PLUGINS ++ [new_entry])%list.
Proof.
  intros body new_entry.
  assert (current_document (initial None) = Some DEFAULT_CONFIG) as H1
    by (vm_compute; reflexivity).
  assert (CONFIG_FILE (initial None) <> Some Dir) as H5 by discriminate.
  split; [repeat split; try reflexivity; assumption|].
  destruct (ConfigFacts.patch_plugin_appends_entry "my.plugin" body (initial None)
              DEFAULT_CONFIG DEFAULT_PLUGINS H1 eq_refl eq_refl eq_refl H5)
    as (st' & doc' & entries' & P & G & Pl & -> & _).
  exists st', doc'. split; [exact P|]. split; [exact G | exact Pl].
Defined.

(** C5 on a raw dict with an unknown provider. *)
Lemma create_model_unsupported_provider_witness :
  let d := [("provider", JStr "openai"); ("model_id", JStr "gpt")] in
  let no_init A : dict -> outcome A := fun _ => Raise ValidationError in
  (Dict.get "provider" d <> Some (JStr "ollama") /\
   Dict.get "provider" d <> Some (JStr "bedrock")) /\
  create_model (no_init _) (no_init _) true true (Raw (JDict d)) [] =
    ([], Raise (ValueError "Unsupported provider: openai")).
Proof.
  intros d no_init.
  assert (Dict.get "provider" d <> Some (JStr "ollama")) as H1 by discriminate.
  assert (Dict.get "provider" d <> Some (JStr "bedrock")) as H2 by discriminate.
  split; [by split|].
  exact (FactoryFacts.create_model_unsupported_provider (no_init _) (no_init _)
           true true d [] H1 H2).
Defined.

(** C6 as stated fails on a Bedrock config whose profile is the empty
    string, which is supplied and yet opens no session, and when the SDK
    cannot be imported, where nothing is requested at all. *)
Lemma create_model_bedrock_profile_counterexample :
  let no_init A : dict -> outcome A := fun _ => Raise ValidationError in
  let config :=
    {| BedrockConfig.model_id := BedrockConfig.model_id BedrockConfig.default;
       BedrockConfig.region := "us-west-2";
       BedrockConfig.profile := Some EmptyString;
       BedrockConfig.temperature := BedrockConfig.temperature BedrockConfig.default |} in
  let kwargs :=
    {| bm_model_id := BedrockConfig.model_id BedrockConfig.default;
       bm_temperature := BedrockConfig.temperature BedrockConfig.default;
       bm_streaming := true;
       bm_region_name := Some "us-west-2";
       bm_client := None |} in
  create_model (no_init _) (no_init _) true true (OfBedrock config) [] =
    ([Call_BedrockModel kwargs], Ok (BedrockModel kwargs)) /\
  create_model (no_init _) (no_init _) true false (OfBedrock config) [] =
    ([], Raise (ImportError
      "Bedrock support requires 'strands-agents[bedrock]' and 'boto3' to be installed")).
Proof. split; reflexivity. Qed.



(** C9 on a name with no file. *)
Lemma delete_theme_not_found_witness :
  let dir : gmap string node := {[ "dark.json" := File [] ]} in
  dir !! theme_file_of "ghost" = None /\
  delete_theme "ghost" dir = (dir, Raise (HTTPException 404 "Theme not found")).
Proof.
  intros dir.
  assert (dir !! theme_file_of "ghost" = None) as H1 by reflexivity.
  split; [exact H1|].
  exact (ThemesFacts.delete_theme_not_found "ghost" dir H1).
Defined.

End Witnesses.

(** * The further properties at concrete inputs *)

Module PropsWitnesses.
Import Config Themes Factory.
Import Witnesses.

(** A store whose backing file holds [doc] as [_write_config] prints it. *)
Definition stored (doc : json) : store :=
  initial (Some (File (encode (dumps (Some 2%nat) doc)))).

(** The directory after [dark] was uploaded into an empty one. *)
Definition dark_dir : gmap string node :=
  fst (upload_theme "dark" colors_theme ∅).

(** The directory after [light] and then [dark] were uploaded. *)
Definition two_dir : gmap string node :=
  fst (upload_theme "dark" colors_theme (fst (upload_theme "light" colors_theme ∅))).

(** [os.scandir] returning the names in key order. *)
Definition scandir (dir : gmap string node) : list string := (map_to_list dir).*1.

Lemma scandir_perm dir : scandir dir ≡ₚ (map_to_list dir).*1.
Proof. reflexivity. Qed.

Definition no_init (A : Type) : dict -> outcome A := fun _ => Raise ValidationError.

(** X2 on a backing file that holds the text [{]. *)
Lemma get_config_default_on_bad_file_witness :
  let file := Some (File (encode "{")) in
  (exists text, decode (encode "{") = Some text /\ loads text = None) /\
  get_config (initial file) = (initial file, Ok DEFAULT_CONFIG).
Proof.
  intros file.
  assert (exists text, decode (encode "{") = Some text /\ loads text = None) as H1
    by (exists "{"; split; vm_compute; reflexivity).
  split; [exact H1|].
  exact (ConfigProps.get_config_default_on_bad_file file H1).
Defined.

(** X3 on the default document stored in the file and a body that
    disables [lavarrock.ui]. *)
Lemma patch_plugin_on_loaded_file_witness :
  let st := stored DEFAULT_CONFIG in
  let body := [("enabled", JBool false)] in
  ConfigProps.loaded st = Some DEFAULT_CONFIG /\
  default_plugins (fst (patch_plugin "lavarrock.ui" body st)) = DEFAULT_PLUGINS.
Proof.
  intros st body.
  assert (ConfigProps.loaded st = Some DEFAULT_CONFIG) as H1
    by (vm_compute; reflexivity).
  split; [exact H1|].
  exact (proj1 (ConfigProps.patch_plugin_on_loaded_file "lavarrock.ui" body st
                  DEFAULT_CONFIG H1)).
Defined.

(** X4 on a backing file that holds a JSON list. *)
Lemma patch_plugin_malformed_document_witness :
  let st := stored (JList []) in
  ConfigProps.loaded st = Some (JList []) /\
  patch_plugin "lavarrock.ui" [] st = (st, Raise AttributeError).
Proof.
  intros st.
  assert (ConfigProps.loaded st = Some (JList [])) as H1 by (vm_compute; reflexivity).
  split; [exact H1|].
  exact (ConfigProps.patch_plugin_malformed_document "lavarrock.ui" [] st (JList []) H1).
Defined.

(** X5 on a list whose second entry is a number. *)
Lemma patch_plugin_unreadable_entry_witness :
  let pre := [JDict [("id", JStr "a")]] in
  let cd := [("plugins", JList (pre ++ JInt 5 :: [JDict [("id", JStr "b")]]))] in
  let st := stored (JDict cd) in
  (ConfigProps.loaded st = Some (JDict cd) /\
   forallb (ConfigProps.has_other_id "b") pre = true /\
   ConfigProps.unreadable_entry (JInt 5) = Some TypeError) /\
  patch_plugin "b" [] st = (st, Raise TypeError).
Proof.
  intros pre cd st.
  assert (ConfigProps.loaded st = Some (JDict cd)) as H1 by (vm_compute; reflexivity).
  split; [repeat split; try reflexivity; exact H1|].
  exact (ConfigProps.patch_plugin_unreadable_entry "b" [] st cd pre (JInt 5)
           [JDict [("id", JStr "b")]] TypeError H1 eq_refl eq_refl eq_refl).
Defined.

(** X6 on the default document and a body whose settings are a number. *)
Lemma patch_plugin_settings_not_a_mapping_witness :
  let st := stored DEFAULT_CONFIG in
  let body := [("settings", JInt 5)] in
  (ConfigProps.loaded st = Some DEFAULT_CONFIG /\
   is_document DEFAULT_CONFIG = true /\
   entry_of "lavarrock.ui" DEFAULT_CONFIG = Some ui_entry) /\
  patch_plugin "lavarrock.ui" body st = (st, Raise TypeError).
Proof.
  intros st body.
  assert (ConfigProps.loaded st = Some DEFAULT_CONFIG) as H1
    by (vm_compute; reflexivity).
  split; [repeat split; try reflexivity; exact H1|].
  exact (ConfigProps.patch_plugin_settings_not_a_mapping "lavarrock.ui" body st
           DEFAULT_CONFIG ui_entry (JInt 5) H1 eq_refl eq_refl eq_refl eq_refl).
Defined.

(** X7 on the default document: the same theme setting sent twice. *)
Lemma patch_plugin_idempotent_witness :
  let body := [("settings", JDict [("theme", JStr "dark")])] in
  (current_document (initial None) = Some DEFAULT_CONFIG /\
   entry_of "lavarrock.ui" DEFAULT_CONFIG = Some ui_entry /\
   is_patch body = true) /\
  exists st1 st2 r doc1,
    patch_plugin "lavarrock.ui" body (initial None) = (st1, Ok r) /\
    patch_plugin "lavarrock.ui" body st1 = (st2, Ok r) /\
    current_document st1 = Some doc1 /\
    current_document st2 = Some doc1.
Proof.
  intros body.
  assert (current_document (initial None) = Some DEFAULT_CONFIG) as H1
    by (vm_compute; reflexivity).
  assert (CONFIG_FILE (initial None) <> Some Dir) as H4 by discriminate.
  split; [repeat split; try reflexivity; exact H1|].
  exact (ConfigProps.patch_plugin_idempotent "lavarrock.ui" body (initial None)
           DEFAULT_CONFIG ui_entry H1 eq_refl eq_refl H4).
Defined.

(** X8 on the default document: a patch of [lavarrock.wm], the second
    entry, leaves the first one as it was. *)
Lemma patch_plugin_frame_witness :
  let body := [("enabled", JBool false)] in
  let cd := [("plugins", JList DEFAULT_PLUGINS)] in
  let e := [("id", JStr "lavarrock.wm"); ("enabled", JBool true); ("settings", JDict [])] in
  (current_document (initial None) = Some (JDict cd) /\
   index_of "lavarrock.wm" DEFAULT_PLUGINS = Some 1%nat /\
   DEFAULT_PLUGINS !! 1%nat = Some (JDict e) /\
   is_patch body = true) /\
  exists st' cd' entries',
    current_document st' = Some (JDict cd') /\
    plugins_of (JDict cd') = Some entries' /\
    length entries' = length DEFAULT_PLUGINS /\
    entries' !! 0%nat = Some (JDict ui_entry).
Proof.
  intros body cd e.
  assert (current_document (initial None) = Some (JDict cd)) as H1
    by (vm_compute; reflexivity).
  assert (CONFIG_FILE (initial None) <> Some Dir) as H6 by discriminate.
  split; [repeat split; try reflexivity; exact H1|].
  destruct (ConfigProps.patch_plugin_frame "lavarrock.wm" body (initial None) cd
              DEFAULT_PLUGINS 1%nat e H1 eq_refl eq_refl eq_refl eq_refl H6)
    as (st' & cd' & entries' & e' & _ & D & Pl & Len & _ & Others & _).
  exists st', cd', entries'.
  split; [exact D|]. split; [exact Pl|]. split; [exact Len|].
  rewrite (Others 0%nat); [reflexivity | discriminate].
Defined.

(** X9 on the default document and an id it does not have. *)
Lemma patch_plugin_keeps_document_witness :
  let body := [("settings", JDict [("k", JInt 1)])] in
  (current_document (initial None) = Some DEFAULT_CONFIG /\ is_patch body = true) /\
  exists st' doc' r,
    patch_plugin "my.plugin" body (initial None) = (st', Ok (JDict r)) /\
    current_document st' = Some doc' /\
    entry_of "my.plugin" doc' = Some r.
Proof.
  intros body.
  assert (current_document (initial None) = Some DEFAULT_CONFIG) as H1
    by (vm_compute; reflexivity).
  assert (CONFIG_FILE (initial None) <> Some Dir) as H3 by discriminate.
  split; [split; [exact H1 | reflexivity]|].
  destruct (ConfigProps.patch_plugin_keeps_document "my.plugin" body (initial None)
              DEFAULT_CONFIG H1 eq_refl H3) as (st' & doc' & r & P & D & E & _).
  exists st', doc', r. split; [exact P|]. split; [exact D | exact E].
Defined.

(** X10 on the directory that holds [dark] as the active theme. *)
Lemma delete_theme_clears_active_witness :
  let bytes := encode (dumps (Some 2%nat) (JDict colors_theme)) in
  (active_reference dark_dir = Some "dark" /\
   dark_dir !! theme_file_of "dark" = Some (File bytes)) /\
  exists dir',
    delete_theme "dark" dark_dir = (dir', Ok deleted_message) /\
    dir' !! ACTIVE_THEME_FILE = None /\
    get_active_theme dir' = (dir', Ok None).
Proof.
  intros bytes.
  assert (active_reference dark_dir = Some "dark") as H1 by (vm_compute; reflexivity).
  assert (dark_dir !! theme_file_of "dark" = Some (File bytes)) as H2
    by (vm_compute; reflexivity).
  split; [split; assumption|].
  destruct (ThemesProps.delete_theme_clears_active dark_dir "dark" bytes H1 H2)
    as (dir' & D & _ & R & G).
  exists dir'. split; [exact D|]. split; [exact R | exact G].
Defined.

(** X11 on the directory that holds [light] and the active [dark]. *)
Lemma delete_theme_keeps_active_witness :
  let bytes := encode (dumps (Some 2%nat) (JDict colors_theme)) in
  (active_reference two_dir = Some "dark" /\
   two_dir !! theme_file_of "light" = Some (File bytes)) /\
  snd (get_active_theme (delete (theme_file_of "light") two_dir))
  = snd (get_active_theme two_dir).
Proof.
  intros bytes.
  assert (active_reference two_dir = Some "dark") as H1 by (vm_compute; reflexivity).
  assert (two_dir !! theme_file_of "light" = Some (File bytes)) as H2
    by (vm_compute; reflexivity).
  assert ("light" <> "active_theme") as H0 by discriminate.
  assert (match active_reference two_dir with
          | Some a => a <> "light" /\ plain_name a = true
          | None => two_dir !! ACTIVE_THEME_FILE = None
          end) as H3 by (rewrite H1; split; [discriminate | reflexivity]).
  split; [split; assumption|].
  exact (proj2 (proj2 (ThemesProps.delete_theme_keeps_active two_dir "light" bytes
                         H0 H2 H3))).
Defined.

(** X13 on a directory whose reference names [dark] while [dark.json]
    has been removed by hand. *)
Lemma get_active_theme_dangling_reference_witness :
  let dir := delete "dark.json" dark_dir in
  (active_reference dir = Some "dark" /\ dir !! theme_file_of "dark" = None) /\
  get_active_theme dir = (dir, Ok None).
Proof.
  intros dir.
  assert (active_reference dir = Some "dark") as H1 by (vm_compute; reflexivity).
  assert (dir !! theme_file_of "dark" = None) as H2 by (vm_compute; reflexivity).
  split; [split; assumption|].
  exact (ThemesProps.get_active_theme_dangling_reference dir "dark" H1
           (or_intror (conj eq_refl H2))).
Defined.

(** X14 on a reference file that holds the single byte 0xFF. *)
Lemma get_active_theme_corrupt_reference_witness :
  let dir : gmap string node := {[ ACTIVE_THEME_FILE := File [xff] ]} in
  dir !! ACTIVE_THEME_FILE = Some (File [xff]) /\
  get_active_theme dir
  = (dir, Raise (HTTPException 500
                   ("Failed to load theme: " +:+ exn_str UnicodeDecodeError))).
Proof.
  intros dir.
  assert (dir !! ACTIVE_THEME_FILE = Some (File [xff])) as H1 by reflexivity.
  split; [exact H1|].
  exact (ThemesProps.get_active_theme_corrupt_reference dir (File [xff]) H1).
Defined.





(** X19 on a theme [dark] next to a reference file holding the byte 0xFF. *)
Lemma delete_theme_unlinks_before_failure_witness :
  let dir : gmap string node :=
    {[ "dark.json" := File []; ACTIVE_THEME_FILE := File [xff] ]} in
  (dir !! theme_file_of "dark" = Some (File []) /\
   dir !! ACTIVE_THEME_FILE = Some (File [xff]) /\
   json_load (File [xff]) = Raise UnicodeDecodeError) /\
  delete_theme "dark" dir =
    (delete (theme_file_of "dark") dir,
     Raise (HTTPException 500 ("Failed to delete theme: " +:+ exn_str UnicodeDecodeError))).
Proof.
  intros dir.
  assert (dir !! theme_file_of "dark" = Some (File [])) as H2 by reflexivity.
  assert (dir !! ACTIVE_THEME_FILE = Some (File [xff])) as H3 by reflexivity.
  split; [repeat split; try reflexivity; assumption|].
  refine (ThemesProps.delete_theme_unlinks_before_failure "dark" [] (File [xff])
            UnicodeDecodeError dir _ H2 H3 eq_refl).
  discriminate.
Defined.

(** X20 on the directory that holds [dark] as the active theme. *)
Lemma delete_theme_twice_witness :
  delete_theme "dark" dark_dir = (∅, Ok deleted_message) /\
  delete_theme "dark" ∅ = (∅, Raise (HTTPException 404 "Theme not found")).
Proof.
  assert (delete_theme "dark" dark_dir = (∅, Ok deleted_message)) as H1
    by (vm_compute; reflexivity).
  split; [exact H1|].
  exact (proj2 (ThemesProps.delete_theme_twice "dark" deleted_message dark_dir ∅ H1)).
Defined.

(** X22 on the listing of the directory that holds [dark]. *)
Lemma list_themes_skips_reference_witness :
  let r := {| name := "dark"; theme := colors_theme; active := true |} in
  list_themes scandir dark_dir = (dark_dir, Ok [r]) /\
  name r <> "active_theme".
Proof.
  intros r.
  assert (list_themes scandir dark_dir = (dark_dir, Ok [r])) as H1
    by (vm_compute; reflexivity).
  split; [exact H1|].
  refine (ThemesProps.list_themes_skips_reference scandir dark_dir dark_dir [r] r H1 _).
  constructor.
Defined.

(** X23 on the directory that holds [light] and the active [dark]. *)
Lemma list_themes_lists_every_theme_witness :
  (ThemesProps.active_name_of two_dir = Some (JStr "dark") /\
   ThemesProps.all_listed two_dir (JStr "dark") = true) /\
  exists l,
    list_themes scandir two_dir = (two_dir, Ok l) /\
    length l = 2%nat.
Proof.
  assert (ThemesProps.active_name_of two_dir = Some (JStr "dark")) as H1
    by (vm_compute; reflexivity).
  assert (ThemesProps.all_listed two_dir (JStr "dark") = true) as H2
    by (vm_compute; reflexivity).
  split; [split; assumption|].
  destruct (ThemesProps.list_themes_lists_every_theme scandir scandir_perm two_dir
              (JStr "dark") H1 H2) as (l & L & _ & Len).
  exists l. split; [exact L|]. rewrite Len. vm_compute. reflexivity.
Defined.

(** X24 on a directory with one theme file holding the byte 0xFF. *)
Lemma list_themes_fails_on_one_bad_file_witness :
  let dir : gmap string node := {[ "bad.json" := File [xff] ]} in
  (ThemesProps.active_name_of dir = Some JNull /\
   dir !! "bad.json" = Some (File [xff]) /\
   ThemesProps.is_theme_file "bad.json" = true /\
   ThemesProps.listed dir JNull "bad.json" = None) /\
  exists e, list_themes scandir dir
            = (dir, Raise (HTTPException 500 ("Failed to list themes: " +:+ exn_str e))).
Proof.
  intros dir.
  assert (ThemesProps.active_name_of dir = Some JNull /\
          dir !! "bad.json" = Some (File [xff]) /\
          ThemesProps.is_theme_file "bad.json" = true /\
          ThemesProps.listed dir JNull "bad.json" = None) as H1
    by (repeat split; vm_compute; reflexivity).
  split; [exact H1|].
  apply (ThemesProps.list_themes_fails_on_one_bad_file scandir scandir_perm dir).
  right. exists JNull, "bad.json", (File [xff]). exact H1.
Defined.


(** X27 on the default Bedrock config with the profile [dev]. *)
Lemma create_model_calls_own_provider_witness :
  let config :=
    {| BedrockConfig.model_id := BedrockConfig.model_id BedrockConfig.default;
       BedrockConfig.region := "us-west-2";
       BedrockConfig.profile := Some "dev";
       BedrockConfig.temperature := BedrockConfig.temperature BedrockConfig.default |} in
  FactoryProps.tag_of (OfBedrock config) = Some "bedrock" /\
  exists made,
    fst (create_model (no_init _) (no_init _) true true (OfBedrock config) []) = made /\
    Forall (fun c => provider_of_call c = "bedrock") made.
Proof.
  intros config. split; [reflexivity|].
  exact (FactoryProps.create_model_calls_own_provider (no_init _) (no_init _) true true
           (OfBedrock config) [] "bedrock" eq_refl).
Defined.

(** X28 on a raw dict that validates to the default Ollama config. *)
Lemma create_model_raw_dict_as_typed_witness :
  let d := [("provider", JStr "ollama")] in
  let init : dict -> outcome OllamaConfig.t := fun _ => Ok OllamaConfig.default in
  Dict.get "provider" d = Some (JStr "ollama") /\
  create_model init (no_init _) true true (Raw (JDict d)) [] =
    create_model init (no_init _) true true (OfOllama OllamaConfig.default) [].
Proof.
  intros d init. split; [reflexivity|].
  exact (proj1 (FactoryProps.create_model_raw_dict_as_typed init (no_init _) true true
                  d []) eq_refl).
Defined.

(** Constructors for an environment that sets none of the
    [OLLAMA_] and [BEDROCK_] variables. *)
Definition OllamaConfig_new (host model_id : string) (temperature : float)
    : outcome OllamaConfig.t :=
  Ok {| OllamaConfig.host := host; OllamaConfig.model_id := model_id;
        OllamaConfig.temperature := temperature;
        OllamaConfig.keep_alive := OllamaConfig.keep_alive OllamaConfig.default |}.

Definition BedrockConfig_new (model_id region : string) (temperature : float)
    : outcome BedrockConfig.t :=
  Ok {| BedrockConfig.model_id := model_id; BedrockConfig.region := region;
        BedrockConfig.profile := None;
        BedrockConfig.temperature := temperature |}.

Lemma OllamaConfig_new_fields host model_id temperature c :
  OllamaConfig_new host model_id temperature = Ok c ->
  OllamaConfig.host c = host /\ OllamaConfig.model_id c = model_id /\
  OllamaConfig.temperature c = temperature.
Proof. by intros [= <-]. Qed.

Lemma BedrockConfig_new_fields model_id region temperature c :
  BedrockConfig_new model_id region temperature = Ok c ->
  BedrockConfig.model_id c = model_id /\ BedrockConfig.region c = region /\
  BedrockConfig.temperature c = temperature.
Proof. by intros [= <-]. Qed.

(** X29 on the default settings, whose provider is [ollama]. *)
Lemma create_from_settings_dispatch_witness :
  let settings :=
    {| Settings.api_title := "Lavarrock";
       Settings.api_version := "0.1.0";
       Settings.debug := false;
       Settings.ai_provider := "ollama";
       Settings.ollama_host := "http://localhost:11434";
       Settings.ollama_model := "llama3.1:latest";
       Settings.ollama_temperature := OllamaConfig.temperature OllamaConfig.default;
       Settings.bedrock_region := "us-west-2";
       Settings.bedrock_model := "anthropic.claude-sonnet-4-20250514-v1:0";
       Settings.bedrock_temperature := BedrockConfig.temperature BedrockConfig.default;
       Settings.database_url := "sqlite:///./lavarrock.db";
       Settings.log_level := "INFO" |} in
  let m :=
    OllamaModel "http://localhost:11434" "llama3.1:latest"
      (OllamaConfig.temperature OllamaConfig.default) "10m" in
  Settings.ai_provider settings = "ollama" /\
  create_from_settings (no_init _) (no_init _) true true OllamaConfig_new
    BedrockConfig_new settings []
  = ([model_call m], Ok m).
Proof.
  intros settings m. split; [reflexivity|].
  exact (proj1 (FactoryProps.create_from_settings_dispatch (no_init _) (no_init _)
                  true true OllamaConfig_new BedrockConfig_new
                  OllamaConfig_new_fields BedrockConfig_new_fields settings [])
           eq_refl).
Defined.

End PropsWitnesses.
